(** * equity-idx: the formatter, the ownership resolver, the table projector
      and the per-ticker driver of [get_yfinance.py], embedded in Rocq.

    The Python values that flow through the program are modelled by [value];
    Python floats are IEEE binary64 numbers, taken from the Standard Library's
    [spec_float] with [prec = 53] and [emax = 1024]; exceptions are explicit
    in the [result] type.  A str is the list of its characters, each a code
    point below 256. *)

From Stdlib Require Import ZArith List String Ascii Bool Lia.
From Stdlib Require Import Floats.SpecFloat.
Import ListNotations.

Local Open Scope string_scope.
Local Open Scope Z_scope.

(* ================================================================= *)
(** ** Python values, exceptions and results *)

Module Py.

(** The exception classes the program can meet.  All but [KeyboardInterrupt]
    are subclasses of [Exception]; [RemoteError] stands for whatever else
    the libraries raise (network errors, HTTP errors, I/O errors, ...). *)
Inductive exn : Type :=
| ValueError
| TypeError
| OverflowError
| IndexError
| KeyError
| RemoteError (msg : string)
| KeyboardInterrupt.

(** [isinstance(e, Exception)] *)
Definition is_Exception (e : exn) : bool :=
  match e with
  | KeyboardInterrupt => false
  | _ => true
  end.

(** [isinstance(e, (ValueError, TypeError))] *)
Definition is_ValueError_or_TypeError (e : exn) : bool :=
  match e with
  | ValueError | TypeError => true
  | _ => false
  end.

Inductive result (A : Type) : Type :=
| Ok (a : A)
| Raise (e : exn).
Arguments Ok {A} a.
Arguments Raise {A} e.

Definition bind {A B : Type} (m : result A) (k : A -> result B) : result B :=
  match m with
  | Ok a => k a
  | Raise e => Raise e
  end.

(** [try: body  except <classes>: handler] *)
Definition try_except {A : Type} (body : result A) (classes : exn -> bool)
    (handler : exn -> result A) : result A :=
  match body with
  | Ok a => Ok a
  | Raise e => if classes e then handler e else Raise e
  end.

(** Binary64. *)
Definition float : Type := spec_float.
Definition prec : Z := 53.
Definition emax : Z := 1024.

Definition fsub : float -> float -> float := SFsub prec emax.
Definition fmul : float -> float -> float := SFmul prec emax.
Definition fdiv : float -> float -> float := SFdiv prec emax.
Definition fabs : float -> float := SFabs.
Definition fltb : float -> float -> bool := SFltb.
Definition fleb : float -> float -> bool := SFleb.

(** The float nearest to an integer (ties to even); infinite when the
    integer is beyond the range of binary64. *)
Definition float_of_Z (z : Z) : float := binary_normalize prec emax z 0 false.

(** The float nearest to [num / den], for positive [num] and [den]. *)
Definition float_of_ratio (neg : bool) (num den : Z) : float :=
  let '(m, e, l) := SFdiv_core_binary prec emax num 0 den 0 in
  binary_round_aux prec emax neg m e l.

Definition is_finite (x : float) : bool :=
  match x with
  | S754_zero _ | S754_finite _ _ _ => true
  | _ => false
  end.

(** The values of the provider's field bags and of the tables built from
    them: [None], a float, an int, a str. *)
Inductive value : Type :=
| VNone
| VFloat (f : float)
| VInt (z : Z)
| VStr (s : string).

(* ----------------------------------------------------------------- *)
(** *** Characters and decimal digits *)

Definition digit_of_ascii (c : ascii) : option Z :=
  let n := Z.of_nat (nat_of_ascii c) in
  if (48 <=? n) && (n <=? 57) then Some (n - 48) else None.

Definition is_digit (c : ascii) : bool :=
  match digit_of_ascii c with Some _ => true | None => false end.

Definition ascii_of_digit (d : Z) : ascii := ascii_of_nat (Z.to_nat (48 + d)).

(** The white space [float] skips around a number: the ASCII characters
    tab to carriage return and the blank, and, of the code points from 128
    to 255, the two Unicode spaces (next line, no-break space), which
    [float] reads as blanks.  The separators U+001C to U+001F, white space
    for [str.isspace], are not skipped. *)
Definition is_space (c : ascii) : bool :=
  let n := Z.of_nat (nat_of_ascii c) in
  ((9 <=? n) && (n <=? 13)) || (n =? 32) || (n =? 133) || (n =? 160).

Definition lower (c : ascii) : ascii :=
  let n := nat_of_ascii c in
  if (65 <=? n)%nat && (n <=? 90)%nat then ascii_of_nat (n + 32) else c.

Fixpoint lower_string (s : string) : string :=
  match s with
  | EmptyString => EmptyString
  | String c s' => String (lower c) (lower_string s')
  end.

Fixpoint string_rev_onto (s acc : string) : string :=
  match s with
  | EmptyString => acc
  | String c s' => string_rev_onto s' (String c acc)
  end.

Definition string_rev (s : string) : string := string_rev_onto s EmptyString.

(** [s.lstrip(chars)], [s.rstrip(chars)] and [s.strip(chars)] for a set of
    characters given by its membership test. *)
Fixpoint lstrip (drop : ascii -> bool) (s : string) : string :=
  match s with
  | EmptyString => EmptyString
  | String c s' => if drop c then lstrip drop s' else s
  end.

Definition rstrip (drop : ascii -> bool) (s : string) : string :=
  string_rev (lstrip drop (string_rev s)).

Definition strip (drop : ascii -> bool) (s : string) : string :=
  rstrip drop (lstrip drop s).

(** The decimal digits of a natural number, most significant first. *)
Fixpoint decimal_digits (fuel : nat) (n : Z) (acc : string) : string :=
  let acc' := String (ascii_of_digit (n mod 10)) acc in
  match fuel with
  | O => acc'
  | S fuel' => if n <? 10 then acc' else decimal_digits fuel' (n / 10) acc'
  end.

Definition string_of_nonneg (n : Z) : string :=
  decimal_digits (Z.to_nat (Z.log2 n)) n EmptyString.

(** [str(z)] for an int. *)
Definition string_of_Z (z : Z) : string :=
  if z <? 0 then String "-" (string_of_nonneg (- z)) else string_of_nonneg z.

(* ----------------------------------------------------------------- *)
(** *** [float(s)] for a str

    The grammar of the language reference:
      floatvalue  ::= [sign] (floatnumber | "inf" | "infinity" | "nan")
      floatnumber ::= ([digitpart] "." digitpart | digitpart ["."]) [exponent]
      digitpart   ::= digit (["_"] digit)*
      exponent    ::= ("e" | "E") [sign] digitpart
    around which white space is ignored.  The result is the binary64 number
    nearest to the decimal value. *)

(** Reads [(["_"] digit)*]. *)
Fixpoint more_digits (s : string) : list Z * string :=
  match s with
  | EmptyString => ([], s)
  | String c s' =>
    match digit_of_ascii c with
    | Some d => let '(ds, r) := more_digits s' in (d :: ds, r)
    | None =>
      if Ascii.eqb c "_" then
        match s' with
        | EmptyString => ([], s)
        | String c2 s'' =>
          match digit_of_ascii c2 with
          | Some d => let '(ds, r) := more_digits s'' in (d :: ds, r)
          | None => ([], s)
          end
        end
      else ([], s)
    end
  end.

Definition digitpart (s : string) : option (list Z * string) :=
  match s with
  | EmptyString => None
  | String c s' =>
    match digit_of_ascii c with
    | Some d => let '(ds, r) := more_digits s' in Some (d :: ds, r)
    | None => None
    end
  end.

Definition Z_of_digits (ds : list Z) : Z :=
  fold_left (fun acc d => 10 * acc + d) ds 0.

(** Reads an optional sign; [true] is minus. *)
Definition read_sign (s : string) : bool * string :=
  match s with
  | String "-" s' => (true, s')
  | String "+" s' => (false, s')
  | _ => (false, s)
  end.

(** Reads the integer and the fraction digits of [number]. *)
Definition read_number (s : string) : option (list Z * list Z * string) :=
  match digitpart s with
  | Some (ip, r) =>
    match r with
    | String "." r' =>
      match digitpart r' with
      | Some (fp, r'') => Some (ip, fp, r'')
      | None => Some (ip, [], r')
      end
    | _ => Some (ip, [], r)
    end
  | None =>
    match s with
    | String "." r' =>
      match digitpart r' with
      | Some (fp, r'') => Some ([], fp, r'')
      | None => None
      end
    | _ => None
    end
  end.

(** Reads an optional exponent; a malformed one is left unread. *)
Definition read_exponent (s : string) : Z * string :=
  match s with
  | String c s' =>
    if Ascii.eqb (lower c) "e" then
      let '(neg, r) := read_sign s' in
      match digitpart r with
      | Some (ds, r') => ((if neg then - Z_of_digits ds else Z_of_digits ds), r')
      | None => (0, s)
      end
    else (0, s)
  | EmptyString => (0, s)
  end.

(** The float nearest to [digits * 10 ^ exp10]. *)
Definition float_of_decimal (neg : bool) (digits exp10 : Z) : float :=
  if digits =? 0 then S754_zero neg
  else if 0 <=? exp10 then float_of_ratio neg (digits * 10 ^ exp10) 1
  else float_of_ratio neg digits (10 ^ (- exp10)).

Definition float_of_string (s : string) : option float :=
  let '(neg, body) := read_sign (strip is_space s) in
  let word := lower_string body in
  if String.eqb word "inf" || String.eqb word "infinity" then Some (S754_infinity neg)
  else if String.eqb word "nan" then Some S754_nan
  else
    match read_number body with
    | None => None
    | Some (ip, fp, r) =>
      match read_exponent r with
      | (e, EmptyString) =>
        Some (float_of_decimal neg (Z_of_digits (ip ++ fp)%list)
                (e - Z.of_nat (List.length fp)))
      | _ => None
      end
    end.

(** A float literal of the source text, such as [0.0532]. *)
Definition literal (s : string) : float :=
  match float_of_string s with
  | Some f => f
  | None => S754_nan
  end.

(** [float(v)] *)
Definition py_float (v : value) : result float :=
  match v with
  | VNone => Raise TypeError
  | VFloat f => Ok f
  | VInt z =>
    match float_of_Z z with
    | S754_infinity _ => Raise OverflowError
    | f => Ok f
    end
  | VStr s =>
    match float_of_string s with
    | Some f => Ok f
    | None => Raise ValueError
    end
  end.

(** [v > k] for an int literal [k] that binary64 holds exactly: a float
    compares by value (false for nan), an int compares as an integer, and
    for a str or [None] the comparison raises [TypeError]. *)
Definition py_gt_int (v : value) (k : Z) : result bool :=
  match v with
  | VFloat f => Ok (fltb (float_of_Z k) f)
  | VInt z => Ok (k <? z)
  | VStr _ | VNone => Raise TypeError
  end.

(* ----------------------------------------------------------------- *)
(** *** [format(x, ".2f")]

    The decimal expansion of the exact value of [x], rounded to two places
    half to even; [nan] and the infinities have no digits. *)

(** [m * 2 ^ e * 100] rounded to the nearest integer, ties to even. *)
Definition round_hundredths (m : positive) (e : Z) : Z :=
  if 0 <=? e then Zpos m * 2 ^ e * 100
  else
    let d := 2 ^ (- e) in
    let q := (Zpos m * 100) / d in
    let r := (Zpos m * 100) mod d in
    match 2 * r ?= d with
    | Lt => q
    | Gt => q + 1
    | Eq => if Z.even q then q else q + 1
    end.

Definition two_digits (n : Z) : string :=
  String (ascii_of_digit (n / 10)) (String (ascii_of_digit (n mod 10)) EmptyString).

Definition fixed2 (neg : bool) (hundredths : Z) : string :=
  (if neg then "-" else "")
  ++ string_of_nonneg (hundredths / 100) ++ "." ++ two_digits (hundredths mod 100).

Definition format_2f (x : float) : string :=
  match x with
  | S754_nan => "nan"
  | S754_infinity s => if s then "-inf" else "inf"
  | S754_zero s => fixed2 s 0
  | S754_finite s m e => fixed2 s (round_hundredths m e)
  end.

End Py.

(* ================================================================= *)
(** ** Formatting helpers ([format_number], [format_percent]) *)

Module Formatter.
Import Py.

Definition TRILLION : Z := 1000000000000.
Definition BILLION : Z := 1000000000.
Definition MILLION : Z := 1000000.

(** [abs(n) >= k] for a float [n] and an int literal [k] that binary64 holds
    exactly. *)
Definition abs_ge (n : float) (k : Z) : bool := fleb (float_of_Z k) (fabs n).

(** The four branches that follow [n = float(n)]. *)
Definition scale (n : float) : string :=
  if abs_ge n TRILLION then format_2f (fdiv n (float_of_Z TRILLION)) ++ " T"
  else if abs_ge n BILLION then format_2f (fdiv n (float_of_Z BILLION)) ++ " B"
  else if abs_ge n MILLION then format_2f (fdiv n (float_of_Z MILLION)) ++ " M"
  else format_2f n.

Definition format_number (n : value) : result value :=
  match n with
  | VNone => Ok VNone
  | _ =>
    match py_float n with
    | Raise e => if is_ValueError_or_TypeError e then Ok n else Raise e
    | Ok x => Ok (VStr (scale x))
    end
  end.

(** The conditional expression inside the [try]: the test [p > 1] is
    evaluated first, on [p] itself, then [float(p)] in the chosen arm. *)
Definition percent_body (p : value) : result value :=
  bind (py_gt_int p 1) (fun already =>
  bind (py_float p) (fun x =>
  if already then Ok (VStr (format_2f x ++ "%"))
  else Ok (VStr (format_2f (fmul x (float_of_Z 100)) ++ "%")))).

Definition format_percent (p : value) : result value :=
  match p with
  | VNone => Ok VNone
  | _ => try_except (percent_body p) is_ValueError_or_TypeError (fun _ => Ok p)
  end.

End Formatter.

(* ================================================================= *)
(** ** The pandas containers the program uses

    A [Series] is the list of its cells under the default index
    [0 .. n-1]; a [DataFrame] is its number of rows and its columns in
    order.  A cell that pandas has no value for is [NaN]. *)

Module Pandas.
Import Py.

Definition Series : Type := list value.

Definition NaN : value := VFloat S754_nan.

Record DataFrame : Type := mkDataFrame {
  nrows : nat;
  columns : list (string * Series)
}.

(** [pd.DataFrame()] *)
Definition empty_frame : DataFrame := mkDataFrame 0 [].

Definition names (df : DataFrame) : list string := map fst (columns df).

(** [df.empty]: some axis has length 0. *)
Definition empty (df : DataFrame) : bool :=
  (nrows df =? 0)%nat ||
  match columns df with
  | [] => true
  | _ => false
  end.

(** [key in df.columns] and [df[key]] in one lookup. *)
Fixpoint lookup (cols : list (string * Series)) (key : string) : option Series :=
  match cols with
  | [] => None
  | (k, s) :: rest => if String.eqb key k then Some s else lookup rest key
  end.

Definition getitem (df : DataFrame) (key : string) : option Series :=
  lookup (columns df) key.

(** [df.iloc[:, j]] *)
Definition iloc_column (df : DataFrame) (j : nat) : result Series :=
  match nth_error (columns df) j with
  | Some (_, s) => Ok s
  | None => Raise IndexError
  end.

(** A series laid over the index [0 .. n-1]: cells beyond it are dropped,
    cells it lacks are [NaN]. *)
Definition reindex (n : nat) (s : Series) : Series :=
  (firstn n s ++ repeat NaN (n - List.length s))%list.

(** The column named [key] becomes [s]; a new name goes last. *)
Fixpoint assign (cols : list (string * Series)) (key : string) (s : Series)
    : list (string * Series) :=
  match cols with
  | [] => [(key, s)]
  | (k, old) :: rest =>
    if String.eqb key k then (k, s) :: rest else (k, old) :: assign rest key s
  end.

(** [df[key] = s] for a Series [s].  A frame whose index is still empty
    takes the index of the first non-empty series it is given, and the
    columns it already has are filled with [NaN]. *)
Definition setitem_series (df : DataFrame) (key : string) (s : Series) : DataFrame :=
  if (nrows df =? 0)%nat && negb (List.length s =? 0)%nat then
    let n := List.length s in
    mkDataFrame n
      (assign (map (fun kc => (fst kc, reindex n (snd kc))) (columns df)) key
         (reindex n s))
  else
    mkDataFrame (nrows df) (assign (columns df) key (reindex (nrows df) s)).

(** [df[key] = v] for a scalar [v]: one copy of [v] per row. *)
Definition setitem_scalar (df : DataFrame) (key : string) (v : value) : DataFrame :=
  mkDataFrame (nrows df) (assign (columns df) key (repeat v (nrows df))).

(** [s.apply(f)]: [f] on every cell in turn; the first exception stops it. *)
Fixpoint apply (f : value -> result value) (s : Series) : result Series :=
  match s with
  | [] => Ok []
  | v :: rest =>
    bind (f v) (fun v' => bind (apply f rest) (fun rest' => Ok (v' :: rest')))
  end.

(** A Python dict with str keys, in insertion order. *)
Definition dict : Type := list (string * value).

Fixpoint dict_get (d : dict) (key : string) : option value :=
  match d with
  | [] => None
  | (k, v) :: rest => if String.eqb key k then Some v else dict_get rest key
  end.

(** [d[key] = v] *)
Fixpoint dict_set (d : dict) (key : string) (v : value) : dict :=
  match d with
  | [] => [(key, v)]
  | (k, old) :: rest =>
    if String.eqb key k then (k, v) :: rest else (k, old) :: dict_set rest key v
  end.

(** [d.update(other)] *)
Definition dict_update (d other : dict) : dict :=
  fold_left (fun acc kv => dict_set acc (fst kv) (snd kv)) other d.

Definition mem (key : string) (keys : list string) : bool :=
  existsb (String.eqb key) keys.

(** The keys of the records, each once, in order of first appearance. *)
Definition union_keys (rows : list dict) : list string :=
  fold_left
    (fun keys row =>
       fold_left (fun ks kv => if mem (fst kv) ks then ks else (ks ++ [fst kv])%list)
         row keys)
    rows [].

(* ----------------------------------------------------------------- *)
(** *** The cell type of a column

    A constructor that is handed Python objects gives each column (and a
    Series its cells) one type, as [lib.maybe_convert_objects] finds it.
    The cells are read in order.  A str makes the column a column of
    objects, whose cells stay as they are.  An int is first converted to a
    float, which raises [OverflowError] beyond the range of binary64; an
    int that 64 bits cannot hold, or a negative one beside one above
    [INT64_MAX], also makes the column a column of objects, unless a
    [None] was read before it.  Otherwise the column is numeric: when it
    holds a float, or a missing cell beside a number, every cell becomes a
    float, an int its nearest float and [None] the missing-value float;
    ints alone stay ints, and [None]s alone stay [None]. *)

Definition INT64_MIN : Z := - 2 ^ 63.
Definition INT64_MAX : Z := 2 ^ 63 - 1.
Definition UINT64_MAX : Z := 2 ^ 64 - 1.

(** What has been read so far. *)
Record seen : Type := mkSeen {
  null_ : bool;
  nan_ : bool;
  float_ : bool;
  int_ : bool;
  uint_ : bool;
  sint_ : bool
}.

Definition nothing_seen : seen := mkSeen false false false false false false.

Inductive inferred : Type :=
| Objects
| Numbers (s : seen)
| Overflows.

Definition is_nan (f : float) : bool :=
  match f with
  | S754_nan => true
  | _ => false
  end.

Fixpoint scan (s : seen) (cells : list value) : inferred :=
  match cells with
  | [] => Numbers s
  | VNone :: rest =>
    scan (mkSeen true (nan_ s) (float_ s) (int_ s) (uint_ s) (sint_ s)) rest
  | VFloat f :: rest =>
    if is_nan f
    then scan (mkSeen (null_ s) true (float_ s) (int_ s) (uint_ s) (sint_ s)) rest
    else scan (mkSeen (null_ s) (nan_ s) true (int_ s) (uint_ s) (sint_ s)) rest
  | VInt z :: rest =>
    if negb (is_finite (float_of_Z z)) then Overflows
    else if null_ s
    then scan (mkSeen (null_ s) (nan_ s) (float_ s) true (uint_ s) (sint_ s)) rest
    else
      let sint := sint_ s || ((INT64_MIN <=? z) && (z <? 0)) in
      let uint := uint_ s || ((INT64_MAX <? z) && (z <=? UINT64_MAX)) in
      if (uint && sint) || (UINT64_MAX <? z) || (z <? INT64_MIN) then Objects
      else scan (mkSeen (null_ s) (nan_ s) (float_ s) true uint sint) rest
  | VStr _ :: _ => Objects
  end.

(** Whether a numeric column is a column of floats. *)
Definition as_floats (s : seen) : bool :=
  if null_ s || nan_ s then float_ s || int_ s || nan_ s else float_ s.

(** A cell of a column of floats. *)
Definition to_float (v : value) : value :=
  match v with
  | VNone => NaN
  | VInt z => VFloat (float_of_Z z)
  | _ => v
  end.

Definition convert (cells : list value) : result (list value) :=
  match scan nothing_seen cells with
  | Overflows => Raise OverflowError
  | Objects => Ok cells
  | Numbers s => Ok (if as_floats s then map to_float cells else cells)
  end.

(** The cells after the conversion, when it raises nothing. *)
Definition unify (cells : list value) : list value :=
  match convert cells with
  | Ok cells' => cells'
  | Raise _ => cells
  end.

(** The frame [pd.DataFrame(rows)] builds from a list of dicts: one row per
    dict, one column per key, [NaN] where a dict lacks the key, each
    column converted to its cell type. *)
Definition from_records (rows : list dict) : DataFrame :=
  mkDataFrame (List.length rows)
    (map (fun k =>
            (k, unify (map (fun row => match dict_get row k with
                                       | Some v => v
                                       | None => NaN
                                       end) rows)))
       (union_keys rows)).

Definition converts (cells : list value) : bool :=
  match convert cells with
  | Ok _ => true
  | Raise _ => false
  end.

(** [pd.DataFrame(rows)]: the conversion of a column may raise. *)
Definition DataFrame_of (rows : list dict) : result DataFrame :=
  if forallb
       (fun k => converts (map (fun row => match dict_get row k with
                                           | Some v => v
                                           | None => NaN
                                           end) rows))
       (union_keys rows)
  then Ok (from_records rows)
  else Raise OverflowError.

(** Row [i] of a frame as a record. *)
Definition record (df : DataFrame) (i : nat) : list (string * value) :=
  map (fun kc => (fst kc, nth i (snd kc) NaN)) (columns df).

Definition to_records (df : DataFrame) : list (list (string * value)) :=
  map (record df) (seq 0 (nrows df)).

End Pandas.

(* ================================================================= *)
(** ** The ownership resolver ([parse_major_holders]) *)

Module Ownership.
Import Py Pandas.

(** The three cells of the Series the resolver returns, under the keys
    ["Insider (%)"], ["Institutional (%)"] and ["Float / Retail (%)"]:
    each a float or [None]. *)
Record summary : Type := mkSummary {
  insider_pct : option float;
  inst_pct : option float;
  float_pct : option float
}.

Definition ALL_NONE : summary := mkSummary None None None.

(** A cell of a Series of floats: a [None] is the missing-value float. *)
Definition or_nan (o : option float) : option float :=
  match o with
  | Some f => Some f
  | None => Some S754_nan
  end.

(** [pd.Series({"Insider (%)": insider, "Institutional (%)": inst,
    "Float / Retail (%)": flt})].  The cells of a Series take one type:
    three [None]s stay [None], and when a float is among the three the
    Series is one of floats. *)
Definition Series_of (insider inst flt : option float) : summary :=
  match insider, inst, flt with
  | None, None, None => ALL_NONE
  | _, _, _ => mkSummary (or_nan insider) (or_nan inst) (or_nan flt)
  end.

Definition is_percent_sign (c : ascii) : bool := Ascii.eqb c "%".

(** [label == key] for a label of the table and a str [key]. *)
Definition label_is (key : string) (label : value) : bool :=
  match label with
  | VStr k => String.eqb key k
  | _ => false
  end.

(** [dict(zip(labels, values)).get(key)]: of the rows labelled [key], the
    last one wins. *)
Fixpoint zip_get (pairs : list (value * value)) (key : string) : option value :=
  match pairs with
  | [] => None
  | (label, v) :: rest =>
    match zip_get rest key with
    | Some v' => Some v'
    | None => if label_is key label then Some v else None
    end
  end.

(** [major_dict.get(key, None)] *)
Definition major_dict_get (pairs : list (value * value)) (key : string) : value :=
  match zip_get pairs key with
  | Some v => v
  | None => VNone
  end.

(** [float(str(val).strip('%'))], or [None] for [None].  The str of a float
    has no percent sign and reads back as the same float. *)
Definition pct_to_float (val : value) : result (option float) :=
  match val with
  | VNone => Ok None
  | VFloat f => Ok (Some f)
  | VInt z =>
    match float_of_string (strip is_percent_sign (string_of_Z z)) with
    | Some f => Ok (Some f)
    | None => Raise ValueError
    end
  | VStr s =>
    match float_of_string (strip is_percent_sign s) with
    | Some f => Ok (Some f)
    | None => Raise ValueError
    end
  end.

(** [100 - inst_pct if insider_pct is None else 100 - inst_pct - insider_pct],
    under [if inst_pct is not None]. *)
Definition derive_float_pct (insider inst : option float) : option float :=
  match inst with
  | None => None
  | Some i =>
    match insider with
    | None => Some (fsub (float_of_Z 100) i)
    | Some j => Some (fsub (fsub (float_of_Z 100) i) j)
    end
  end.

(** The body of the [try], given what [yf.Ticker(ticker).major_holders]
    produced. *)
Definition resolve (major : option DataFrame) : result summary :=
  match major with
  | None => Ok ALL_NONE
  | Some m =>
    if empty m then Ok ALL_NONE
    else
      bind (iloc_column m 0) (fun labels =>
      bind (iloc_column m 1) (fun vals =>
      let major_dict := combine labels vals in
      let insider := major_dict_get major_dict "Insiders (%)" in
      let inst := major_dict_get major_dict "Institutions" in
      bind (pct_to_float insider) (fun insider_pct =>
      bind (pct_to_float inst) (fun inst_pct =>
      let float_pct := derive_float_pct insider_pct inst_pct in
      Ok (Series_of insider_pct inst_pct float_pct)))))
  end.

Section Resolver.

(** [yf.Ticker(ticker).major_holders] *)
Variable yf_major_holders : string -> result (option DataFrame).

Definition parse_major_holders (ticker : string) : result summary :=
  try_except (bind (yf_major_holders ticker) resolve) is_Exception
    (fun _ => Ok ALL_NONE).

End Resolver.

Definition of_option (o : option float) : value :=
  match o with
  | Some f => VFloat f
  | None => VNone
  end.

(** [ownership.to_dict()]: the cells of the Series under their keys. *)
Definition to_dict (s : summary) : dict :=
  [ ("Insider (%)", of_option (insider_pct s));
    ("Institutional (%)", of_option (inst_pct s));
    ("Float / Retail (%)", of_option (float_pct s)) ].

(** A two-column major-holders table from its rows. *)
Definition table (rows : list (value * value)) : DataFrame :=
  mkDataFrame (List.length rows) [("0", map fst rows); ("1", map snd rows)].

End Ownership.

(* ================================================================= *)
(** ** The table projector ([clean_info]) *)

Module Projector.
Import Py Pandas Formatter.

(** The renaming table [fields]: published column, source field. *)
Definition fields : list (string * string) :=
  [ ("Ticker", "_ticker");
    ("Name", "shortName");
    ("Sector", "sector");
    ("Industry", "industry");
    ("Current Price", "currentPrice");
    ("52W High", "fiftyTwoWeekHigh");
    ("52W Low", "fiftyTwoWeekLow");
    ("Market Cap", "marketCap");
    ("P/E (Trailing)", "trailingPE");
    ("P/E (Forward)", "forwardPE");
    ("Beta", "beta");
    ("Dividend Yield", "dividendYield");
    ("Price to Book", "priceToBook");
    ("EPS", "trailingEps");
    ("Revenue", "totalRevenue");
    ("Gross Margins", "grossMargins");
    ("Profit Margins", "profitMargins");
    ("Insider (%)", "Insider (%)");
    ("Institutional (%)", "Institutional (%)");
    ("Float / Retail (%)", "Float / Retail (%)") ].

(** [df[col] = raw_df[raw_key] if raw_key in raw_df.columns else None] *)
Definition copy_field (raw_df df : DataFrame) (field : string * string) : DataFrame :=
  match getitem raw_df (snd field) with
  | Some s => setitem_series df (fst field) s
  | None => setitem_scalar df (fst field) VNone
  end.

(** The loop over [fields.items()], from [pd.DataFrame()]. *)
Definition project (raw_df : DataFrame) : DataFrame :=
  fold_left (copy_field raw_df) fields empty_frame.

(** [df[col] = df[col].apply(f)] *)
Definition format_column (f : value -> result value) (col : string)
    (df : DataFrame) : result DataFrame :=
  match getitem df col with
  | None => Raise KeyError
  | Some s => bind (apply f s) (fun s' => Ok (setitem_series df col s'))
  end.

(** The five assignments under [# Apply formatting]. *)
Definition apply_formatting (df : DataFrame) : result DataFrame :=
  bind (format_column format_number "Market Cap" df) (fun df =>
  bind (format_column format_number "Revenue" df) (fun df =>
  bind (format_column format_percent "Dividend Yield" df) (fun df =>
  bind (format_column format_percent "Gross Margins" df) (fun df =>
  format_column format_percent "Profit Margins" df)))).

Definition clean_info (raw_df : DataFrame) : result DataFrame :=
  apply_formatting (project raw_df).

End Projector.

(* ================================================================= *)
(** ** The driver (the loop of [__main__] and the three outputs)

    The log lines and the closing message are left out: they change no
    value the program computes, and the logging module raises nothing the
    program sees. *)

Module Pipeline.
Import Py Pandas Ownership Projector.

(** The tables handed to the writers. *)
Record outputs : Type := mkOutputs {
  raw_info_sheet : DataFrame;
  cleaned_info_sheet : DataFrame;
  csv_file : DataFrame
}.

Section Driver.

(** [yf.Ticker(t).info] and [yf.Ticker(t).major_holders] *)
Variable yf_info : string -> result dict.
Variable yf_major_holders : string -> result (option DataFrame).

(** The body of the [try] for one ticker. *)
Definition fetch (t : string) : result dict :=
  bind (yf_info t) (fun info =>
  let info := dict_set info "_ticker" (VStr t) in
  bind (parse_major_holders yf_major_holders t) (fun ownership =>
  Ok (dict_update info (to_dict ownership)))).

(** One turn of the loop: the row that is appended to [raw_rows]. *)
Definition row_of (t : string) : result dict :=
  try_except (fetch t) is_Exception (fun _ => Ok [("_ticker", VStr t)]).

(** The rows of the loop, with [raw_rows] as it stands when the turn
    starts: the loop as it runs when no pause is interrupted. *)
Fixpoint collect (tickers : list string) (raw_rows : list dict)
    : result (list dict) :=
  match tickers with
  | [] => Ok raw_rows
  | t :: rest => bind (row_of t) (fun row => collect rest (raw_rows ++ [row])%list)
  end.

(** Whether the pause after the turn of a ticker is interrupted. *)
Variable interrupted : string -> bool.

(** [time.sleep(1.5)] after the turn of ticker [t]: it returns, or the
    interrupt is raised in it. *)
Definition sleep (t : string) : result unit :=
  if interrupted t then Raise KeyboardInterrupt else Ok tt.

(** The loop with its pauses. *)
Fixpoint loop (tickers : list string) (raw_rows : list dict)
    : result (list dict) :=
  match tickers with
  | [] => Ok raw_rows
  | t :: rest =>
    bind (row_of t) (fun row =>
    bind (sleep t) (fun _ => loop rest (raw_rows ++ [row])%list))
  end.

(** The [with pd.ExcelWriter(...)] block, which writes the workbook with
    the sheets Raw_Info and Cleaned_Info, and [raw_df.to_csv(...)]: each
    returns or raises what the file system or the writer library makes it
    raise. *)
Variable to_excel : DataFrame -> DataFrame -> result unit.
Variable to_csv : DataFrame -> result unit.

(** Lines 150 to 156: the two writes, under no [try]. *)
Definition save (raw_df clean_df : DataFrame) : result outputs :=
  bind (to_excel raw_df clean_df) (fun _ =>
  bind (to_csv raw_df) (fun _ =>
  Ok (mkOutputs raw_df clean_df raw_df))).

Definition main (tickers : list string) : result outputs :=
  bind (loop tickers []) (fun raw_rows =>
  bind (DataFrame_of raw_rows) (fun raw_df =>
  bind (clean_info raw_df) (fun clean_df =>
  save raw_df clean_df))).

End Driver.

End Pipeline.

(* ================================================================= *)
(** ** Vocabulary of the statements *)

Module Props.
Import Py Pandas.

Fixpoint all_digits (s : string) : bool :=
  match s with
  | EmptyString => true
  | String c s' => is_digit c && all_digits s'
  end.

(** An optional minus sign, at least one digit, a point, two digits. *)
Definition two_decimals (s : string) : Prop :=
  exists (sign int_part : string) (d1 d2 : ascii),
    s = sign ++ int_part ++ "." ++ String d1 (String d2 EmptyString)
    /\ (sign = "" \/ sign = "-")
    /\ int_part <> ""
    /\ all_digits int_part = true
    /\ is_digit d1 = true /\ is_digit d2 = true.

(** [v < 0] for a number. *)
Definition negative (v : value) : bool :=
  match v with
  | VFloat x => fltb x (float_of_Z 0)
  | VInt z => z <? 0
  | _ => false
  end.

(** The Insider and the Institutional entry of what the resolver gave. *)
Definition insider_pct_of (r : result Ownership.summary) : option (option float) :=
  match r with
  | Ok s => Some (Ownership.insider_pct s)
  | Raise _ => None
  end.

Definition inst_pct_of (r : result Ownership.summary) : option (option float) :=
  match r with
  | Ok s => Some (Ownership.inst_pct s)
  | Raise _ => None
  end.

(** No percent sign anywhere in [s]. *)
Fixpoint no_percent (s : string) : bool :=
  match s with
  | EmptyString => true
  | String c s' => negb (Ownership.is_percent_sign c) && no_percent s'
  end.

(** Every column has one cell per row. *)
Definition well_formed (df : DataFrame) : Prop :=
  Forall (fun kc => List.length (snd kc) = nrows df) (columns df).

(** The table has a ticker column, or no row at all. *)
Definition indexed (df : DataFrame) : Prop :=
  getitem df "_ticker" <> None \/ nrows df = 0%nat.

(** [float(v)] does not overflow: an int is within the range of binary64. *)
Definition in_range (v : value) : bool :=
  match v with
  | VInt z => is_finite (float_of_Z z)
  | _ => true
  end.

Definition cells_in_range (df : DataFrame) : Prop :=
  Forall (fun kc => Forall (fun v => in_range v = true) (snd kc)) (columns df).

(** What a source field holds, row by row: its column in the raw table,
    or [None] in every row when the raw table has no such column. *)
Definition source (raw_df : DataFrame) (raw_key : string) : Series :=
  match getitem raw_df raw_key with
  | Some s => s
  | None => repeat VNone (nrows raw_df)
  end.

(** The cell of a record in the raw table. *)
Definition raw_cell (raw_key : string) (row : dict) : value :=
  match dict_get row raw_key with
  | Some v => v
  | None => NaN
  end.

(** The published columns, in order. *)
Definition published_columns : list string :=
  [ "Ticker"; "Name"; "Sector"; "Industry"; "Current Price"; "52W High";
    "52W Low"; "Market Cap"; "P/E (Trailing)"; "P/E (Forward)"; "Beta";
    "Dividend Yield"; "Price to Book"; "EPS"; "Revenue"; "Gross Margins";
    "Profit Margins"; "Insider (%)"; "Institutional (%)";
    "Float / Retail (%)" ].

(** The fields by the treatment of their column. *)
Definition number_fields : list (string * string) :=
  [ ("Market Cap", "marketCap"); ("Revenue", "totalRevenue") ].

Definition percent_fields : list (string * string) :=
  [ ("Dividend Yield", "dividendYield"); ("Gross Margins", "grossMargins");
    ("Profit Margins", "profitMargins") ].

Definition formatted (col : string) : bool :=
  mem col (map fst (number_fields ++ percent_fields)%list).

Definition plain_fields : list (string * string) :=
  filter (fun f => negb (formatted (fst f))) Projector.fields.

(** Percent signs only. *)
Fixpoint all_percent (s : string) : bool :=
  match s with
  | EmptyString => true
  | String c s' => Ownership.is_percent_sign c && all_percent s'
  end.

(** No percent sign at either end of [s]. *)
Definition bare (s : string) : bool :=
  match s with
  | EmptyString => true
  | String c _ => negb (Ownership.is_percent_sign c)
  end
  && match string_rev s with
     | EmptyString => true
     | String c _ => negb (Ownership.is_percent_sign c)
     end.

(** The conversion of a percent-string as the specification words it:
    strip a trailing percent sign, parse the remainder as a float. *)
Definition strip_trailing_sign (s : string) : string :=
  match string_rev s with
  | String c r => if Ownership.is_percent_sign c then string_rev r else s
  | EmptyString => s
  end.

Definition specified_pct_to_float (s : string) : result (option float) :=
  match float_of_string (strip_trailing_sign s) with
  | Some f => Ok (Some f)
  | None => Raise ValueError
  end.

(** No int of the records is beyond the range of binary64. *)
Definition rows_in_range (rows : list dict) : Prop :=
  forall row k v, In row rows -> In (k, v) row -> in_range v = true.

(** The names of [fs] are new to [ns] and differ from one another. *)
Fixpoint fresh_names (ns : list string) (fs : list (string * string)) : bool :=
  match fs with
  | [] => true
  | f :: rest => negb (mem (fst f) ns) && fresh_names (ns ++ [fst f])%list rest
  end.

End Props.

(* ================================================================= *)
(** ** Sample provider answers *)

Module Samples.
Import Py Pandas Ownership.

Definition holders_both : DataFrame :=
  table [ (VStr "Insiders (%)", VStr "5.00%");
          (VStr "Institutions", VStr "70.00%") ].

Definition holders_institutions_only : DataFrame :=
  table [ (VStr "Institutions", VStr "60.00%") ].

(** One value that does not parse, beside one that does. *)
Definition holders_garbled : DataFrame :=
  table [ (VStr "Insiders (%)", VStr "n/a");
          (VStr "Institutions", VStr "70.00%") ].

(** A table that lacks its second column. *)
Definition holders_one_column : DataFrame :=
  mkDataFrame 1 [("0", [VStr "Institutions"])].

(** Two raw records: a full-info lookup that succeeded, and one that
    failed. *)
Definition two_rows : list dict :=
  [ [ ("shortName", VStr "Bank Central Asia");
      ("marketCap", VInt 1500000000);
      ("dividendYield", VFloat (literal "0.0532"));
      ("_ticker", VStr "BBCA.JK") ];
    [ ("_ticker", VStr "TLKM.JK") ] ].

Definition answers (m : DataFrame) : string -> result (option DataFrame) :=
  fun _ => Ok (Some m).

Definition unreachable {A : Type} : string -> result A :=
  fun _ => Raise (RemoteError "connection refused").

(** A table with the insiders row alone. *)
Definition holders_insiders_only : DataFrame :=
  table [ (VStr "Insiders (%)", VStr "5.00%") ].

(** Binary64 numbers written out, mantissa and exponent: 5.0 is
    5629499534213120 / 2^50, and so on. *)
Definition f5 : float := S754_finite false 5629499534213120 (-50).
Definition f25 : float := S754_finite false 7036874417766400 (-48).
Definition f40 : float := S754_finite false 5629499534213120 (-47).
Definition f60 : float := S754_finite false 8444249301319680 (-47).
Definition f70 : float := S754_finite false 4925812092436480 (-46).
Definition f0_0532 : float := S754_finite false 7666928005635532 (-57).
Definition f5_32 : float := S754_finite false 5989787504402760 (-50).
Definition f1500000000 : float := S754_finite false 6291456000000000 (-22).
Definition f2_pow_53 : float := S754_finite false 4503599627370496 1.
Definition f0_125 : float := S754_finite false 4503599627370496 (-55).
Definition f0_375 : float := S754_finite false 6755399441055744 (-54).
Definition f2_675 : float := S754_finite false 6023564501608038 (-51).

(** Pauses that are never interrupted, and writes that succeed. *)
Definition undisturbed : string -> bool := fun _ => false.
Definition written2 : DataFrame -> DataFrame -> result unit := fun _ _ => Ok tt.
Definition written : DataFrame -> result unit := fun _ => Ok tt.

(** A disk that is full. *)
Definition disk_full : DataFrame -> result unit :=
  fun _ => Raise (RemoteError "no space left on device").

End Samples.

(* ================================================================= *)
(** ** Further vocabulary *)

Module MoreProps.
Import Py Pandas Ownership.

(** [-x] for a float. *)
Definition fneg (x : float) : float := SFopp x.

(** The sign bit of [x] is clear and [x] is a number. *)
Definition plus_signed (x : float) : bool :=
  match x with
  | S754_zero s | S754_infinity s | S754_finite s _ _ => negb s
  | S754_nan => false
  end.

(** A label that is neither of the two the resolver looks up. *)
Definition other_label (label : value) : bool :=
  negb (label_is "Insiders (%)" label) && negb (label_is "Institutions" label).

(** The keys a row gets besides the provider's fields. *)
Definition added_keys : list string :=
  [ "_ticker"; "Insider (%)"; "Institutional (%)"; "Float / Retail (%)" ].

(** No int among the values of a dict is beyond the range of binary64. *)
Definition dict_in_range (d : dict) : Prop :=
  forall k v, In (k, v) d -> Props.in_range v = true.

(** What [clean_info] applies to the cells of a published column. *)
Definition formatter_of (col : string) : value -> result value :=
  if mem col ["Market Cap"; "Revenue"] then Formatter.format_number
  else if mem col ["Dividend Yield"; "Gross Margins"; "Profit Margins"]
       then Formatter.format_percent
  else Ok.

End MoreProps.

(* ================================================================= *)
(** * Results *)

Module ResultFacts.
Import Py.

Lemma bind_Ok_inv (A B : Type) (m : result A) (k : A -> result B) (b : B) :
  bind m k = Ok b -> exists a : A, m = Ok a /\ k a = Ok b.
Proof.
  destruct m as [a | e]; simpl; intros H; [| discriminate H].
  exists a. split; [reflexivity | exact H].
Qed.

End ResultFacts.

(* ================================================================= *)
(** * Rounding to binary64 *)

Module FloatFacts.
Import Py MoreProps.

Lemma iter_pos_keeps (A : Type) (P : A -> Prop) (f : A -> A) :
  (forall a, P a -> P (f a)) ->
  forall (n : positive) (a : A), P a -> P (iter_pos f n a).
Proof.
  intros Hf. induction n as [n IH | n IH |]; intros a Ha; simpl.
  - apply IH, IH, Hf, Ha.
  - apply IH, IH, Ha.
  - apply Hf, Ha.
Qed.

Lemma shr_1_nonneg (mrs : shr_record) : 0 <= shr_m mrs -> 0 <= shr_m (shr_1 mrs).
Proof.
  destruct mrs as [m r s]. simpl.
  destruct m as [| p | p]; try destruct p; simpl; lia.
Qed.

Lemma shr_fexp_nonneg (m e : Z) (l : location) :
  0 <= m -> 0 <= shr_m (fst (shr_fexp prec emax m e l)).
Proof.
  intros Hm. unfold shr_fexp, shr.
  assert (0 <= shr_m (shr_record_of_loc m l)) as H0
    by (destruct l as [| []]; exact Hm).
  destruct (fexp prec emax (Zdigits2 m + e) - e) as [| p | p]; simpl;
    try exact H0.
  apply (iter_pos_keeps _ (fun mrs => 0 <= shr_m mrs) shr_1 shr_1_nonneg), H0.
Qed.

Lemma round_nearest_even_nonneg (m : Z) (l : location) :
  0 <= m -> 0 <= round_nearest_even m l.
Proof.
  intros Hm. destruct l as [| []]; simpl; try lia.
  destruct (Z.even m); lia.
Qed.

(** Rounding a nonnegative mantissa gives a number with the given sign. *)
Lemma binary_round_aux_sign (s : bool) (m e : Z) (l : location) :
  0 <= m ->
  match binary_round_aux prec emax s m e l with
  | S754_zero s' | S754_infinity s' | S754_finite s' _ _ => s' = s
  | S754_nan => False
  end.
Proof.
  intros Hm. unfold binary_round_aux.
  pose proof (shr_fexp_nonneg m e l Hm) as H1.
  destruct (shr_fexp prec emax m e l) as [mrs' e']. simpl in H1.
  pose proof (shr_fexp_nonneg _ e' loc_Exact
                (round_nearest_even_nonneg _ (loc_of_shr_record mrs') H1)) as H2.
  destruct (shr_fexp prec emax
              (round_nearest_even (shr_m mrs') (loc_of_shr_record mrs')) e'
              loc_Exact) as [mrs'' e'']. simpl in H2.
  destruct (shr_m mrs'') as [| p | p]; [reflexivity | | lia].
  destruct (e'' <=? emax - prec); reflexivity.
Qed.

Lemma binary_round_aux_opp (s : bool) (m e : Z) (l : location) :
  binary_round_aux prec emax (negb s) m e l
  = SFopp (binary_round_aux prec emax s m e l).
Proof.
  unfold binary_round_aux.
  destruct (shr_fexp prec emax m e l) as [mrs' e'].
  destruct (shr_fexp prec emax
              (round_nearest_even (shr_m mrs') (loc_of_shr_record mrs')) e'
              loc_Exact) as [mrs'' e''].
  destruct (shr_m mrs'') as [| p | p]; [reflexivity | | reflexivity].
  destruct (e'' <=? emax - prec); reflexivity.
Qed.

(** The float of an int is a number. *)
Lemma float_of_Z_not_nan (z : Z) : float_of_Z z <> S754_nan.
Proof.
  unfold float_of_Z, binary_normalize. destruct z as [| p | p];
    [discriminate | |];
    unfold binary_round;
    destruct (shl_align p 0 (fexp prec emax (Z.pos (digits2_pos p) + 0)))
      as [mz ez];
    pose proof (binary_round_aux_sign false (Z.pos mz) ez loc_Exact
                  ltac:(lia)) as Hf;
    pose proof (binary_round_aux_sign true (Z.pos mz) ez loc_Exact
                  ltac:(lia)) as Ht;
    intros E; rewrite E in *; assumption.
Qed.

Lemma div_core_nonneg (m1 m2 : positive) (e1 e2 : Z) :
  0 <= fst (fst (SFdiv_core_binary prec emax (Z.pos m1) e1 (Z.pos m2) e2)).
Proof.
  unfold SFdiv_core_binary.
  set (s := e1 - e2
            - Z.min (fexp prec emax (Zdigits2 (Z.pos m1) + e1
                                     - (Zdigits2 (Z.pos m2) + e2)))
                (e1 - e2)).
  set (m' := match s with
             | 0 => Z.pos m1
             | Z.pos _ => Z.shiftl (Z.pos m1) s
             | Z.neg _ => 0
             end).
  assert (0 <= m') as Hm'.
  { unfold m'. destruct s; [lia | apply Z.shiftl_nonneg; lia | lia]. }
  pose proof (Z.div_pos m' (Z.pos m2) Hm' ltac:(lia)) as Hq.
  unfold Z.div in Hq. destruct (Z.div_eucl m' (Z.pos m2)) as [q r].
  exact Hq.
Qed.

Lemma SFdiv_opp (x y : float) :
  SFdiv prec emax (SFopp x) y = SFopp (SFdiv prec emax x y).
Proof.
  destruct x as [sx | sx | | sx mx ex], y as [sy | sy | | sy my ey];
    try reflexivity; simpl;
    try (destruct sx, sy; reflexivity).
  destruct (SFdiv_core_binary prec emax (Z.pos mx) ex (Z.pos my) ey)
    as [[mz ez] lz].
  rewrite <- binary_round_aux_opp. destruct sx, sy; reflexivity.
Qed.

(** A plus-signed number over a positive finite one is plus-signed. *)
Lemma SFdiv_plus_signed (x : float) (my : positive) (ey : Z) :
  plus_signed x = true ->
  plus_signed (SFdiv prec emax x (S754_finite false my ey)) = true.
Proof.
  destruct x as [sx | sx | | sx mx ex]; simpl; try discriminate;
    intros H; apply negb_true_iff in H; subst sx; try reflexivity.
  pose proof (div_core_nonneg mx my ex ey) as Hq.
  destruct (SFdiv_core_binary prec emax (Z.pos mx) ex (Z.pos my) ey)
    as [[mz ez] lz].
  simpl in Hq. pose proof (binary_round_aux_sign false mz ez lz Hq) as Hs.
  simpl. destruct (binary_round_aux prec emax false mz ez lz);
    simpl; try contradiction; subst; reflexivity.
Qed.

End FloatFacts.

(* ================================================================= *)
(** * Properties of the formatter *)

Module FormatterFacts.
Import Py Formatter Props Samples.

Lemma is_digit_ascii_of_digit (d : Z) :
  0 <= d < 10 -> is_digit (ascii_of_digit d) = true.
Proof.
  intros H.
  assert (d = 0 \/ d = 1 \/ d = 2 \/ d = 3 \/ d = 4 \/ d = 5 \/ d = 6 \/ d = 7
          \/ d = 8 \/ d = 9) as Hd by lia.
  repeat (destruct Hd as [-> | Hd]; [reflexivity |]); subst d; reflexivity.
Qed.

Lemma all_digits_decimal_digits (fuel : nat) :
  forall n acc, all_digits acc = true ->
                all_digits (decimal_digits fuel n acc) = true.
Proof.
  induction fuel as [| fuel IH]; intros n acc Hacc; simpl.
  - rewrite is_digit_ascii_of_digit by (apply Z.mod_pos_bound; lia).
    exact Hacc.
  - destruct (n <? 10).
    + simpl. rewrite is_digit_ascii_of_digit by (apply Z.mod_pos_bound; lia).
      exact Hacc.
    + apply IH. simpl.
      rewrite is_digit_ascii_of_digit by (apply Z.mod_pos_bound; lia).
      exact Hacc.
Qed.

Lemma decimal_digits_nonempty (fuel : nat) :
  forall n acc, decimal_digits fuel n acc <> "".
Proof.
  induction fuel as [| fuel IH]; intros n acc; simpl.
  - discriminate.
  - destruct (n <? 10); [discriminate | apply IH].
Qed.

Lemma fixed2_two_decimals (neg : bool) (h : Z) : two_decimals (fixed2 neg h).
Proof.
  exists (if neg then "-" else ""), (string_of_nonneg (h / 100)),
    (ascii_of_digit ((h mod 100) / 10)), (ascii_of_digit ((h mod 100) mod 10)).
  assert (0 <= h mod 100 < 100) as Hm by (apply Z.mod_pos_bound; lia).
  repeat split.
  - destruct neg; [right | left]; reflexivity.
  - apply decimal_digits_nonempty.
  - apply all_digits_decimal_digits. reflexivity.
  - apply is_digit_ascii_of_digit. split.
    + apply Z.div_pos; lia.
    + apply Z.div_lt_upper_bound; lia.
  - apply is_digit_ascii_of_digit. apply Z.mod_pos_bound. lia.
Qed.

Lemma format_2f_finite (x : float) :
  is_finite x = true -> two_decimals (format_2f x).
Proof.
  destruct x; simpl; intros H; try discriminate; apply fixed2_two_decimals.
Qed.

Lemma format_number_convertible (v : value) (x : float) :
  py_float v = Ok x -> format_number v = Ok (VStr (scale x)).
Proof.
  intros H. destruct v; try discriminate H; unfold format_number; rewrite H;
    reflexivity.
Qed.

Lemma format_number_passthrough (v : value) (e : exn) :
  py_float v = Raise e -> is_ValueError_or_TypeError e = true ->
  format_number v = Ok v.
Proof.
  intros H He. destruct v; [reflexivity | | |];
    unfold format_number; rewrite H, He; reflexivity.
Qed.

(** The two arms of [format_percent] on a float. *)
Lemma format_percent_float (x : float) :
  format_percent (VFloat x)
  = Ok (VStr (if fltb (float_of_Z 1) x then format_2f x ++ "%"
              else format_2f (fmul x (float_of_Z 100)) ++ "%")).
Proof.
  unfold format_percent, percent_body. cbn [py_gt_int py_float bind].
  destruct (fltb (float_of_Z 1) x); reflexivity.
Qed.

(** A str never reaches [float(p)]: [p > 1] raises [TypeError] first. *)
Lemma format_percent_str (s : string) :
  format_percent (VStr s) = Ok (VStr s).
Proof. reflexivity. Qed.

Lemma below_zero_not_above_one (x : float) :
  fltb x (float_of_Z 0) = true -> fltb (float_of_Z 1) x = false.
Proof.
  change (float_of_Z 0) with (S754_zero false).
  change (float_of_Z 1) with (S754_finite false 4503599627370496 (-52)).
  destruct x as [s | s | | s m e]; try destruct s; simpl; intros H;
    try discriminate H; reflexivity.
Qed.

(** A text that starts with a letter is no two-decimal number. *)
Lemma two_decimals_starts (c : ascii) (s : string) :
  two_decimals (String c s) -> is_digit c = true \/ c = "-"%char.
Proof.
  intros (sign & int_part & d1 & d2 & E & [-> | ->] & Hne & Hdigits & _).
  - destruct int_part as [| c0 r]; [contradiction Hne; reflexivity |].
    simpl in E. injection E as -> _. simpl in Hdigits.
    apply andb_prop in Hdigits as [Hc _]. left. exact Hc.
  - simpl in E. injection E as -> _. right. reflexivity.
Qed.

(** C2, as the code has it.  [format_number] maps [None] to [None]; an
    input on which [float] raises [ValueError] or [TypeError] comes back
    unchanged, and an int beyond the range of a float raises
    [OverflowError]; every input [float] converts is scaled by the first
    threshold that [abs] of it reaches, 1e12 with suffix T, 1e9 with B,
    1e6 with M, else unscaled, and every branch is rendered by the
    two-decimal format, which gives digits, a point and exactly two digits
    when the number it renders is finite, and [nan], [inf] or [-inf]
    otherwise.  The four quoted examples evaluate as stated; so do their
    negatives, with the same suffix, and the values at and next to the
    thresholds; a number half way between two renderings goes to the even
    one. *)
Theorem format_number_spec :
  format_number VNone = Ok VNone
  /\ (forall (v : value) (e : exn),
        py_float v = Raise e -> is_ValueError_or_TypeError e = true ->
        format_number v = Ok v)
  /\ (forall z : Z,
        is_finite (float_of_Z z) = false ->
        format_number (VInt z) = Raise OverflowError)
  /\ (forall (v : value) (x : float),
        py_float v = Ok x ->
        format_number v
        = Ok (VStr
            (if fleb (float_of_Z 1000000000000) (fabs x)
             then format_2f (fdiv x (float_of_Z 1000000000000)) ++ " T"
             else if fleb (float_of_Z 1000000000) (fabs x)
             then format_2f (fdiv x (float_of_Z 1000000000)) ++ " B"
             else if fleb (float_of_Z 1000000) (fabs x)
             then format_2f (fdiv x (float_of_Z 1000000)) ++ " M"
             else format_2f x)))
  /\ (forall x : float, is_finite x = true -> two_decimals (format_2f x))
  /\ (format_2f S754_nan = "nan"
      /\ format_2f (S754_infinity false) = "inf"
      /\ format_2f (S754_infinity true) = "-inf")
  /\ (format_number (VInt 1500000000) = Ok (VStr "1.50 B")
      /\ format_number (VInt 999) = Ok (VStr "999.00")
      /\ format_number (VInt 2000000000000) = Ok (VStr "2.00 T")
      /\ format_number (VStr "n/a") = Ok (VStr "n/a"))
  /\ (format_number (VInt (-1500000000)) = Ok (VStr "-1.50 B")
      /\ format_number (VInt (-999)) = Ok (VStr "-999.00")
      /\ format_number (VInt (-2000000000000)) = Ok (VStr "-2.00 T")
      /\ format_number (VFloat (SFopp f1500000000)) = Ok (VStr "-1.50 B")
      /\ format_number (VInt (-1234567)) = Ok (VStr "-1.23 M"))
  /\ (format_number (VInt 999999) = Ok (VStr "999999.00")
      /\ format_number (VInt 1000000) = Ok (VStr "1.00 M")
      /\ format_number (VInt 999999999) = Ok (VStr "1000.00 M")
      /\ format_number (VInt 1000000000) = Ok (VStr "1.00 B")
      /\ format_number (VInt 999999999999) = Ok (VStr "1000.00 B")
      /\ format_number (VInt 1000000000000) = Ok (VStr "1.00 T"))
  /\ (format_number (VFloat f0_125) = Ok (VStr "0.12")
      /\ format_number (VFloat f0_375) = Ok (VStr "0.38")
      /\ format_number (VFloat f2_675) = Ok (VStr "2.67")
      /\ format_number (VFloat (SFopp f0_125)) = Ok (VStr "-0.12"))
  /\ (format_number (VFloat f1500000000) = Ok (VStr "1.50 B")
      /\ format_number (VStr "1500000000") = Ok (VStr "1.50 B")
      /\ format_number (VStr " 12 ") = Ok (VStr "12.00")
      /\ format_number (VStr (String (ascii_of_nat 31) "5"))
         = Ok (VStr (String (ascii_of_nat 31) "5"))
      /\ format_number (VStr "") = Ok (VStr ""))
  /\ (format_number (VFloat S754_nan) = Ok (VStr "nan")
      /\ format_number (VStr "nan") = Ok (VStr "nan")
      /\ format_number (VFloat (S754_infinity false)) = Ok (VStr "inf T")
      /\ format_number (VFloat (S754_infinity true)) = Ok (VStr "-inf T")
      /\ format_number (VStr "1e400") = Ok (VStr "inf T")
      /\ format_number (VInt (10 ^ 400)) = Raise OverflowError).
Proof.
  split; [reflexivity |].
  split; [exact format_number_passthrough |].
  split.
  { intros z Hz. pose proof (FloatFacts.float_of_Z_not_nan z) as Hnan.
    unfold format_number. cbn [py_float].
    destruct (float_of_Z z) as [sg | sg | | sg m e]; try discriminate Hz;
      [| contradiction Hnan; reflexivity].
    reflexivity. }
  split; [exact format_number_convertible |].
  split; [exact format_2f_finite |].
  repeat split; vm_compute; reflexivity.
Qed.
Lemma format_number_spec_witness :
  format_number (VStr "n/a") = Ok (VStr "n/a")
  /\ format_number (VInt (-1234567)) = Ok (VStr "-1.23 M")
  /\ two_decimals (format_2f (fdiv (float_of_Z (-1234567)) (float_of_Z 1000000)))
  /\ format_number (VInt (2 ^ 1024)) = Raise OverflowError.
Proof.
  destruct format_number_spec as (_ & Hpass & Hover & Hconv & Hdec & _).
  split; [| split; [| split]].
  - apply (Hpass (VStr "n/a") ValueError); reflexivity.
  - rewrite (Hconv (VInt (-1234567)) (float_of_Z (-1234567)));
      [vm_compute; reflexivity | reflexivity].
  - apply Hdec. reflexivity.
  - apply Hover. reflexivity.
Defined.

(** C2 as stated fails on values [float] converts that are not finite, and
    on ints that [float] does not convert.  The str ["nan"] converts, and
    is rendered ["nan"], which has no decimal digits; an infinite value is
    rendered ["inf T"]; and the int 10^400, which [float] does not
    convert, is not returned unchanged: [OverflowError] is raised. *)
Lemma format_number_spec_counterexample :
  py_float (VStr "nan") = Ok S754_nan
  /\ format_number (VStr "nan") = Ok (VStr "nan")
  /\ ~ two_decimals "nan"
  /\ format_number (VFloat (S754_infinity false)) = Ok (VStr ("inf" ++ " T"))
  /\ ~ two_decimals "inf"
  /\ py_float (VInt (10 ^ 400)) = Raise OverflowError
  /\ format_number (VInt (10 ^ 400)) <> Ok (VInt (10 ^ 400)).
Proof.
  split; [vm_compute; reflexivity |].
  split; [vm_compute; reflexivity |].
  split; [intros H; apply two_decimals_starts in H as [H | H]; discriminate H |].
  split; [vm_compute; reflexivity |].
  split; [intros H; apply two_decimals_starts in H as [H | H]; discriminate H |].
  split; [vm_compute; reflexivity |].
  vm_compute. discriminate.
Qed.

(** C3, at the failing input.  [float] converts the str ["0.0532"], and
    [format_number] formats a str that converts; [format_percent] returns
    it, and every other str, unchanged, while the float of the same value
    is rendered as a percentage. *)
Theorem format_percent_numeric_str :
  py_float (VStr "0.0532") = Ok (literal "0.0532")
  /\ format_percent (VStr "0.0532") = Ok (VStr "0.0532")
  /\ format_percent (VFloat (literal "0.0532")) = Ok (VStr "5.32%")
  /\ format_number (VStr "0.0532") = Ok (VStr "0.05")
  /\ (forall s : string, format_percent (VStr s) = Ok (VStr s)).
Proof.
  split; [| split; [| split; [| split]]];
    [vm_compute; reflexivity .. | exact format_percent_str].
Qed.

(** C4, as the code has it.  [1.0 > 1] is false, so the exact value 1.0
    takes the fraction arm and is rendered ["100.00%"]; so is the int 1. *)
Theorem format_percent_one :
  fltb (float_of_Z 1) (literal "1.0") = false
  /\ format_percent (VFloat (literal "1.0")) = Ok (VStr "100.00%")
  /\ format_percent (VInt 1) = Ok (VStr "100.00%").
Proof. repeat split; vm_compute; reflexivity. Qed.

(** C4 as stated fails: the result for 1.0 is not ["1.00%"]. *)
Lemma format_percent_one_counterexample :
  format_percent (VFloat (literal "1.0")) <> Ok (VStr "1.00%").
Proof. vm_compute. discriminate. Qed.

(** C10, as the code has it.  The arm is chosen by the signed test
    [p > 1]: a number above 1 is rendered as it is, with two decimals and
    a percent sign, and every other number is multiplied by 100 first.  So
    every negative number that [float] converts is multiplied by 100,
    whatever its magnitude: -5.32, of magnitude above 1, gives
    ["-532.00%"] and not ["-5.32%"], while 5.32 gives ["5.32%"].  A
    negative int beyond the range of a float takes the same arm, where
    [float] raises [OverflowError]. *)
Theorem format_percent_negative :
  (forall (v : value) (x : float),
     negative v = true -> py_float v = Ok x ->
     format_percent v = Ok (VStr (format_2f (fmul x (float_of_Z 100)) ++ "%")))
  /\ (forall z : Z,
        z < 0 -> is_finite (float_of_Z z) = false ->
        format_percent (VInt z) = Raise OverflowError)
  /\ (forall x : float,
        fltb (float_of_Z 1) x = true ->
        format_percent (VFloat x) = Ok (VStr (format_2f x ++ "%")))
  /\ (forall z : Z,
        1 < z -> is_finite (float_of_Z z) = true ->
        format_percent (VInt z) = Ok (VStr (format_2f (float_of_Z z) ++ "%")))
  /\ (fltb (float_of_Z 1) (fabs (SFopp f5_32)) = true
      /\ fltb (float_of_Z 1) (SFopp f5_32) = false
      /\ format_percent (VFloat (SFopp f5_32)) = Ok (VStr "-532.00%")
      /\ format_percent (VFloat (SFopp f5_32)) <> Ok (VStr "-5.32%")
      /\ format_percent (VFloat f5_32) = Ok (VStr "5.32%")
      /\ format_percent (VFloat f0_0532) = Ok (VStr "5.32%")
      /\ format_percent (VFloat (SFopp f0_0532)) = Ok (VStr "-5.32%")
      /\ format_percent (VInt 2) = Ok (VStr "2.00%")
      /\ format_percent (VInt (-2)) = Ok (VStr "-200.00%")
      /\ format_percent (VInt 0) = Ok (VStr "0.00%")
      /\ format_percent (VFloat (S754_infinity true)) = Ok (VStr "-inf%")
      /\ format_percent (VInt (- 10 ^ 400)) = Raise OverflowError).
Proof.
  split; [| split; [| split; [| split]]].
  - intros v x Hneg Hx. destruct v as [| f | z | s]; try discriminate Hneg.
    + simpl in Hneg, Hx. injection Hx as <-.
      rewrite format_percent_float, (below_zero_not_above_one f Hneg).
      reflexivity.
    + simpl in Hneg. unfold format_percent, percent_body.
      cbn [py_gt_int bind]. rewrite Hx.
      replace (1 <? z) with false by (symmetry; apply Z.ltb_ge; lia).
      reflexivity.
  - intros z Hneg Hz. pose proof (FloatFacts.float_of_Z_not_nan z) as Hnan.
    unfold format_percent, percent_body. cbn [py_gt_int py_float bind].
    destruct (float_of_Z z) as [sg | sg | | sg m e]; try discriminate Hz;
      [| contradiction Hnan; reflexivity].
    reflexivity.
  - intros x Hx. rewrite format_percent_float, Hx. reflexivity.
  - intros z Hz Hfin. unfold format_percent, percent_body.
    cbn [py_gt_int py_float bind].
    replace (1 <? z) with true by (symmetry; apply Z.ltb_lt; exact Hz).
    destruct (float_of_Z z) as [sg | sg | | sg m e]; try discriminate Hfin;
      reflexivity.
  - repeat split; try (vm_compute; reflexivity). vm_compute. discriminate.
Qed.

Lemma format_percent_negative_witness :
  format_percent (VFloat (SFopp f5_32))
  = Ok (VStr (format_2f (fmul (SFopp f5_32) (float_of_Z 100)) ++ "%"))
  /\ format_percent (VFloat f5_32) = Ok (VStr (format_2f f5_32 ++ "%")).
Proof.
  destruct format_percent_negative as (Hneg & _ & Hpos & _).
  split.
  - apply (Hneg (VFloat (SFopp f5_32)) (SFopp f5_32)); reflexivity.
  - apply Hpos. reflexivity.
Defined.

(** C10 as stated fails on the negative ints that [float] does not
    convert: -(10^400) is not multiplied by 100, [OverflowError] is
    raised. *)
Lemma format_percent_negative_counterexample :
  negative (VInt (- 10 ^ 400)) = true
  /\ format_percent (VInt (- 10 ^ 400)) = Raise OverflowError
  /\ forall s : string, format_percent (VInt (- 10 ^ 400)) <> Ok (VStr s).
Proof.
  split; [reflexivity |]. split; [vm_compute; reflexivity |].
  intros s. vm_compute. discriminate.
Qed.

End FormatterFacts.

(* ================================================================= *)
(** * Properties of the ownership resolver *)

Module OwnershipFacts.
Import Py Pandas Ownership Props Samples.

(** *** Stripping percent signs *)

Lemma string_app_assoc (s t u : string) : (s ++ t) ++ u = s ++ (t ++ u).
Proof. induction s as [| c s IH]; simpl; [| rewrite IH]; reflexivity. Qed.

Lemma string_rev_onto_app (s acc : string) :
  string_rev_onto s acc = string_rev s ++ acc.
Proof.
  unfold string_rev. revert acc.
  induction s as [| c s IH]; intros acc; simpl; [reflexivity |].
  rewrite (IH (String c acc)), (IH (String c EmptyString)).
  rewrite string_app_assoc. reflexivity.
Qed.

Lemma string_app_empty (s : string) : s ++ "" = s.
Proof. induction s as [| c s IH]; simpl; [| rewrite IH]; reflexivity. Qed.

Lemma string_rev_cons (c : ascii) (s : string) :
  string_rev (String c s) = string_rev s ++ String c "".
Proof.
  unfold string_rev at 1. simpl. apply string_rev_onto_app.
Qed.

Lemma string_rev_app (s t : string) :
  string_rev (s ++ t) = string_rev t ++ string_rev s.
Proof.
  induction s as [| c s IH].
  - simpl. rewrite string_app_empty. reflexivity.
  - change (String c s ++ t) with (String c (s ++ t)).
    rewrite !string_rev_cons, IH, string_app_assoc. reflexivity.
Qed.

Lemma string_rev_involutive (s : string) : string_rev (string_rev s) = s.
Proof.
  induction s as [| c s IH]; [reflexivity |].
  rewrite string_rev_cons, string_rev_app, IH. reflexivity.
Qed.

Lemma no_percent_app (s t : string) :
  no_percent (s ++ t) = no_percent s && no_percent t.
Proof.
  induction s as [| c s IH]; simpl; [reflexivity |].
  rewrite IH, andb_assoc. reflexivity.
Qed.

Lemma no_percent_rev (s : string) : no_percent (string_rev s) = no_percent s.
Proof.
  induction s as [| c s IH]; [reflexivity |].
  rewrite string_rev_cons, no_percent_app, IH.
  simpl. rewrite andb_true_r, andb_comm. reflexivity.
Qed.

Lemma lstrip_no_percent (s : string) :
  no_percent s = true -> lstrip is_percent_sign s = s.
Proof.
  destruct s as [| c s]; simpl; [reflexivity |].
  intros H. apply andb_prop in H as [Hc _].
  destruct (is_percent_sign c); [discriminate Hc | reflexivity].
Qed.

Lemma rstrip_no_percent (s : string) :
  no_percent s = true -> rstrip is_percent_sign s = s.
Proof.
  intros H. unfold rstrip.
  rewrite lstrip_no_percent by (rewrite no_percent_rev; exact H).
  apply string_rev_involutive.
Qed.

Lemma strip_no_percent (s : string) :
  no_percent s = true -> strip is_percent_sign s = s.
Proof.
  intros H. unfold strip. rewrite lstrip_no_percent by exact H.
  apply rstrip_no_percent, H.
Qed.

(** On a percent-string the strip removes the trailing sign. *)
Lemma strip_trailing_percent (body : string) :
  no_percent body = true -> strip is_percent_sign (body ++ "%") = body.
Proof.
  intros H. unfold strip.
  assert (rstrip is_percent_sign (body ++ "%") = body) as Hr.
  { unfold rstrip. rewrite string_rev_app. simpl.
    rewrite lstrip_no_percent by (rewrite no_percent_rev; exact H).
    apply string_rev_involutive. }
  destruct body as [| c body]; [reflexivity |].
  simpl in H. apply andb_prop in H as [Hc _].
  cbn [append lstrip]. destruct (is_percent_sign c); [discriminate Hc |].
  exact Hr.
Qed.

Lemma all_percent_app (s t : string) :
  all_percent (s ++ t) = all_percent s && all_percent t.
Proof.
  induction s as [| c s IH]; simpl; [reflexivity |].
  rewrite IH, andb_assoc. reflexivity.
Qed.

Lemma all_percent_rev (s : string) : all_percent (string_rev s) = all_percent s.
Proof.
  induction s as [| c s IH]; [reflexivity |].
  rewrite string_rev_cons, all_percent_app, IH.
  simpl. rewrite andb_true_r, andb_comm. reflexivity.
Qed.

Lemma lstrip_all_percent (pre rest : string) :
  all_percent pre = true ->
  lstrip is_percent_sign (pre ++ rest) = lstrip is_percent_sign rest.
Proof.
  induction pre as [| c pre IH]; simpl; intros H; [reflexivity |].
  apply andb_prop in H as [Hc Hpre]. rewrite Hc. exact (IH Hpre).
Qed.

(** [strip('%')] takes away the percent signs at both ends, and nothing
    else. *)
Lemma strip_percent_signs (pre core post : string) :
  all_percent pre = true -> all_percent post = true -> bare core = true ->
  strip is_percent_sign (pre ++ core ++ post) = core.
Proof.
  intros Hpre Hpost Hcore. unfold strip.
  rewrite (lstrip_all_percent pre _ Hpre).
  apply andb_prop in Hcore as [Hfirst Hlast].
  assert (rstrip is_percent_sign (core ++ post) = core) as Hr.
  { unfold rstrip. rewrite string_rev_app.
    rewrite lstrip_all_percent by (rewrite all_percent_rev; exact Hpost).
    destruct (string_rev core) as [| c r] eqn:E.
    - rewrite <- (string_rev_involutive core), E. reflexivity.
    - simpl. destruct (is_percent_sign c); [discriminate Hlast |].
      rewrite <- E. apply string_rev_involutive. }
  destruct core as [| c core].
  - simpl. rewrite <- (string_app_empty post).
    rewrite (lstrip_all_percent post "" Hpost). reflexivity.
  - cbn [append lstrip]. simpl in Hfirst.
    destruct (is_percent_sign c); [discriminate Hfirst | exact Hr].
Qed.

Lemma strip_trailing_sign_app (body : string) :
  strip_trailing_sign (body ++ "%") = body.
Proof.
  unfold strip_trailing_sign. rewrite string_rev_app. simpl.
  apply string_rev_involutive.
Qed.

(** *** The label lookup *)

Lemma label_is_true (key : string) (label : value) :
  label_is key label = true -> label = VStr key.
Proof.
  destruct label as [| f | z | k]; simpl; try discriminate.
  intros H. apply String.eqb_eq in H. subst k. reflexivity.
Qed.

Lemma zip_get_absent (pairs : list (value * value)) (key : string) :
  ~ In (VStr key) (map fst pairs) -> zip_get pairs key = None.
Proof.
  induction pairs as [| [label v] rest IH]; simpl; intros H; [reflexivity |].
  rewrite IH by tauto.
  destruct (label_is key label) eqn:E; [| reflexivity].
  apply label_is_true in E. subst label. tauto.
Qed.

Lemma major_dict_get_absent (labels vals : list value) (key : string) :
  ~ In (VStr key) labels -> major_dict_get (combine labels vals) key = VNone.
Proof.
  intros H. unfold major_dict_get. rewrite zip_get_absent; [reflexivity |].
  intros Hin. apply H. apply in_map_iff in Hin as ([l v] & <- & Hin).
  exact (in_combine_l _ _ _ _ Hin).
Qed.

(** *** The body of the [try] *)

Lemma pct_to_float_raises (val : value) (e : exn) :
  pct_to_float val = Raise e -> e = ValueError.
Proof.
  destruct val as [| f | z | str]; simpl; try discriminate.
  - destruct (float_of_string _); [discriminate | congruence].
  - destruct (float_of_string _); [discriminate | congruence].
Qed.

Lemma iloc_column_raises (m : DataFrame) (j : nat) (e : exn) :
  iloc_column m j = Raise e -> e = IndexError.
Proof.
  unfold iloc_column. destruct (nth_error (columns m) j) as [[k c] |];
    [discriminate | congruence].
Qed.

(** What [resolve] does once the table is known to have rows and columns. *)
Lemma resolve_table (m : DataFrame) :
  empty m = false ->
  resolve (Some m)
  = bind (iloc_column m 0) (fun labels =>
    bind (iloc_column m 1) (fun vals =>
    bind (pct_to_float (major_dict_get (combine labels vals) "Insiders (%)"))
      (fun ins =>
    bind (pct_to_float (major_dict_get (combine labels vals) "Institutions"))
      (fun inst =>
    Ok (Series_of ins inst (derive_float_pct ins inst)))))).
Proof. intros H. unfold resolve. rewrite H. reflexivity. Qed.

(** Whatever [resolve] returns is either the all-[None] summary or built
    from the two looked-up values. *)
Lemma resolve_ok (major : option DataFrame) (s : summary) :
  resolve major = Ok s ->
  s = ALL_NONE
  \/ exists m labels vals ins inst,
       major = Some m /\ empty m = false
       /\ iloc_column m 0 = Ok labels /\ iloc_column m 1 = Ok vals
       /\ pct_to_float (major_dict_get (combine labels vals) "Insiders (%)") = Ok ins
       /\ pct_to_float (major_dict_get (combine labels vals) "Institutions") = Ok inst
       /\ s = Series_of ins inst (derive_float_pct ins inst).
Proof.
  destruct major as [m |]; [| simpl; intros [= <-]; left; reflexivity].
  destruct (empty m) eqn:Hempty.
  - unfold resolve. rewrite Hempty. intros [= <-]. left. reflexivity.
  - rewrite (resolve_table m Hempty).
    destruct (iloc_column m 0) as [labels | e0] eqn:H0; [| discriminate].
    destruct (iloc_column m 1) as [vals | e1] eqn:H1; [| discriminate].
    cbn [bind].
    destruct (pct_to_float (major_dict_get (combine labels vals) "Insiders (%)"))
      as [ins | e2] eqn:Hins; [| discriminate].
    destruct (pct_to_float (major_dict_get (combine labels vals) "Institutions"))
      as [inst | e3] eqn:Hinst; [| discriminate].
    cbn [bind]. intros [= <-]. right.
    exists m, labels, vals, ins, inst. repeat split; reflexivity || assumption.
Qed.

Lemma resolve_raises (major : option DataFrame) (e : exn) :
  resolve major = Raise e -> is_Exception e = true.
Proof.
  destruct major as [m |]; [| discriminate].
  destruct (empty m) eqn:Hempty.
  - unfold resolve. rewrite Hempty. discriminate.
  - rewrite (resolve_table m Hempty).
    destruct (iloc_column m 0) as [labels | e0] eqn:H0;
      [| intros [= <-]; rewrite (iloc_column_raises _ _ _ H0); reflexivity].
    destruct (iloc_column m 1) as [vals | e1] eqn:H1;
      [| intros [= <-]; rewrite (iloc_column_raises _ _ _ H1); reflexivity].
    cbn [bind].
    destruct (pct_to_float (major_dict_get (combine labels vals) "Insiders (%)"))
      as [ins | e2] eqn:Hins;
      [| intros [= <-]; rewrite (pct_to_float_raises _ _ Hins); reflexivity].
    destruct (pct_to_float (major_dict_get (combine labels vals) "Institutions"))
      as [inst | e3] eqn:Hinst;
      [| intros [= <-]; rewrite (pct_to_float_raises _ _ Hinst); reflexivity].
    discriminate.
Qed.

(** *** The resolver *)

Section Resolver.

Variable yf : string -> result (option DataFrame).
Variable ticker : string.

Lemma parse_lookup_failed (e : exn) :
  yf ticker = Raise e -> is_Exception e = true ->
  parse_major_holders yf ticker = Ok ALL_NONE.
Proof.
  intros H He. unfold parse_major_holders. rewrite H. simpl. rewrite He.
  reflexivity.
Qed.

Lemma parse_resolve_failed (major : option DataFrame) (e : exn) :
  yf ticker = Ok major -> resolve major = Raise e ->
  parse_major_holders yf ticker = Ok ALL_NONE.
Proof.
  intros H Hr. unfold parse_major_holders. rewrite H. cbn [bind]. rewrite Hr.
  simpl. rewrite (resolve_raises _ _ Hr). reflexivity.
Qed.

Lemma parse_resolved (major : option DataFrame) (s : summary) :
  yf ticker = Ok major -> resolve major = Ok s ->
  parse_major_holders yf ticker = Ok s.
Proof.
  intros H Hr. unfold parse_major_holders. rewrite H. cbn [bind]. rewrite Hr.
  reflexivity.
Qed.

Lemma parse_returns :
  (forall e, yf ticker = Raise e -> is_Exception e = true) ->
  exists s, parse_major_holders yf ticker = Ok s.
Proof.
  intros Hyf. destruct (yf ticker) as [major | e] eqn:H.
  - destruct (resolve major) as [s | e] eqn:Hr.
    + exists s. exact (parse_resolved _ _ H Hr).
    + exists ALL_NONE. exact (parse_resolve_failed _ _ H Hr).
  - exists ALL_NONE. exact (parse_lookup_failed _ H (Hyf e eq_refl)).
Qed.

(** A summary the resolver returns is all-[None] or comes from [resolve]. *)
Lemma parse_ok (s : summary) :
  parse_major_holders yf ticker = Ok s ->
  s = ALL_NONE \/ exists major, yf ticker = Ok major /\ resolve major = Ok s.
Proof.
  unfold parse_major_holders. destruct (yf ticker) as [major | e].
  - cbn [bind]. destruct (resolve major) as [s' | e] eqn:Hr.
    + intros [= <-]. right. exists major. split; [reflexivity | exact Hr].
    + simpl. destruct (is_Exception e); [| discriminate].
      intros [= <-]. left. reflexivity.
  - simpl. destruct (is_Exception e); [| discriminate].
    intros [= <-]. left. reflexivity.
Qed.

End Resolver.

(** The cells of the Series are the three values after the conversion
    every pandas constructor applies to the objects it is given. *)
Lemma Series_of_unify (insider inst flt : option float) :
  map of_option
    [ insider_pct (Series_of insider inst flt);
      inst_pct (Series_of insider inst flt);
      float_pct (Series_of insider inst flt) ]
  = unify [of_option insider; of_option inst; of_option flt].
Proof.
  destruct insider as [[| | |] |], inst as [[| | |] |], flt as [[| | |] |];
    reflexivity.
Qed.

(** Every summary the resolver returns is the Series of two converted
    values and the Float/Retail percentage derived from them. *)
Lemma parse_derivation (yf : string -> result (option DataFrame))
    (ticker : string) (s : summary) :
  parse_major_holders yf ticker = Ok s ->
  exists ins inst : option float,
    s = Series_of ins inst (derive_float_pct ins inst).
Proof.
  intros H. apply parse_ok in H as [-> | (major & _ & Hr)];
    [exists None, None; reflexivity |].
  apply resolve_ok in Hr as [-> | (m & labels & vals & ins & inst & H)];
    [exists None, None; reflexivity |].
  destruct H as (_ & _ & _ & _ & _ & _ & ->). exists ins, inst. reflexivity.
Qed.

(** The summary of a table whose two values convert. *)
Lemma parse_found (yf : string -> result (option DataFrame)) (ticker : string)
    (m : DataFrame) (labels vals : Series) (ins inst : option float) :
  yf ticker = Ok (Some m) -> empty m = false ->
  iloc_column m 0 = Ok labels -> iloc_column m 1 = Ok vals ->
  pct_to_float (major_dict_get (combine labels vals) "Insiders (%)") = Ok ins ->
  pct_to_float (major_dict_get (combine labels vals) "Institutions") = Ok inst ->
  parse_major_holders yf ticker
  = Ok (Series_of ins inst (derive_float_pct ins inst)).
Proof.
  intros H Hempty H0 H1 Hins Hinst.
  apply (parse_resolved yf ticker (Some m) _ H).
  rewrite (resolve_table m Hempty), H0, H1. cbn [bind].
  rewrite Hins, Hinst. reflexivity.
Qed.

(** C1, as the code has it.  Float/Retail is derived from the two converted
    values as stated: missing when Institutional is missing, else 100 minus
    Institutional when Insider is missing, else 100 minus Institutional
    minus Insider.  The three values are returned in a Series: when all
    three are missing they are [None]; when one of them is a float the
    Series is one of floats and a missing value is the missing-value float
    [nan].  So every summary has one of four shapes.  For the rows
    (Insiders (%), 5.00%), (Institutions, 70.00%) the resolver returns 5.0,
    70.0 and 25.0; for (Institutions, 60.00%) alone it returns [nan], 60.0
    and 40.0; for (Insiders (%), 5.00%) alone 5.0, [nan] and [nan]. *)
Theorem float_retail_derivation :
  (forall (yf : string -> result (option DataFrame)) (ticker : string)
          (m : DataFrame) (labels vals : Series) (ins inst : option float),
     yf ticker = Ok (Some m) -> empty m = false ->
     iloc_column m 0 = Ok labels -> iloc_column m 1 = Ok vals ->
     pct_to_float (major_dict_get (combine labels vals) "Insiders (%)") = Ok ins ->
     pct_to_float (major_dict_get (combine labels vals) "Institutions") = Ok inst ->
     parse_major_holders yf ticker
     = Ok match inst, ins with
          | None, None => mkSummary None None None
          | None, Some j => mkSummary (Some j) (Some S754_nan) (Some S754_nan)
          | Some i, None =>
            mkSummary (Some S754_nan) (Some i) (Some (fsub (float_of_Z 100) i))
          | Some i, Some j =>
            mkSummary (Some j) (Some i)
              (Some (fsub (fsub (float_of_Z 100) i) j))
          end)
  /\ (forall (yf : string -> result (option DataFrame)) (ticker : string)
             (s : summary),
        parse_major_holders yf ticker = Ok s ->
        s = mkSummary None None None
        \/ (exists j, s = mkSummary (Some j) (Some S754_nan) (Some S754_nan))
        \/ (exists i,
              s = mkSummary (Some S754_nan) (Some i)
                    (Some (fsub (float_of_Z 100) i)))
        \/ (exists i j,
              s = mkSummary (Some j) (Some i)
                    (Some (fsub (fsub (float_of_Z 100) i) j))))
  /\ (forall ticker : string,
        parse_major_holders
          (answers (table [ (VStr "Insiders (%)", VStr "5.00%");
                            (VStr "Institutions", VStr "70.00%") ])) ticker
        = Ok (mkSummary (Some f5) (Some f70) (Some f25)))
  /\ (forall ticker : string,
        parse_major_holders
          (answers (table [ (VStr "Institutions", VStr "60.00%") ])) ticker
        = Ok (mkSummary (Some S754_nan) (Some f60) (Some f40)))
  /\ (forall ticker : string,
        parse_major_holders
          (answers (table [ (VStr "Insiders (%)", VStr "5.00%") ])) ticker
        = Ok (mkSummary (Some f5) (Some S754_nan) (Some S754_nan))).
Proof.
  split; [| split; [| split; [| split]]].
  - intros yf ticker m labels vals ins inst H Hempty H0 H1 Hins Hinst.
    rewrite (parse_found yf ticker m labels vals ins inst H Hempty H0 H1 Hins Hinst).
    destruct ins, inst; reflexivity.
  - intros yf ticker s H.
    destruct (parse_derivation yf ticker s H) as (ins & inst & ->).
    destruct ins as [j |], inst as [i |]; cbn.
    + right. right. right. exists i, j. reflexivity.
    + right. left. exists j. reflexivity.
    + right. right. left. exists i. reflexivity.
    + left. reflexivity.
  - intros ticker. vm_compute. reflexivity.
  - intros ticker. vm_compute. reflexivity.
  - intros ticker. vm_compute. reflexivity.
Qed.

Lemma float_retail_derivation_witness :
  parse_major_holders (answers holders_both) "BBCA.JK"
  = Ok (mkSummary (Some f5) (Some f70)
          (Some (fsub (fsub (float_of_Z 100) f70) f5))).
Proof.
  apply (proj1 float_retail_derivation (answers holders_both) "BBCA.JK"
           holders_both [VStr "Insiders (%)"; VStr "Institutions"]
           [VStr "5.00%"; VStr "70.00%"] (Some f5) (Some f70));
    vm_compute; reflexivity.
Defined.

(** C1 as stated fails: for the row (Institutions, 60.00%) alone the
    Insider value of the summary is the missing-value float, not [None];
    and for the row (Insiders (%), 5.00%) alone, where Institutional is
    missing, Float/Retail is the missing-value float, not [None]. *)
Lemma float_retail_derivation_counterexample :
  parse_major_holders (answers holders_institutions_only) "BBCA.JK"
  <> Ok (mkSummary None (Some f60) (Some f40))
  /\ insider_pct_of (parse_major_holders (answers holders_institutions_only)
                       "BBCA.JK")
     = Some (Some S754_nan)
  /\ match parse_major_holders (answers holders_insiders_only) "BBCA.JK" with
     | Ok s => float_pct s = Some S754_nan /\ float_pct s <> None
     | Raise _ => False
     end.
Proof.
  split; [vm_compute; discriminate |].
  split; [vm_compute; reflexivity |].
  vm_compute. split; [reflexivity | discriminate].
Qed.

(** C5, as the code has it.  A lookup that yields no table, or a table
    without rows, gives the all-[None] summary.  A label that no row of
    the table carries leaves its value missing: the summary is then the
    all-[None] one, or, when the other value was found, a Series of floats
    in which the missing value is the missing-value float [nan].  A found
    str is converted by [float] after every percent sign at either end of
    it is stripped; on a text that ends in one percent sign and has none
    at its other end this is the conversion as specified (strip a
    trailing percent sign, parse the remainder).  The two converted
    values are the first two cells of the summary. *)
Theorem resolver_lookup_and_conversion :
  (forall (yf : string -> result (option DataFrame)) (ticker : string),
     yf ticker = Ok None -> parse_major_holders yf ticker = Ok ALL_NONE)
  /\ (forall (yf : string -> result (option DataFrame)) (ticker : string)
             (m : DataFrame),
        yf ticker = Ok (Some m) -> nrows m = 0%nat ->
        parse_major_holders yf ticker = Ok ALL_NONE)
  /\ (forall (yf : string -> result (option DataFrame)) (ticker : string)
             (m : DataFrame) (labels : Series) (s : summary),
        yf ticker = Ok (Some m) -> iloc_column m 0 = Ok labels ->
        parse_major_holders yf ticker = Ok s ->
        (~ In (VStr "Insiders (%)") labels ->
         s = mkSummary None None None
         \/ exists i,
              s = mkSummary (Some S754_nan) (Some i)
                    (Some (fsub (float_of_Z 100) i)))
        /\ (~ In (VStr "Institutions") labels ->
            s = mkSummary None None None
            \/ exists j,
                 s = mkSummary (Some j) (Some S754_nan) (Some S754_nan)))
  /\ (forall pre core post : string,
        all_percent pre = true -> all_percent post = true ->
        bare core = true ->
        pct_to_float (VStr (pre ++ core ++ post))
        = match float_of_string core with
          | Some f => Ok (Some f)
          | None => Raise ValueError
          end)
  /\ (forall body : string,
        bare body = true ->
        pct_to_float (VStr (body ++ "%"))
        = specified_pct_to_float (body ++ "%"))
  /\ (pct_to_float VNone = Ok None
      /\ pct_to_float (VStr "5.00%") = Ok (Some f5)
      /\ pct_to_float (VStr "70.00%") = Ok (Some f70)
      /\ pct_to_float (VStr "%5.00") = Ok (Some f5)
      /\ pct_to_float (VStr "5.00%%") = Ok (Some f5)
      /\ pct_to_float (VStr "5.00") = Ok (Some f5)
      /\ pct_to_float (VStr "5%0") = Raise ValueError
      /\ pct_to_float (VStr "n/a") = Raise ValueError)
  /\ (forall (yf : string -> result (option DataFrame)) (ticker : string)
             (m : DataFrame) (labels vals : Series)
             (ins inst : option float),
        yf ticker = Ok (Some m) -> empty m = false ->
        iloc_column m 0 = Ok labels -> iloc_column m 1 = Ok vals ->
        pct_to_float (major_dict_get (combine labels vals) "Insiders (%)") = Ok ins ->
        pct_to_float (major_dict_get (combine labels vals) "Institutions") = Ok inst ->
        insider_pct_of (parse_major_holders yf ticker)
        = Some match ins, inst with
               | Some j, _ => Some j
               | None, Some _ => Some S754_nan
               | None, None => None
               end
        /\ inst_pct_of (parse_major_holders yf ticker)
           = Some match inst, ins with
                  | Some i, _ => Some i
                  | None, Some _ => Some S754_nan
                  | None, None => None
                  end).
Proof.
  split; [| split; [| split; [| split; [| split; [| split]]]]].
  - intros yf ticker H. exact (parse_resolved yf ticker None ALL_NONE H eq_refl).
  - intros yf ticker m H Hrows.
    apply (parse_resolved yf ticker (Some m) ALL_NONE H).
    unfold resolve, empty. rewrite Hrows. reflexivity.
  - intros yf ticker m labels s H Hlabels Hs.
    apply parse_ok in Hs as [-> | (major & Hmajor & Hr)];
      [split; intros _; left; reflexivity |].
    apply resolve_ok in Hr as [-> | (m' & labels' & vals & ins & inst & Hm)];
      [split; intros _; left; reflexivity |].
    destruct Hm as (-> & _ & H0 & _ & Hins & Hinst & ->).
    rewrite H in Hmajor. injection Hmajor as <-.
    rewrite Hlabels in H0. injection H0 as <-.
    split; intros Habsent.
    + rewrite (major_dict_get_absent labels vals _ Habsent) in Hins.
      simpl in Hins. injection Hins as <-.
      destruct inst as [i |]; [right; exists i | left]; reflexivity.
    + rewrite (major_dict_get_absent labels vals _ Habsent) in Hinst.
      simpl in Hinst. injection Hinst as <-.
      destruct ins as [j |]; [right; exists j | left]; reflexivity.
  - intros pre core post Hpre Hpost Hcore. cbn [pct_to_float].
    rewrite (strip_percent_signs pre core post Hpre Hpost Hcore). reflexivity.
  - intros body Hbody. unfold specified_pct_to_float.
    rewrite strip_trailing_sign_app. cbn [pct_to_float].
    change (body ++ "%") with ("" ++ body ++ "%").
    rewrite (strip_percent_signs "" body "%" eq_refl eq_refl Hbody).
    reflexivity.
  - repeat split; vm_compute; reflexivity.
  - intros yf ticker m labels vals ins inst H Hempty H0 H1 Hins Hinst.
    rewrite (parse_found yf ticker m labels vals ins inst H Hempty H0 H1 Hins Hinst).
    destruct ins, inst; split; reflexivity.
Qed.

Lemma resolver_lookup_and_conversion_witness :
  parse_major_holders (fun _ => Ok None) "BBCA.JK" = Ok ALL_NONE
  /\ parse_major_holders (answers (table [])) "BBCA.JK" = Ok ALL_NONE
  /\ (parse_major_holders (answers holders_institutions_only) "BBCA.JK"
      = Ok (mkSummary None None None)
      \/ exists i,
           parse_major_holders (answers holders_institutions_only) "BBCA.JK"
           = Ok (mkSummary (Some S754_nan) (Some i)
                   (Some (fsub (float_of_Z 100) i))))
  /\ pct_to_float (VStr ("%%" ++ "5.00" ++ "%")) = Ok (Some f5)
  /\ pct_to_float (VStr ("5.00" ++ "%")) = specified_pct_to_float ("5.00" ++ "%")
  /\ inst_pct_of (parse_major_holders (answers holders_both) "BBCA.JK")
     = Some (Some f70).
Proof.
  destruct resolver_lookup_and_conversion
    as (Hnone & Hrows & Hlabel & Hstrip & Hspec & _ & Hfound).
  split; [| split; [| split; [| split; [| split]]]].
  - apply Hnone. reflexivity.
  - apply (Hrows _ _ (table [])); reflexivity.
  - destruct (parse_major_holders (answers holders_institutions_only) "BBCA.JK")
      as [s | e] eqn:E; [| vm_compute in E; discriminate E].
    destruct (Hlabel (answers holders_institutions_only) "BBCA.JK"
                holders_institutions_only [VStr "Institutions"] s
                eq_refl eq_refl E) as [Hins _].
    destruct Hins as [-> | [i ->]].
    + simpl. intros [H | []]. discriminate H.
    + left. reflexivity.
    + right. exists i. reflexivity.
  - rewrite (Hstrip "%%" "5.00" "%"); [vm_compute | ..]; reflexivity.
  - apply Hspec. reflexivity.
  - apply (Hfound (answers holders_both) "BBCA.JK" holders_both
             [VStr "Insiders (%)"; VStr "Institutions"]
             [VStr "5.00%"; VStr "70.00%"] (Some f5) (Some f70));
      vm_compute; reflexivity.
Defined.

(** C5 as stated fails in two places.  With the row (Institutions, 60.00%)
    alone the label Insiders (%) is missing, and its field of the summary
    is the missing-value float, not [None].  And the conversion strips
    more than a trailing percent sign: ["%5.00"] and ["5.00%%"] convert to
    5.0, while the remainder after a trailing sign is stripped does not
    parse. *)
Lemma resolver_lookup_and_conversion_counterexample :
  insider_pct_of (parse_major_holders (answers holders_institutions_only)
                    "BBCA.JK")
  = Some (Some S754_nan)
  /\ insider_pct_of (parse_major_holders (answers holders_institutions_only)
                       "BBCA.JK")
     <> Some None
  /\ pct_to_float (VStr "%5.00") = Ok (Some f5)
  /\ specified_pct_to_float "%5.00" = Raise ValueError
  /\ pct_to_float (VStr "5.00%%") = Ok (Some f5)
  /\ specified_pct_to_float "5.00%%" = Raise ValueError.
Proof.
  split; [vm_compute; reflexivity |].
  split; [vm_compute; discriminate |].
  repeat split; vm_compute; reflexivity.
Qed.

(** C6. Whatever fails inside the resolver, be it the lookup, a table that
    lacks its value column or a value that does not parse, is caught by
    the resolver, which then returns the all-[None] summary: a value that
    does not parse discards the other value too.  When the lookup fails
    with an [Exception], or does not fail, the resolver returns a summary
    and raises nothing. *)
Theorem resolver_catches_failures :
  (forall (yf : string -> result (option DataFrame)) (ticker : string)
          (e : exn),
     yf ticker = Raise e -> is_Exception e = true ->
     parse_major_holders yf ticker = Ok ALL_NONE)
  /\ (forall (yf : string -> result (option DataFrame)) (ticker : string)
             (major : option DataFrame) (e : exn),
        yf ticker = Ok major -> resolve major = Raise e ->
        parse_major_holders yf ticker = Ok ALL_NONE)
  /\ (forall (yf : string -> result (option DataFrame)) (ticker : string)
             (m : DataFrame),
        yf ticker = Ok (Some m) -> empty m = false ->
        iloc_column m 1 = Raise IndexError ->
        parse_major_holders yf ticker = Ok ALL_NONE)
  /\ (forall (yf : string -> result (option DataFrame)) (ticker : string)
             (m : DataFrame) (labels vals : Series),
        yf ticker = Ok (Some m) -> empty m = false ->
        iloc_column m 0 = Ok labels -> iloc_column m 1 = Ok vals ->
        pct_to_float (major_dict_get (combine labels vals) "Insiders (%)")
        = Raise ValueError
        \/ pct_to_float (major_dict_get (combine labels vals) "Institutions")
           = Raise ValueError ->
        parse_major_holders yf ticker = Ok ALL_NONE)
  /\ (forall (yf : string -> result (option DataFrame)) (ticker : string),
        (forall e : exn, yf ticker = Raise e -> is_Exception e = true) ->
        exists s : summary, parse_major_holders yf ticker = Ok s)
  /\ (forall ticker : string,
        parse_major_holders unreachable ticker = Ok ALL_NONE
        /\ parse_major_holders (answers holders_one_column) ticker = Ok ALL_NONE
        /\ parse_major_holders (answers holders_garbled) ticker = Ok ALL_NONE).
Proof.
  split; [| split; [| split; [| split; [| split]]]].
  - exact parse_lookup_failed.
  - exact parse_resolve_failed.
  - intros yf ticker m H Hempty H1.
    apply (parse_resolve_failed yf ticker (Some m) IndexError H).
    rewrite (resolve_table m Hempty), H1.
    destruct (iloc_column m 0) as [labels | e] eqn:H0; [reflexivity |].
    rewrite (iloc_column_raises _ _ _ H0). reflexivity.
  - intros yf ticker m labels vals H Hempty H0 H1 Hfail.
    apply (parse_resolve_failed yf ticker (Some m) ValueError H).
    rewrite (resolve_table m Hempty), H0, H1. cbn [bind].
    destruct Hfail as [Hins | Hinst].
    + rewrite Hins. reflexivity.
    + rewrite Hinst.
      destruct (pct_to_float (major_dict_get (combine labels vals) "Insiders (%)"))
        as [ins | e] eqn:Hins; [reflexivity |].
      rewrite (pct_to_float_raises _ _ Hins). reflexivity.
  - exact parse_returns.
  - intros ticker. repeat split; vm_compute; reflexivity.
Qed.

Lemma resolver_catches_failures_witness :
  parse_major_holders unreachable "TLKM.JK" = Ok ALL_NONE
  /\ parse_major_holders (answers holders_garbled) "TLKM.JK" = Ok ALL_NONE
  /\ parse_major_holders (answers holders_one_column) "TLKM.JK" = Ok ALL_NONE
  /\ (exists s : summary, parse_major_holders (answers holders_both) "TLKM.JK" = Ok s).
Proof.
  destruct resolver_catches_failures
    as (Hlookup & Hresolve & Hcolumn & Hvalue & Hreturns & _).
  split; [| split; [| split]].
  - apply (Hlookup unreachable "TLKM.JK" (RemoteError "connection refused"));
      reflexivity.
  - apply (Hvalue (answers holders_garbled) "TLKM.JK" holders_garbled
             [VStr "Insiders (%)"; VStr "Institutions"]
             [VStr "n/a"; VStr "70.00%"]);
      try reflexivity.
    left. vm_compute. reflexivity.
  - apply (Hcolumn (answers holders_one_column) "TLKM.JK" holders_one_column);
      reflexivity.
  - apply Hreturns. intros e H. discriminate H.
Defined.

End OwnershipFacts.

(* ================================================================= *)
(** * Properties of the driver *)

Module PipelineFacts.
Import Py Pandas Ownership Projector Pipeline Props Samples.

(** *** Dicts *)

Lemma dict_get_set_same (d : dict) (key : string) (v : value) :
  dict_get (dict_set d key v) key = Some v.
Proof.
  induction d as [| [k old] rest IH]; simpl.
  - rewrite String.eqb_refl. reflexivity.
  - destruct (String.eqb key k) eqn:E; simpl; rewrite E; [reflexivity | exact IH].
Qed.

Lemma dict_get_set_other (d : dict) (key key' : string) (v : value) :
  key <> key' -> dict_get (dict_set d key' v) key = dict_get d key.
Proof.
  intros Hne. apply String.eqb_neq in Hne.
  induction d as [| [k old] rest IH]; simpl.
  - rewrite Hne. reflexivity.
  - destruct (String.eqb key' k) eqn:E; simpl.
    + apply String.eqb_eq in E. subst k. rewrite Hne. reflexivity.
    + rewrite IH. reflexivity.
Qed.

Lemma dict_get_update_other (other d : dict) (key : string) :
  ~ In key (map fst other) ->
  dict_get (dict_update d other) key = dict_get d key.
Proof.
  unfold dict_update. revert d.
  induction other as [| [k v] rest IH]; intros d Hnot; simpl; [reflexivity |].
  rewrite IH by (simpl in Hnot; tauto).
  apply dict_get_set_other. simpl in Hnot. intros ->. tauto.
Qed.

Lemma to_dict_keys (s : summary) :
  map fst (to_dict s)
  = ["Insider (%)"; "Institutional (%)"; "Float / Retail (%)"].
Proof. reflexivity. Qed.

(** *** One turn of the loop *)

Section Rows.

Variable yf_info : string -> result dict.
Variable yf_major_holders : string -> result (option DataFrame).

(** Whichever way a turn ends, its row carries the ticker. *)
Lemma row_of_has_ticker (t : string) (row : dict) :
  row_of yf_info yf_major_holders t = Ok row ->
  dict_get row "_ticker" = Some (VStr t).
Proof.
  unfold row_of, try_except.
  destruct (fetch yf_info yf_major_holders t) as [row' | e] eqn:Hfetch.
  - intros [= <-]. unfold fetch in Hfetch.
    apply ResultFacts.bind_Ok_inv in Hfetch as (info & _ & Hfetch).
    cbv beta zeta in Hfetch.
    apply ResultFacts.bind_Ok_inv in Hfetch as (s & _ & Hfetch).
    cbv beta in Hfetch. injection Hfetch as <-.
    rewrite !dict_get_set_other by discriminate.
    apply dict_get_set_same.
  - destruct (is_Exception e); [| discriminate].
    intros [= <-]. reflexivity.
Qed.

Lemma collect_have_tickers (tickers : list string) :
  forall raw_rows rows : list dict,
    collect yf_info yf_major_holders tickers raw_rows = Ok rows ->
    (forall row, In row raw_rows -> dict_get row "_ticker" <> None) ->
    forall row, In row rows -> dict_get row "_ticker" <> None.
Proof.
  induction tickers as [| t rest IH]; intros raw_rows rows H Hacc; simpl in H.
  - injection H as <-. exact Hacc.
  - apply ResultFacts.bind_Ok_inv in H as (row0 & Hrow0 & H).
    apply (IH _ _ H). intros row Hin. apply in_app_iff in Hin as [Hin | Hin].
    + exact (Hacc row Hin).
    + destruct Hin as [<- | []].
      rewrite (row_of_has_ticker t row0 Hrow0). discriminate.
Qed.

End Rows.

Section Driver.

Variable yf_info : string -> result dict.
Variable yf_major_holders : string -> result (option DataFrame).

(** A failed lookup fails with an [Exception]. *)
Hypothesis info_failures :
  forall t e, yf_info t = Raise e -> is_Exception e = true.
Hypothesis holders_failures :
  forall t e, yf_major_holders t = Raise e -> is_Exception e = true.








End Driver.

(** *** The pauses *)

Section Pauses.

Variable yf_info : string -> result dict.
Variable yf_major_holders : string -> result (option DataFrame).
Variable interrupted : string -> bool.

(** A loop that ends was not interrupted, and its rows are those of
    [collect]. *)
Lemma loop_collect (tickers : list string) :
  forall raw_rows rows : list dict,
    loop yf_info yf_major_holders interrupted tickers raw_rows = Ok rows ->
    collect yf_info yf_major_holders tickers raw_rows = Ok rows
    /\ forall t, In t tickers -> interrupted t = false.
Proof.
  induction tickers as [| t rest IH]; intros raw_rows rows H; simpl in H |- *.
  - split; [exact H | intros t []].
  - destruct (row_of yf_info yf_major_holders t) as [row | e]; [| discriminate H].
    cbn [bind] in H |- *. unfold sleep in H.
    destruct (interrupted t) eqn:E; [discriminate H |]. cbn [bind] in H.
    destruct (IH _ _ H) as [Hrows Hrest]. split; [exact Hrows |].
    intros t' [<- | Hin]; [exact E | exact (Hrest t' Hin)].
Qed.

Lemma loop_undisturbed (tickers : list string) :
  (forall t, In t tickers -> interrupted t = false) ->
  forall raw_rows : list dict,
    loop yf_info yf_major_holders interrupted tickers raw_rows
    = collect yf_info yf_major_holders tickers raw_rows.
Proof.
  induction tickers as [| t rest IH]; intros Hcalm raw_rows; simpl;
    [reflexivity |].
  destruct (row_of yf_info yf_major_holders t) as [row | e]; [| reflexivity].
  cbn [bind]. unfold sleep. rewrite (Hcalm t (or_introl eq_refl)). cbn [bind].
  apply IH. intros t' Hin. exact (Hcalm t' (or_intror Hin)).
Qed.

(** What the loop raises is the interrupt. *)
Lemma loop_raises (tickers : list string) :
  forall (raw_rows : list dict) (e : exn),
    loop yf_info yf_major_holders interrupted tickers raw_rows = Raise e ->
    exists t, In t tickers
              /\ (row_of yf_info yf_major_holders t = Raise e
                  \/ (interrupted t = true /\ e = KeyboardInterrupt)).
Proof.
  induction tickers as [| t rest IH]; intros raw_rows e H; simpl in H;
    [discriminate H |].
  destruct (row_of yf_info yf_major_holders t) as [row | e0] eqn:Hrow;
    cbn [bind] in H.
  - unfold sleep in H. destruct (interrupted t) eqn:E; cbn [bind] in H.
    + injection H as <-. exists t. split; [left; reflexivity |].
      right. split; [exact E | reflexivity].
    + destruct (IH _ e H) as (t' & Hin & Ht'). exists t'.
      split; [right; exact Hin | exact Ht'].
  - injection H as <-. exists t. split; [left; reflexivity |].
    left. exact Hrow.
Qed.

End Pauses.



End PipelineFacts.

(* ================================================================= *)
(** * Properties of the table projector *)

Module ProjectorFacts.
Import Py Pandas Formatter Projector Pipeline Props Samples.

(** *** Columns of a frame *)

Lemma mem_true_iff (key : string) (keys : list string) :
  mem key keys = true <-> In key keys.
Proof.
  unfold mem. rewrite existsb_exists. split.
  - intros (k & Hin & E). apply String.eqb_eq in E. subst k. exact Hin.
  - intros Hin. exists key. split; [exact Hin | apply String.eqb_refl].
Qed.

Lemma lookup_assign (cols : list (string * Series)) (key k : string) (s : Series) :
  lookup (assign cols key s) k
  = if String.eqb k key then Some s else lookup cols k.
Proof.
  induction cols as [| [k0 old] rest IH]; simpl.
  - destruct (String.eqb k key); reflexivity.
  - destruct (String.eqb key k0) eqn:E; simpl.
    + apply String.eqb_eq in E. subst k0.
      destruct (String.eqb k key); reflexivity.
    + destruct (String.eqb k k0) eqn:E0.
      * apply String.eqb_eq in E0. subst k0.
        rewrite String.eqb_sym, E. reflexivity.
      * exact IH.
Qed.

Lemma names_assign (cols : list (string * Series)) (key : string) (s : Series) :
  map fst (assign cols key s)
  = if mem key (map fst cols) then map fst cols
    else (map fst cols ++ [key])%list.
Proof.
  induction cols as [| [k0 old] rest IH]; simpl; [reflexivity |].
  destruct (String.eqb key k0) eqn:E; simpl.
  - reflexivity.
  - rewrite IH. unfold mem. destruct (existsb (String.eqb key) (map fst rest));
      reflexivity.
Qed.

Lemma assign_new (cols : list (string * Series)) (key : string) (s : Series) :
  mem key (map fst cols) = false -> assign cols key s = (cols ++ [(key, s)])%list.
Proof.
  induction cols as [| [k0 old] rest IH]; simpl; intros H; [reflexivity |].
  apply orb_false_elim in H as [E H]. rewrite E, (IH H). reflexivity.
Qed.

Lemma lookup_names (cols : list (string * Series)) (key : string) (s : Series) :
  lookup cols key = Some s -> mem key (map fst cols) = true.
Proof.
  induction cols as [| [k0 old] rest IH]; simpl; [discriminate |].
  destruct (String.eqb key k0); [reflexivity | exact IH].
Qed.

Lemma lookup_In (cols : list (string * Series)) (key : string) (s : Series) :
  lookup cols key = Some s -> In (key, s) cols.
Proof.
  induction cols as [| [k0 old] rest IH]; simpl; [discriminate |].
  destruct (String.eqb key k0) eqn:E.
  - apply String.eqb_eq in E. subst k0. intros [= ->]. left. reflexivity.
  - intros H. right. exact (IH H).
Qed.

Lemma length_reindex (n : nat) (s : Series) : List.length (reindex n s) = n.
Proof.
  unfold reindex. rewrite length_app, length_firstn, repeat_length. lia.
Qed.

Lemma reindex_same (s : Series) : reindex (List.length s) s = s.
Proof.
  unfold reindex. rewrite firstn_all, Nat.sub_diag. apply app_nil_r.
Qed.

Lemma names_setitem_series (df : DataFrame) (key : string) (s : Series) :
  names (setitem_series df key s)
  = if mem key (names df) then names df else (names df ++ [key])%list.
Proof.
  unfold setitem_series, names.
  destruct ((nrows df =? 0)%nat && negb (List.length s =? 0)%nat); simpl.
  - rewrite names_assign, map_map. simpl. reflexivity.
  - apply names_assign.
Qed.

Lemma names_setitem_scalar (df : DataFrame) (key : string) (v : value) :
  names (setitem_scalar df key v)
  = if mem key (names df) then names df else (names df ++ [key])%list.
Proof. unfold setitem_scalar, names. simpl. apply names_assign. Qed.

Lemma setitem_series_aligned (df : DataFrame) (key : string) (s : Series) :
  List.length s = nrows df ->
  setitem_series df key s = mkDataFrame (nrows df) (assign (columns df) key s).
Proof.
  intros H. unfold setitem_series. rewrite <- H.
  destruct (List.length s =? 0)%nat; simpl; rewrite ?andb_false_r;
    rewrite reindex_same; reflexivity.
Qed.

(** *** Well-formed frames *)

Lemma well_formed_assign (n : nat) (cols : list (string * Series))
    (key : string) (s : Series) :
  Forall (fun kc => List.length (snd kc) = n) cols -> List.length s = n ->
  Forall (fun kc => List.length (snd kc) = n) (assign cols key s).
Proof.
  intros Hcols Hs. induction Hcols as [| [k0 old] rest H0 Hrest IH]; simpl.
  - constructor; [exact Hs | constructor].
  - destruct (String.eqb key k0); constructor; assumption.
Qed.

Lemma well_formed_setitem_series (df : DataFrame) (key : string) (s : Series) :
  well_formed df -> well_formed (setitem_series df key s).
Proof.
  unfold well_formed, setitem_series. intros H.
  destruct ((nrows df =? 0)%nat && negb (List.length s =? 0)%nat); simpl.
  - apply well_formed_assign; [| apply length_reindex].
    apply Forall_map. apply Forall_forall. intros kc _. simpl.
    apply length_reindex.
  - apply well_formed_assign; [exact H | apply length_reindex].
Qed.

Lemma well_formed_setitem_scalar (df : DataFrame) (key : string) (v : value) :
  well_formed df -> well_formed (setitem_scalar df key v).
Proof.
  unfold well_formed, setitem_scalar. intros H. simpl.
  apply well_formed_assign; [exact H | apply repeat_length].
Qed.

Lemma well_formed_getitem (df : DataFrame) (key : string) (s : Series) :
  well_formed df -> getitem df key = Some s -> List.length s = nrows df.
Proof.
  unfold well_formed, getitem. intros H Hs. apply lookup_In in Hs.
  rewrite Forall_forall in H. exact (H _ Hs).
Qed.

(** *** The projection loop *)

Section Projection.

Variable raw_df : DataFrame.

Lemma names_copy_field (df : DataFrame) (f : string * string) :
  names (copy_field raw_df df f)
  = if mem (fst f) (names df) then names df else (names df ++ [fst f])%list.
Proof.
  unfold copy_field. destruct (getitem raw_df (snd f)).
  - apply names_setitem_series.
  - apply names_setitem_scalar.
Qed.

Lemma names_copy_fields (fs : list (string * string)) :
  forall df : DataFrame,
    names (fold_left (copy_field raw_df) fs df)
    = fold_left (fun ns f => if mem (fst f) ns then ns else (ns ++ [fst f])%list)
        fs (names df).
Proof.
  induction fs as [| f rest IH]; intros df; simpl; [reflexivity |].
  rewrite IH, names_copy_field. reflexivity.
Qed.

Lemma names_project : names (project raw_df) = published_columns.
Proof. unfold project. rewrite names_copy_fields. reflexivity. Qed.

Lemma well_formed_copy_fields (fs : list (string * string)) :
  forall df : DataFrame,
    well_formed df -> well_formed (fold_left (copy_field raw_df) fs df).
Proof.
  induction fs as [| f rest IH]; intros df H; simpl; [exact H |].
  apply IH. unfold copy_field. destruct (getitem raw_df (snd f)).
  - apply well_formed_setitem_series, H.
  - apply well_formed_setitem_scalar, H.
Qed.

Lemma well_formed_project : well_formed (project raw_df).
Proof. apply well_formed_copy_fields. constructor. Qed.

Hypothesis raw_well_formed : well_formed raw_df.

Lemma length_source (raw_key : string) :
  List.length (source raw_df raw_key) = nrows raw_df.
Proof.
  unfold source. destruct (getitem raw_df raw_key) as [s |] eqn:H.
  - exact (well_formed_getitem raw_df raw_key s raw_well_formed H).
  - apply repeat_length.
Qed.

(** Once the frame has the index of the raw table, a field adds its
    source as a new last column. *)
Lemma copy_field_aligned (df : DataFrame) (f : string * string) :
  nrows df = nrows raw_df -> mem (fst f) (names df) = false ->
  copy_field raw_df df f
  = mkDataFrame (nrows raw_df)
      (columns df ++ [(fst f, source raw_df (snd f))])%list.
Proof.
  intros Hrows Hnew. unfold copy_field, source.
  destruct (getitem raw_df (snd f)) as [s |] eqn:H.
  - rewrite setitem_series_aligned
      by (rewrite Hrows; exact (well_formed_getitem raw_df _ s raw_well_formed H)).
    rewrite Hrows, (assign_new _ _ _ Hnew). reflexivity.
  - unfold setitem_scalar. rewrite Hrows, (assign_new _ _ _ Hnew). reflexivity.
Qed.

Lemma copy_fields_aligned (fs : list (string * string)) :
  forall df : DataFrame,
    nrows df = nrows raw_df -> fresh_names (names df) fs = true ->
    fold_left (copy_field raw_df) fs df
    = mkDataFrame (nrows raw_df)
        (columns df ++ map (fun f => (fst f, source raw_df (snd f))) fs)%list.
Proof.
  induction fs as [| f rest IH]; intros df Hrows Hfresh; simpl.
  - rewrite app_nil_r, <- Hrows. destruct df; reflexivity.
  - simpl in Hfresh. apply andb_prop in Hfresh as [Hnew Hrest].
    apply negb_true_iff in Hnew.
    rewrite (copy_field_aligned df f Hrows Hnew), IH.
    + simpl. rewrite <- app_assoc. reflexivity.
    + reflexivity.
    + unfold names. simpl. rewrite map_app. exact Hrest.
Qed.

Hypothesis raw_indexed : indexed raw_df.

Lemma fold_left_cons (A B : Type) (f : A -> B -> A) (x : B) (l : list B) (a : A) :
  fold_left f (x :: l) a = fold_left f l (f a x).
Proof. reflexivity. Qed.

(** The ticker column comes first and gives the frame its index. *)
Lemma copy_ticker :
  copy_field raw_df empty_frame ("Ticker", "_ticker")
  = mkDataFrame (nrows raw_df) [("Ticker", source raw_df "_ticker")].
Proof.
  unfold copy_field, source. simpl snd. simpl fst.
  destruct (getitem raw_df "_ticker") as [s |] eqn:H.
  - pose proof (well_formed_getitem raw_df _ s raw_well_formed H) as Hlen.
    unfold setitem_series. rewrite <- Hlen.
    destruct s as [| v s]; [reflexivity |].
    cbn [empty_frame nrows columns Nat.eqb List.length andb negb map assign].
    change (S (List.length s)) with (List.length (v :: s)).
    rewrite reindex_same. reflexivity.
  - destruct raw_indexed as [Hticker | Hrows]; [contradiction |].
    rewrite Hrows. reflexivity.
Qed.

Lemma project_columns :
  project raw_df
  = mkDataFrame (nrows raw_df)
      (map (fun f => (fst f, source raw_df (snd f))) fields).
Proof.
  unfold project. unfold fields at 1. rewrite fold_left_cons, copy_ticker.
  rewrite copy_fields_aligned;
    [reflexivity | reflexivity | vm_compute; reflexivity].
Qed.

End Projection.

(** *** The formatting steps *)

Lemma apply_length (f : value -> result value) (s : Series) :
  forall s' : Series, apply f s = Ok s' -> List.length s' = List.length s.
Proof.
  induction s as [| v rest IH]; simpl; intros s' H.
  - injection H as <-. reflexivity.
  - destruct (f v) as [v' | e]; [| discriminate H]. cbn [bind] in H.
    destruct (apply f rest) as [rest' | e]; [| discriminate H].
    cbn [bind] in H. injection H as <-. simpl. rewrite (IH rest' eq_refl).
    reflexivity.
Qed.

Lemma format_column_returns (f : value -> result value) (col : string)
    (df : DataFrame) (s s' : Series) :
  well_formed df -> getitem df col = Some s -> apply f s = Ok s' ->
  format_column f col df
  = Ok (mkDataFrame (nrows df) (assign (columns df) col s')).
Proof.
  intros Hwf Hs Hs'. unfold format_column. rewrite Hs, Hs'. cbn [bind].
  rewrite setitem_series_aligned; [reflexivity |].
  rewrite (apply_length f s s' Hs'). exact (well_formed_getitem df col s Hwf Hs).
Qed.

Lemma format_column_ok (f : value -> result value) (col : string)
    (df df' : DataFrame) :
  well_formed df -> format_column f col df = Ok df' ->
  exists s s' : Series,
    getitem df col = Some s /\ apply f s = Ok s'
    /\ nrows df' = nrows df
    /\ columns df' = assign (columns df) col s'
    /\ names df' = names df
    /\ well_formed df'.
Proof.
  intros Hwf H. unfold format_column in H.
  destruct (getitem df col) as [s |] eqn:Hs; [| discriminate H].
  destruct (apply f s) as [s' | e] eqn:Hs'; [| discriminate H].
  pose proof (format_column_returns f col df s s' Hwf Hs Hs') as Hret.
  unfold format_column in Hret. rewrite Hs, Hs' in Hret.
  rewrite Hret in H. injection H as <-.
  assert (List.length s' = nrows df) as Hlen.
  { rewrite (apply_length f s s' Hs').
    exact (well_formed_getitem df col s Hwf Hs). }
  exists s, s'.
  split; [reflexivity |]. split; [exact Hs' |]. split; [reflexivity |].
  split; [reflexivity |]. split.
  - unfold names. simpl. rewrite names_assign.
    unfold getitem in Hs. rewrite (lookup_names _ _ _ Hs). reflexivity.
  - unfold well_formed. simpl. apply well_formed_assign; assumption.
Qed.

Lemma lookup_assign_other (cols : list (string * Series)) (key k : string)
    (s : Series) :
  String.eqb k key = false -> lookup (assign cols key s) k = lookup cols k.
Proof. intros H. rewrite lookup_assign, H. reflexivity. Qed.

(** The five formatting steps on a well-formed frame [p]. *)
Lemma format_steps (p df : DataFrame) :
  well_formed p -> apply_formatting p = Ok df ->
  names df = names p
  /\ nrows df = nrows p
  /\ exists c1 c2 c3 c4 c5 s1 s2 s3 s4 s5 : Series,
       (getitem p "Market Cap" = Some c1 /\ apply format_number c1 = Ok s1)
       /\ (getitem p "Revenue" = Some c2 /\ apply format_number c2 = Ok s2)
       /\ (getitem p "Dividend Yield" = Some c3
           /\ apply format_percent c3 = Ok s3)
       /\ (getitem p "Gross Margins" = Some c4
           /\ apply format_percent c4 = Ok s4)
       /\ (getitem p "Profit Margins" = Some c5
           /\ apply format_percent c5 = Ok s5)
       /\ columns df
          = assign (assign (assign (assign (assign (columns p)
              "Market Cap" s1) "Revenue" s2) "Dividend Yield" s3)
              "Gross Margins" s4) "Profit Margins" s5.
Proof.
  intros W0 H. unfold apply_formatting in H.
  destruct (format_column format_number "Market Cap" p)
    as [df1 | e] eqn:E1; [| discriminate H]. cbn [bind] in H.
  destruct (format_column format_number "Revenue" df1)
    as [df2 | e] eqn:E2; [| discriminate H]. cbn [bind] in H.
  destruct (format_column format_percent "Dividend Yield" df2)
    as [df3 | e] eqn:E3; [| discriminate H]. cbn [bind] in H.
  destruct (format_column format_percent "Gross Margins" df3)
    as [df4 | e] eqn:E4; [| discriminate H]. cbn [bind] in H.
  apply format_column_ok in E1
    as (c1 & s1 & G1 & A1 & R1 & C1 & N1 & W1); [| exact W0].
  apply format_column_ok in E2
    as (c2 & s2 & G2 & A2 & R2 & C2 & N2 & W2); [| exact W1].
  apply format_column_ok in E3
    as (c3 & s3 & G3 & A3 & R3 & C3 & N3 & W3); [| exact W2].
  apply format_column_ok in E4
    as (c4 & s4 & G4 & A4 & R4 & C4 & N4 & W4); [| exact W3].
  apply format_column_ok in H
    as (c5 & s5 & G5 & A5 & R5 & C5 & N5 & W5); [| exact W4].
  split; [rewrite N5, N4, N3, N2, N1; reflexivity |].
  split; [rewrite R5, R4, R3, R2, R1; reflexivity |].
  exists c1, c2, c3, c4, c5, s1, s2, s3, s4, s5.
  unfold getitem in *.
  rewrite C4, C3, C2, C1 in G5.
  rewrite !lookup_assign_other in G5 by reflexivity.
  rewrite C3, C2, C1 in G4.
  rewrite !lookup_assign_other in G4 by reflexivity.
  rewrite C2, C1 in G3.
  rewrite !lookup_assign_other in G3 by reflexivity.
  rewrite C1 in G2.
  rewrite !lookup_assign_other in G2 by reflexivity.
  split; [split; [exact G1 | exact A1] |].
  split; [split; [exact G2 | exact A2] |].
  split; [split; [exact G3 | exact A3] |].
  split; [split; [exact G4 | exact A4] |].
  split; [split; [exact G5 | exact A5] |].
  rewrite C5, C4, C3, C2, C1. reflexivity.
Qed.

Lemma formatting_of_projection (raw_df : DataFrame) :
  apply_formatting (project raw_df) = clean_info raw_df.
Proof. exact (eq_refl (apply_formatting (project raw_df))). Qed.

Lemma clean_info_unfold (raw_df : DataFrame) :
  clean_info raw_df = apply_formatting (project raw_df).
Proof. symmetry. apply formatting_of_projection. Qed.

(** The frame [clean_info] returns: the projection, with five of its
    columns replaced by their formatted cells. *)
Lemma clean_info_ok (raw_df df : DataFrame) :
  clean_info raw_df = Ok df ->
  names df = published_columns
  /\ nrows df = nrows (project raw_df)
  /\ exists c1 c2 c3 c4 c5 s1 s2 s3 s4 s5 : Series,
       (getitem (project raw_df) "Market Cap" = Some c1
        /\ apply format_number c1 = Ok s1)
       /\ (getitem (project raw_df) "Revenue" = Some c2
           /\ apply format_number c2 = Ok s2)
       /\ (getitem (project raw_df) "Dividend Yield" = Some c3
           /\ apply format_percent c3 = Ok s3)
       /\ (getitem (project raw_df) "Gross Margins" = Some c4
           /\ apply format_percent c4 = Ok s4)
       /\ (getitem (project raw_df) "Profit Margins" = Some c5
           /\ apply format_percent c5 = Ok s5)
       /\ columns df
          = assign (assign (assign (assign (assign
              (columns (project raw_df))
              "Market Cap" s1) "Revenue" s2) "Dividend Yield" s3)
              "Gross Margins" s4) "Profit Margins" s5.
Proof.
  intros H. rewrite clean_info_unfold in H.
  apply format_steps in H as (Hnames & Hrows & Hsteps);
    [| apply well_formed_project].
  rewrite names_project in Hnames.
  split; [exact Hnames |]. split; [exact Hrows | exact Hsteps].
Qed.

(** *** When the formatters return *)

Lemma format_number_returns (v : value) :
  in_range v = true -> exists v' : value, format_number v = Ok v'.
Proof.
  destruct v as [| f | z | str]; intros H; simpl in H.
  - eexists. reflexivity.
  - eexists. reflexivity.
  - unfold format_number, py_float.
    destruct (float_of_Z z); try discriminate H; eexists; reflexivity.
  - unfold format_number, py_float.
    destruct (float_of_string str); eexists; reflexivity.
Qed.

Lemma format_percent_returns (v : value) :
  in_range v = true -> exists v' : value, format_percent v = Ok v'.
Proof.
  destruct v as [| f | z | str]; intros H; simpl in H.
  - eexists. reflexivity.
  - rewrite FormatterFacts.format_percent_float. eexists. reflexivity.
  - unfold format_percent, percent_body, py_float. cbn [py_gt_int bind].
    destruct (float_of_Z z); try discriminate H; cbn [bind];
      destruct (1 <? z); eexists; reflexivity.
  - eexists. reflexivity.
Qed.

Lemma apply_returns (f : value -> result value) (s : Series) :
  (forall v, in_range v = true -> exists v', f v = Ok v') ->
  Forall (fun v => in_range v = true) s ->
  exists s' : Series, apply f s = Ok s'.
Proof.
  intros Hf. induction 1 as [| v rest Hv _ IH]; simpl.
  - eexists. reflexivity.
  - destruct (Hf v Hv) as [v' ->]. destruct IH as [rest' ->].
    eexists. reflexivity.
Qed.

Section Returns.

Variable raw_df : DataFrame.
Hypothesis raw_well_formed : well_formed raw_df.
Hypothesis raw_indexed : indexed raw_df.
Hypothesis raw_in_range : cells_in_range raw_df.

Lemma source_in_range (raw_key : string) :
  Forall (fun v => in_range v = true) (source raw_df raw_key).
Proof.
  unfold source. destruct (getitem raw_df raw_key) as [s |] eqn:H.
  - apply lookup_In in H. unfold cells_in_range in raw_in_range.
    rewrite Forall_forall in raw_in_range. exact (raw_in_range _ H).
  - apply Forall_forall. intros v Hv. apply repeat_spec in Hv. subst v.
    reflexivity.
Qed.

Lemma well_formed_sources :
  Forall (fun kc => List.length (snd kc) = nrows raw_df)
    (map (fun f => (fst f, source raw_df (snd f))) fields).
Proof.
  apply Forall_map, Forall_forall. intros f _. simpl.
  apply length_source, raw_well_formed.
Qed.

Lemma clean_info_returns :
  exists df : DataFrame, clean_info raw_df = Ok df.
Proof.
  destruct (apply_returns format_number _ format_number_returns
              (source_in_range "marketCap")) as [s1 A1].
  destruct (apply_returns format_number _ format_number_returns
              (source_in_range "totalRevenue")) as [s2 A2].
  destruct (apply_returns format_percent _ format_percent_returns
              (source_in_range "dividendYield")) as [s3 A3].
  destruct (apply_returns format_percent _ format_percent_returns
              (source_in_range "grossMargins")) as [s4 A4].
  destruct (apply_returns format_percent _ format_percent_returns
              (source_in_range "profitMargins")) as [s5 A5].
  pose proof (apply_length _ _ _ A1) as L1.
  pose proof (apply_length _ _ _ A2) as L2.
  pose proof (apply_length _ _ _ A3) as L3.
  pose proof (apply_length _ _ _ A4) as L4.
  rewrite (length_source raw_df raw_well_formed) in L1, L2, L3, L4.
  pose proof well_formed_sources as W0.
  rewrite clean_info_unfold.
  rewrite (project_columns raw_df raw_well_formed raw_indexed).
  unfold apply_formatting.
  rewrite (format_column_returns format_number "Market Cap" _
             (source raw_df "marketCap") s1);
    [| exact W0 | reflexivity | exact A1].
  cbn [bind nrows columns].
  pose proof (well_formed_assign _ _ "Market Cap" s1 W0 L1) as W1.
  rewrite (format_column_returns format_number "Revenue" _
             (source raw_df "totalRevenue") s2);
    [| exact W1 | reflexivity | exact A2].
  cbn [bind nrows columns].
  pose proof (well_formed_assign _ _ "Revenue" s2 W1 L2) as W2.
  rewrite (format_column_returns format_percent "Dividend Yield" _
             (source raw_df "dividendYield") s3);
    [| exact W2 | reflexivity | exact A3].
  cbn [bind nrows columns].
  pose proof (well_formed_assign _ _ "Dividend Yield" s3 W2 L3) as W3.
  rewrite (format_column_returns format_percent "Gross Margins" _
             (source raw_df "grossMargins") s4);
    [| exact W3 | reflexivity | exact A4].
  cbn [bind nrows columns].
  pose proof (well_formed_assign _ _ "Gross Margins" s4 W3 L4) as W4.
  rewrite (format_column_returns format_percent "Profit Margins" _
             (source raw_df "profitMargins") s5);
    [| exact W4 | reflexivity | exact A5].
  eexists. reflexivity.
Qed.

End Returns.

Lemma apply_Forall2 (f : value -> result value) (s : Series) :
  forall s' : Series,
    apply f s = Ok s' -> Forall2 (fun v v' => f v = Ok v') s s'.
Proof.
  induction s as [| v rest IH]; simpl; intros s' H.
  - injection H as <-. constructor.
  - destruct (f v) as [v' | e] eqn:Hv; [| discriminate H]. cbn [bind] in H.
    destruct (apply f rest) as [rest' | e]; [| discriminate H].
    cbn [bind] in H. injection H as <-.
    constructor; [exact Hv | exact (IH rest' eq_refl)].
Qed.

Lemma apply_all_None (f : value -> result value) (n : nat) :
  f VNone = Ok VNone -> apply f (repeat VNone n) = Ok (repeat VNone n).
Proof.
  intros H. induction n as [| n IH]; simpl; [reflexivity |].
  rewrite H, IH. reflexivity.
Qed.

(** The frame [clean_info] returns for a well-formed raw table with a
    ticker column, column by column. *)
Lemma cleaned_frame (raw_df df : DataFrame) :
  well_formed raw_df -> indexed raw_df -> clean_info raw_df = Ok df ->
  nrows df = nrows raw_df
  /\ exists s1 s2 s3 s4 s5 : Series,
       apply format_number (source raw_df "marketCap") = Ok s1
       /\ apply format_number (source raw_df "totalRevenue") = Ok s2
       /\ apply format_percent (source raw_df "dividendYield") = Ok s3
       /\ apply format_percent (source raw_df "grossMargins") = Ok s4
       /\ apply format_percent (source raw_df "profitMargins") = Ok s5
       /\ columns df
          = [ ("Ticker", source raw_df "_ticker");
              ("Name", source raw_df "shortName");
              ("Sector", source raw_df "sector");
              ("Industry", source raw_df "industry");
              ("Current Price", source raw_df "currentPrice");
              ("52W High", source raw_df "fiftyTwoWeekHigh");
              ("52W Low", source raw_df "fiftyTwoWeekLow");
              ("Market Cap", s1);
              ("P/E (Trailing)", source raw_df "trailingPE");
              ("P/E (Forward)", source raw_df "forwardPE");
              ("Beta", source raw_df "beta");
              ("Dividend Yield", s3);
              ("Price to Book", source raw_df "priceToBook");
              ("EPS", source raw_df "trailingEps");
              ("Revenue", s2);
              ("Gross Margins", s4);
              ("Profit Margins", s5);
              ("Insider (%)", source raw_df "Insider (%)");
              ("Institutional (%)", source raw_df "Institutional (%)");
              ("Float / Retail (%)", source raw_df "Float / Retail (%)") ].
Proof.
  intros Hwf Hidx H.
  apply clean_info_ok in H as (_ & Hrows & Hsteps).
  destruct Hsteps as (c1 & c2 & c3 & c4 & c5 & s1 & s2 & s3 & s4 & s5 & Hs).
  destruct Hs as ((G1 & A1) & (G2 & A2) & (G3 & A3) & (G4 & A4) & (G5 & A5) & C).
  rewrite (project_columns raw_df Hwf Hidx) in Hrows, G1, G2, G3, G4, G5, C.
  unfold getitem, fields in G1, G2, G3, G4, G5.
  cbn [map fst snd columns] in G1, G2, G3, G4, G5.
  injection G1 as <-. injection G2 as <-. injection G3 as <-.
  injection G4 as <-. injection G5 as <-.
  split; [exact Hrows |].
  exists s1, s2, s3, s4, s5.
  split; [exact A1 |]. split; [exact A2 |]. split; [exact A3 |].
  split; [exact A4 |]. split; [exact A5 |].
  rewrite C. reflexivity.
Qed.

(** *** The raw table of a list of records *)

Lemma lookup_keys (g : string -> Series) (keys : list string) (key : string) :
  lookup (map (fun k => (k, g k)) keys) key
  = if mem key keys then Some (g key) else None.
Proof.
  induction keys as [| k rest IH]; simpl; [reflexivity |].
  destruct (String.eqb key k) eqn:E; simpl.
  - apply String.eqb_eq in E. subst k. reflexivity.
  - exact IH.
Qed.

(** *** The cell type of a column *)

Lemma convert_cases (cells cells' : list value) :
  convert cells = Ok cells' ->
  cells' = cells \/ cells' = map to_float cells.
Proof.
  unfold convert. destruct (scan nothing_seen cells) as [| s |];
    [| | discriminate]; intros [= <-]; [left; reflexivity |].
  destruct (as_floats s); [right | left]; reflexivity.
Qed.

Lemma unify_cases (cells : list value) :
  unify cells = cells \/ unify cells = map to_float cells.
Proof.
  unfold unify. destruct (convert cells) as [cells' | e] eqn:E;
    [exact (convert_cases _ _ E) | left; reflexivity].
Qed.

Lemma length_unify (cells : list value) :
  List.length (unify cells) = List.length cells.
Proof.
  destruct (unify_cases cells) as [-> | ->]; [reflexivity | apply length_map].
Qed.

Lemma to_float_in_range (v : value) :
  in_range v = true -> in_range (to_float v) = true.
Proof. destruct v; intros H; [reflexivity | exact H | reflexivity | exact H]. Qed.

Lemma unify_in_range (cells : list value) :
  Forall (fun v => in_range v = true) cells ->
  Forall (fun v => in_range v = true) (unify cells).
Proof.
  intros H. destruct (unify_cases cells) as [-> | ->]; [exact H |].
  apply Forall_map. revert H. apply Forall_impl. exact to_float_in_range.
Qed.

(** The conversion raises only at an int beyond the range of a float. *)
Lemma scan_overflows (cells : list value) :
  forall s : seen,
    scan s cells = Overflows ->
    exists z, In (VInt z) cells /\ in_range (VInt z) = false.
Proof.
  induction cells as [| v rest IH]; intros s H; simpl in H; [discriminate H |].
  destruct v as [| f | z | str].
  - destruct (IH _ H) as (z & Hin & Hz). exists z. split; [right |]; assumption.
  - destruct (is_nan f); destruct (IH _ H) as (z & Hin & Hz); exists z;
      (split; [right |]; assumption).
  - destruct (is_finite (float_of_Z z)) eqn:E; cbn [negb] in H.
    + destruct (null_ s).
      * destruct (IH _ H) as (z' & Hin & Hz). exists z'.
        split; [right |]; assumption.
      * cbv zeta in H.
        destruct ((uint_ s || (INT64_MAX <? z) && (z <=? UINT64_MAX))
                  && (sint_ s || (INT64_MIN <=? z) && (z <? 0))
                  || (UINT64_MAX <? z) || (z <? INT64_MIN));
          [discriminate H |].
        destruct (IH _ H) as (z' & Hin & Hz). exists z'.
        split; [right |]; assumption.
    + exists z. split; [left; reflexivity | exact E].
  - discriminate H.
Qed.

Lemma convert_raises (cells : list value) (e : exn) :
  convert cells = Raise e ->
  e = OverflowError
  /\ exists z, In (VInt z) cells /\ in_range (VInt z) = false.
Proof.
  unfold convert. destruct (scan nothing_seen cells) as [| s |] eqn:E;
    [discriminate | discriminate |].
  intros [= <-]. split; [reflexivity | exact (scan_overflows _ _ E)].
Qed.

Lemma converts_in_range (cells : list value) :
  Forall (fun v => in_range v = true) cells -> converts cells = true.
Proof.
  intros H. unfold converts. destruct (convert cells) as [c | e] eqn:E;
    [reflexivity |].
  destruct (convert_raises _ _ E) as (_ & z & Hin & Hz).
  rewrite Forall_forall in H. rewrite (H _ Hin) in Hz. discriminate Hz.
Qed.

(** A column of strs stays as it is. *)
Lemma unify_strs (ts : list string) : unify (map VStr ts) = map VStr ts.
Proof. destruct ts; reflexivity. Qed.

(** So does every column that holds a str. *)
Lemma scan_str (cells : list value) (str : string) :
  In (VStr str) cells ->
  forall s : seen, scan s cells = Objects \/ scan s cells = Overflows.
Proof.
  induction cells as [| v rest IH]; intros Hin s; [contradiction |].
  destruct Hin as [-> | Hin]; [left; reflexivity |].
  destruct v as [| f | z | str0]; simpl.
  - apply IH, Hin.
  - destruct (is_nan f); apply IH, Hin.
  - destruct (negb (is_finite (float_of_Z z))); [right; reflexivity |].
    destruct (null_ s); [apply IH, Hin |].
    cbv zeta.
    destruct ((uint_ s || (INT64_MAX <? z) && (z <=? UINT64_MAX))
              && (sint_ s || (INT64_MIN <=? z) && (z <? 0))
              || (UINT64_MAX <? z) || (z <? INT64_MIN));
      [left; reflexivity | apply IH, Hin].
  - left. reflexivity.
Qed.

Lemma unify_with_str (cells : list value) (str : string) :
  In (VStr str) cells -> unify cells = cells.
Proof.
  intros Hin. unfold unify, convert.
  destruct (scan_str cells str Hin nothing_seen) as [-> | ->]; reflexivity.
Qed.

Lemma getitem_from_records (rows : list dict) (key : string) :
  getitem (from_records rows) key
  = if mem key (union_keys rows)
    then Some (unify (map (raw_cell key) rows))
    else None.
Proof.
  unfold getitem, from_records. simpl columns.
  exact (lookup_keys (fun k => unify (map (raw_cell k) rows))
           (union_keys rows) key).
Qed.

Lemma add_keys_In (row : dict) (key : string) :
  forall keys : list string,
    In key (fold_left
              (fun ks kv => if mem (fst kv) ks then ks else (ks ++ [fst kv])%list)
              row keys)
    <-> In key keys \/ In key (map fst row).
Proof.
  induction row as [| [k v] rest IH]; intros keys; simpl; [tauto |].
  rewrite IH. destruct (mem k keys) eqn:E.
  - apply mem_true_iff in E. split; [tauto |].
    intros [H | [<- | H]]; tauto.
  - rewrite in_app_iff. simpl. tauto.
Qed.

Lemma union_keys_from (rows : list dict) (key : string) :
  forall keys : list string,
    In key (fold_left
              (fun keys row =>
                 fold_left
                   (fun ks kv => if mem (fst kv) ks then ks
                                 else (ks ++ [fst kv])%list) row keys)
              rows keys)
    <-> In key keys \/ exists row, In row rows /\ In key (map fst row).
Proof.
  induction rows as [| row rest IH]; intros keys; simpl.
  - split; [tauto |]. intros [H | (row & [] & _)]. exact H.
  - rewrite IH, add_keys_In. split.
    + intros [[H | H] | (row' & Hin & H)].
      * left. exact H.
      * right. exists row. tauto.
      * right. exists row'. tauto.
    + intros [H | (row' & [<- | Hin] & H)].
      * tauto.
      * tauto.
      * right. exists row'. tauto.
Qed.

Lemma union_keys_In (rows : list dict) (key : string) :
  In key (union_keys rows) <-> exists row, In row rows /\ In key (map fst row).
Proof.
  unfold union_keys. rewrite union_keys_from. simpl. tauto.
Qed.

Lemma dict_get_In (row : dict) (key : string) (v : value) :
  dict_get row key = Some v -> In (key, v) row.
Proof.
  induction row as [| [k v0] rest IH]; simpl; [discriminate |].
  destruct (String.eqb key k) eqn:E.
  - apply String.eqb_eq in E. subst k. intros [= ->]. left. reflexivity.
  - intros H. right. exact (IH H).
Qed.

Lemma dict_get_None (row : dict) (key : string) :
  dict_get row key = None <-> ~ In key (map fst row).
Proof.
  induction row as [| [k v0] rest IH]; simpl; [tauto |].
  destruct (String.eqb key k) eqn:E.
  - apply String.eqb_eq in E. subst k. split; [discriminate | tauto].
  - apply String.eqb_neq in E. rewrite IH. split; [| tauto].
    intros H [H0 | H0]; [congruence | tauto].
Qed.

Lemma from_records_well_formed (rows : list dict) :
  well_formed (from_records rows).
Proof.
  unfold well_formed, from_records. simpl.
  apply Forall_map, Forall_forall. intros k _. simpl.
  rewrite length_unify. apply length_map.
Qed.

Lemma from_records_absent (rows : list dict) (key : string) :
  (forall row, In row rows -> dict_get row key = None) ->
  getitem (from_records rows) key = None.
Proof.
  intros H. rewrite getitem_from_records.
  destruct (mem key (union_keys rows)) eqn:E; [| reflexivity].
  apply mem_true_iff, union_keys_In in E as (row & Hin & Hkey).
  apply H, dict_get_None in Hin. contradiction.
Qed.

Lemma from_records_indexed (rows : list dict) :
  (forall row, In row rows -> dict_get row "_ticker" <> None) ->
  indexed (from_records rows).
Proof.
  intros H. destruct rows as [| row rest].
  - right. reflexivity.
  - left. rewrite getitem_from_records.
    replace (mem "_ticker" (union_keys (row :: rest))) with true; [discriminate |].
    symmetry. apply mem_true_iff, union_keys_In. exists row.
    split; [left; reflexivity |].
    destruct (in_dec string_dec "_ticker" (map fst row)) as [Hin | Hnot];
      [exact Hin |].
    apply dict_get_None in Hnot. exfalso. exact (H row (or_introl eq_refl) Hnot).
Qed.

Lemma from_records_in_range (rows : list dict) :
  (forall row k v, In row rows -> In (k, v) row -> in_range v = true) ->
  cells_in_range (from_records rows).
Proof.
  intros H. unfold cells_in_range, from_records. simpl.
  apply Forall_map, Forall_forall. intros k _. simpl.
  apply unify_in_range.
  apply Forall_map, Forall_forall. intros row Hrow.
  destruct (dict_get row k) as [v |] eqn:E; [| reflexivity].
  exact (H row k v Hrow (dict_get_In row k v E)).
Qed.

Lemma raw_cells_in_range (rows : list dict) (key : string) :
  rows_in_range rows ->
  Forall (fun v => in_range v = true) (map (raw_cell key) rows).
Proof.
  intros H. apply Forall_map, Forall_forall. intros row Hrow. unfold raw_cell.
  destruct (dict_get row key) as [v |] eqn:E; [| reflexivity].
  exact (H row key v Hrow (dict_get_In row key v E)).
Qed.

(** *** [pd.DataFrame(rows)] *)

Lemma DataFrame_of_ok (rows : list dict) (df : DataFrame) :
  DataFrame_of rows = Ok df -> df = from_records rows.
Proof.
  unfold DataFrame_of. destruct (forallb _ _); [| discriminate].
  intros [= <-]. reflexivity.
Qed.

Lemma DataFrame_of_in_range (rows : list dict) :
  rows_in_range rows -> DataFrame_of rows = Ok (from_records rows).
Proof.
  intros H. unfold DataFrame_of.
  replace (forallb _ (union_keys rows)) with true; [reflexivity |].
  symmetry. apply forallb_forall. intros k _.
  exact (converts_in_range _ (raw_cells_in_range rows k H)).
Qed.

Lemma DataFrame_of_raises (rows : list dict) (e : exn) :
  DataFrame_of rows = Raise e -> e = OverflowError /\ ~ rows_in_range rows.
Proof.
  unfold DataFrame_of.
  destruct (forallb _ (union_keys rows)) eqn:E; [discriminate |].
  intros [= <-]. split; [reflexivity |]. intros Hrange.
  assert (forallb
            (fun k => converts (map (raw_cell k) rows)) (union_keys rows)
          = true) as Hall.
  { apply forallb_forall. intros k _.
    exact (converts_in_range _ (raw_cells_in_range rows k Hrange)). }
  unfold raw_cell in Hall. rewrite Hall in E. discriminate E.
Qed.


(** *** The cleaned table *)

Lemma record_names (df : DataFrame) (r : list (string * value)) :
  In r (to_records df) -> map fst r = names df.
Proof.
  unfold to_records. intros H. apply in_map_iff in H as (i & <- & _).
  unfold record, names. rewrite map_map. reflexivity.
Qed.

Lemma source_absent (raw_df : DataFrame) (raw_key : string) :
  getitem raw_df raw_key = None ->
  source raw_df raw_key = repeat VNone (nrows raw_df).
Proof. intros H. unfold source. rewrite H. reflexivity. Qed.

Lemma formatted_absent (f : value -> result value) (raw_df : DataFrame)
    (raw_key : string) (s : Series) :
  f VNone = Ok VNone -> apply f (source raw_df raw_key) = Ok s ->
  getitem raw_df raw_key = None -> s = repeat VNone (nrows raw_df).
Proof.
  intros Hf Hs Habsent. rewrite (source_absent _ _ Habsent) in Hs.
  rewrite (apply_all_None f _ Hf) in Hs. injection Hs as <-. reflexivity.
Qed.

(** A field the raw table has no column for is [None] in every row of
    the cleaned table. *)
Lemma cleaned_absent (raw_df df : DataFrame) (col raw_key : string) :
  well_formed raw_df -> indexed raw_df -> clean_info raw_df = Ok df ->
  In (col, raw_key) fields -> getitem raw_df raw_key = None ->
  getitem df col = Some (repeat VNone (nrows raw_df)).
Proof.
  intros Hwf Hidx H Hin Habsent.
  destruct (cleaned_frame raw_df df Hwf Hidx H)
    as (_ & s1 & s2 & s3 & s4 & s5 & A1 & A2 & A3 & A4 & A5 & C).
  pose proof (formatted_absent format_number raw_df _ s1 eq_refl A1) as F1.
  pose proof (formatted_absent format_number raw_df _ s2 eq_refl A2) as F2.
  pose proof (formatted_absent format_percent raw_df _ s3 eq_refl A3) as F3.
  pose proof (formatted_absent format_percent raw_df _ s4 eq_refl A4) as F4.
  pose proof (formatted_absent format_percent raw_df _ s5 eq_refl A5) as F5.
  unfold getitem at 1. rewrite C. unfold fields in Hin. simpl in Hin.
  repeat (destruct Hin as [Hin | Hin];
          [injection Hin as <- <-;
           cbn [lookup String.eqb Ascii.eqb Bool.eqb]; f_equal;
           first [ exact (source_absent raw_df _ Habsent)
                 | exact (F1 Habsent) | exact (F2 Habsent) | exact (F3 Habsent)
                 | exact (F4 Habsent) | exact (F5 Habsent) ] |]).
  contradiction.
Qed.

Lemma two_rows_have_tickers :
  forall row, In row two_rows -> dict_get row "_ticker" <> None.
Proof. intros row [<- | [<- | []]]; discriminate. Qed.

Lemma two_rows_in_range :
  forall row k v, In row two_rows -> In (k, v) row -> in_range v = true.
Proof.
  intros row k v [<- | [<- | []]] Hin; simpl in Hin;
    repeat (destruct Hin as [[= <- <-] | Hin]; [reflexivity |]);
    contradiction.
Qed.

(** C8, as the code has it.  Whatever the raw table holds, the cleaned
    table has the twenty published columns, in the published order, and so
    has every record of it.  For raw records that carry their ticker, a
    field that no record has is [None] in every row of its column; and
    when no int among the values is beyond the range of a float, the
    projector returns the cleaned table, with one row per record. *)
Theorem cleaned_columns :
  (forall raw_df df : DataFrame,
     clean_info raw_df = Ok df ->
     names df
     = [ "Ticker"; "Name"; "Sector"; "Industry"; "Current Price"; "52W High";
         "52W Low"; "Market Cap"; "P/E (Trailing)"; "P/E (Forward)"; "Beta";
         "Dividend Yield"; "Price to Book"; "EPS"; "Revenue"; "Gross Margins";
         "Profit Margins"; "Insider (%)"; "Institutional (%)";
         "Float / Retail (%)" ]
     /\ List.length (names df) = 20%nat
     /\ (forall r, In r (to_records df) -> map fst r = names df))
  /\ (forall (rows : list dict) (df : DataFrame) (col raw_key : string),
        (forall row, In row rows -> dict_get row "_ticker" <> None) ->
        clean_info (from_records rows) = Ok df ->
        In (col, raw_key) fields ->
        (forall row, In row rows -> dict_get row raw_key = None) ->
        getitem df col = Some (repeat VNone (List.length rows)))
  /\ (forall rows : list dict,
        (forall row, In row rows -> dict_get row "_ticker" <> None) ->
        (forall row k v, In row rows -> In (k, v) row -> in_range v = true) ->
        exists df : DataFrame,
          clean_info (from_records rows) = Ok df
          /\ nrows df = List.length rows).
Proof.
  split; [| split].
  - intros raw_df df H.
    pose proof (clean_info_ok raw_df df H) as (Hnames & _).
    split; [exact Hnames |]. split; [rewrite Hnames; reflexivity |].
    intros r. apply record_names.
  - intros rows df col raw_key Htickers H Hin Habsent.
    exact (cleaned_absent (from_records rows) df col raw_key
             (from_records_well_formed rows)
             (from_records_indexed rows Htickers) H Hin
             (from_records_absent rows raw_key Habsent)).
  - intros rows Htickers Hrange.
    destruct (clean_info_returns (from_records rows)
                (from_records_well_formed rows)
                (from_records_indexed rows Htickers)
                (from_records_in_range rows Hrange)) as [df H].
    exists df. split; [exact H |].
    exact (proj1 (cleaned_frame (from_records rows) df
                    (from_records_well_formed rows)
                    (from_records_indexed rows Htickers) H)).
Qed.

Lemma cleaned_columns_witness :
  exists df : DataFrame,
    clean_info (from_records two_rows) = Ok df
    /\ List.length (names df) = 20%nat
    /\ getitem df "Sector" = Some [VNone; VNone].
Proof.
  destruct cleaned_columns as (Hnames & Habsent & Hreturns).
  destruct (Hreturns two_rows two_rows_have_tickers two_rows_in_range)
    as (df & H & _).
  exists df. split; [exact H |]. split.
  - exact (proj1 (proj2 (Hnames (from_records two_rows) df H))).
  - apply (Habsent two_rows df "Sector" "sector" two_rows_have_tickers H).
    + unfold fields. simpl. tauto.
    + intros row [<- | [<- | []]]; reflexivity.
Defined.

(** C8 as stated fails: the cleaned table has 20 columns, not 19; and the
    second record, which has no market cap while the first has one, gets
    the str ["nan"] in that column and the missing-value float in the Name
    column, not [None]. *)
Lemma cleaned_columns_counterexample :
  exists df : DataFrame,
    clean_info (from_records two_rows) = Ok df
    /\ List.length (names df) = 20%nat
    /\ List.length (names df) <> 19%nat
    /\ dict_get (nth 1 two_rows []) "marketCap" = None
    /\ getitem df "Market Cap" = Some [VStr "1.50 B"; VStr "nan"]
    /\ getitem df "Name" = Some [VStr "Bank Central Asia"; NaN].
Proof.
  eexists. split; [vm_compute; reflexivity |].
  repeat split; try reflexivity. vm_compute. discriminate.
Qed.

(** *** A run *)

Section Run.

Variable yf_info : string -> result dict.
Variable yf_major_holders : string -> result (option DataFrame).
Variable interrupted : string -> bool.
Variable to_excel : DataFrame -> DataFrame -> result unit.
Variable to_csv : DataFrame -> result unit.

Lemma main_body (tickers : list string) :
  bind (loop yf_info yf_major_holders interrupted tickers []) (fun raw_rows =>
  bind (DataFrame_of raw_rows) (fun raw_df =>
  bind (clean_info raw_df) (fun clean_df =>
  save to_excel to_csv raw_df clean_df)))
  = main yf_info yf_major_holders interrupted to_excel to_csv tickers.
Proof.
  exact (eq_refl
    (bind (loop yf_info yf_major_holders interrupted tickers []) (fun raw_rows =>
     bind (DataFrame_of raw_rows) (fun raw_df =>
     bind (clean_info raw_df) (fun clean_df =>
     save to_excel to_csv raw_df clean_df))))).
Qed.

Lemma save_ok (raw_df clean_df : DataFrame) (out : outputs) :
  save to_excel to_csv raw_df clean_df = Ok out ->
  out = mkOutputs raw_df clean_df raw_df
  /\ to_excel raw_df clean_df = Ok tt /\ to_csv raw_df = Ok tt.
Proof.
  unfold save. destruct (to_excel raw_df clean_df) as [[] | e]; [| discriminate].
  cbn [bind]. destruct (to_csv raw_df) as [[] | e]; [| discriminate].
  cbn [bind]. intros [= <-]. repeat split.
Qed.

Lemma save_raises (raw_df clean_df : DataFrame) (e : exn) :
  save to_excel to_csv raw_df clean_df = Raise e ->
  to_excel raw_df clean_df = Raise e
  \/ (to_excel raw_df clean_df = Ok tt /\ to_csv raw_df = Raise e).
Proof.
  unfold save. destruct (to_excel raw_df clean_df) as [[] | e0]; cbn [bind].
  - destruct (to_csv raw_df) as [[] | e1]; cbn [bind]; [discriminate |].
    intros [= <-]. right. split; reflexivity.
  - intros [= <-]. left. reflexivity.
Qed.

(** A run that ends: its rows are those of the loop, no pause was
    interrupted, the raw table was built from the rows and cleaned, and
    both tables were written. *)
Lemma main_outputs (tickers : list string) (out : outputs) :
  main yf_info yf_major_holders interrupted to_excel to_csv tickers = Ok out ->
  exists raw_rows : list dict,
    collect yf_info yf_major_holders tickers [] = Ok raw_rows
    /\ (forall t, In t tickers -> interrupted t = false)
    /\ raw_info_sheet out = from_records raw_rows
    /\ csv_file out = from_records raw_rows
    /\ clean_info (from_records raw_rows) = Ok (cleaned_info_sheet out)
    /\ to_excel (raw_info_sheet out) (cleaned_info_sheet out) = Ok tt
    /\ to_csv (csv_file out) = Ok tt.
Proof.
  rewrite <- main_body. intros H.
  apply ResultFacts.bind_Ok_inv in H as (raw_rows & Hrows & H).
  apply ResultFacts.bind_Ok_inv in H as (raw_df & Hraw & H).
  apply ResultFacts.bind_Ok_inv in H as (clean_df & Hclean & H).
  apply DataFrame_of_ok in Hraw. subst raw_df.
  apply save_ok in H as (-> & Hexcel & Hcsv).
  apply PipelineFacts.loop_collect in Hrows as [Hrows Hcalm].
  exists raw_rows. cbn [raw_info_sheet cleaned_info_sheet csv_file].
  repeat (split; [assumption || reflexivity |]). exact Hcsv.
Qed.

(** The two tables of a run: the raw one is well formed and has its
    ticker column, the cleaned one is [clean_info] of it. *)
Lemma main_tables (tickers : list string) (out : outputs) :
  main yf_info yf_major_holders interrupted to_excel to_csv tickers = Ok out ->
  well_formed (raw_info_sheet out)
  /\ indexed (raw_info_sheet out)
  /\ clean_info (raw_info_sheet out) = Ok (cleaned_info_sheet out).
Proof.
  intros H.
  destruct (main_outputs tickers out H)
    as (raw_rows & Hrows & _ & -> & _ & Hclean & _).
  split; [apply from_records_well_formed |].
  split; [| exact Hclean].
  apply from_records_indexed.
  apply (PipelineFacts.collect_have_tickers yf_info yf_major_holders
           tickers [] raw_rows Hrows).
  intros row [].
Qed.

(** A run whose loop gave [raw_rows], with no int beyond the range of a
    float, reaches the writes with its two tables. *)
Lemma main_saves (tickers : list string) (raw_rows : list dict)
    (clean_df : DataFrame) :
  collect yf_info yf_major_holders tickers [] = Ok raw_rows ->
  (forall t, In t tickers -> interrupted t = false) ->
  rows_in_range raw_rows ->
  clean_info (from_records raw_rows) = Ok clean_df ->
  main yf_info yf_major_holders interrupted to_excel to_csv tickers
  = save to_excel to_csv (from_records raw_rows) clean_df.
Proof.
  intros Hrows Hcalm Hrange Hclean.
  rewrite <- main_body, (PipelineFacts.loop_undisturbed _ _ _ _ Hcalm), Hrows.
  cbn [bind]. rewrite (DataFrame_of_in_range _ Hrange). cbn [bind].
  rewrite Hclean. reflexivity.
Qed.

End Run.

Lemma raw_cells (rows : list dict) (key : string) (s : Series) :
  getitem (from_records rows) key = Some s ->
  s = unify (map (raw_cell key) rows).
Proof.
  rewrite getitem_from_records.
  destruct (mem key (union_keys rows)); [| discriminate].
  intros [= <-]. reflexivity.
Qed.

(** C9, as the code has it.  In the cleaned table of a well-formed raw
    table with a ticker column, Market Cap and Revenue hold the cells of
    their source passed through [format_number], Dividend Yield, Gross
    Margins and Profit Margins the cells of theirs passed through
    [format_percent], and each of the fifteen other columns holds its
    source, the column of the raw table, as it is.  The Raw_Info sheet and
    the CSV of a run are the raw table, and no formatter is applied to it:
    a column of it holds the values the records have for its key, the
    missing-value float where a record lacks the key, converted to the
    cell type of the column.  The conversion leaves a column as it is or
    makes floats of its cells: a column that holds a str stays as it is,
    an int beside a float or a missing cell becomes its nearest float, and
    [None] beside a number becomes the missing-value float.  The
    Cleaned_Info sheet is the cleaned table of that raw table. *)
Theorem formatting_frame :
  (forall raw_df df : DataFrame,
     well_formed raw_df -> indexed raw_df -> clean_info raw_df = Ok df ->
     (forall col raw_key : string,
        In (col, raw_key)
          [ ("Market Cap", "marketCap"); ("Revenue", "totalRevenue") ] ->
        exists s : Series,
          getitem df col = Some s
          /\ Forall2 (fun v v' => format_number v = Ok v')
               (source raw_df raw_key) s)
     /\ (forall col raw_key : string,
          In (col, raw_key)
            [ ("Dividend Yield", "dividendYield");
              ("Gross Margins", "grossMargins");
              ("Profit Margins", "profitMargins") ] ->
          exists s : Series,
            getitem df col = Some s
            /\ Forall2 (fun v v' => format_percent v = Ok v')
                 (source raw_df raw_key) s)
     /\ (forall col raw_key : string,
          In (col, raw_key) plain_fields ->
          getitem df col = Some (source raw_df raw_key)))
  /\ map fst plain_fields
     = [ "Ticker"; "Name"; "Sector"; "Industry"; "Current Price"; "52W High";
         "52W Low"; "P/E (Trailing)"; "P/E (Forward)"; "Beta";
         "Price to Book"; "EPS"; "Insider (%)"; "Institutional (%)";
         "Float / Retail (%)" ]
  /\ List.length plain_fields = 15%nat
  /\ List.length fields = 20%nat
  /\ (forall (yf_info : string -> result dict)
             (yf_major_holders : string -> result (option DataFrame))
             (interrupted : string -> bool)
             (to_excel : DataFrame -> DataFrame -> result unit)
             (to_csv : DataFrame -> result unit)
             (tickers : list string) (out : outputs),
        main yf_info yf_major_holders interrupted to_excel to_csv tickers
        = Ok out ->
        exists raw_rows : list dict,
          collect yf_info yf_major_holders tickers [] = Ok raw_rows
          /\ raw_info_sheet out = from_records raw_rows
          /\ csv_file out = from_records raw_rows
          /\ (forall (key : string) (s : Series),
                getitem (from_records raw_rows) key = Some s ->
                s = unify (map (raw_cell key) raw_rows))
          /\ well_formed (raw_info_sheet out)
          /\ indexed (raw_info_sheet out)
          /\ clean_info (raw_info_sheet out) = Ok (cleaned_info_sheet out)
          /\ to_excel (raw_info_sheet out) (cleaned_info_sheet out) = Ok tt
          /\ to_csv (csv_file out) = Ok tt)
  /\ (forall cells : list value,
        (unify cells = cells \/ unify cells = map to_float cells)
        /\ (forall str : string, In (VStr str) cells -> unify cells = cells))
  /\ (unify [VInt 1500000000; NaN] = [VFloat f1500000000; NaN]
      /\ unify [VInt (2 ^ 53 + 1); NaN] = [VFloat f2_pow_53; NaN]
      /\ unify [VInt 2; VFloat f5] = [VFloat (float_of_Z 2); VFloat f5]
      /\ unify [VNone; VFloat f0_0532] = [NaN; VFloat f0_0532]
      /\ unify [VNone; VInt 2] = [NaN; VFloat (float_of_Z 2)]
      /\ unify [VNone; NaN] = [NaN; NaN]
      /\ unify [VNone; VNone] = [VNone; VNone]
      /\ unify [VInt 1; VInt 2] = [VInt 1; VInt 2]
      /\ unify [VStr "Bank Central Asia"; NaN] = [VStr "Bank Central Asia"; NaN]
      /\ unify [VNone; VStr "Bank Central Asia"]
         = [VNone; VStr "Bank Central Asia"]
      /\ unify [VInt 1500000000; VStr "n/a"] = [VInt 1500000000; VStr "n/a"]).
Proof.
  split; [| split; [| split; [| split; [| split; [| split]]]]];
    try reflexivity.
  - intros raw_df df Hwf Hidx H.
    destruct (cleaned_frame raw_df df Hwf Hidx H)
      as (_ & s1 & s2 & s3 & s4 & s5 & A1 & A2 & A3 & A4 & A5 & C).
    apply apply_Forall2 in A1, A2, A3, A4, A5.
    split; [| split].
    + intros col raw_key [[= <- <-] | [[= <- <-] | []]];
        eexists; (split; [unfold getitem; rewrite C; reflexivity |]);
        assumption.
    + intros col raw_key [[= <- <-] | [[= <- <-] | [[= <- <-] | []]]];
        eexists; (split; [unfold getitem; rewrite C; reflexivity |]);
        assumption.
    + intros col raw_key Hin. unfold getitem. rewrite C.
      change plain_fields
        with [ ("Ticker", "_ticker"); ("Name", "shortName");
               ("Sector", "sector"); ("Industry", "industry");
               ("Current Price", "currentPrice");
               ("52W High", "fiftyTwoWeekHigh");
               ("52W Low", "fiftyTwoWeekLow");
               ("P/E (Trailing)", "trailingPE");
               ("P/E (Forward)", "forwardPE"); ("Beta", "beta");
               ("Price to Book", "priceToBook"); ("EPS", "trailingEps");
               ("Insider (%)", "Insider (%)");
               ("Institutional (%)", "Institutional (%)");
               ("Float / Retail (%)", "Float / Retail (%)") ] in Hin.
      simpl in Hin.
      repeat (destruct Hin as [[= <- <-] | Hin]; [reflexivity |]).
      contradiction.
  - intros yf_info yf_major_holders interrupted to_excel to_csv tickers out H.
    destruct (main_outputs _ _ _ _ _ tickers out H)
      as (raw_rows & Hrows & _ & Hsheet & Hcsv & _ & Hexcel & Hwritten).
    destruct (main_tables _ _ _ _ _ tickers out H) as (Hwf & Hidx & Hclean).
    exists raw_rows. split; [exact Hrows |]. split; [exact Hsheet |].
    split; [exact Hcsv |]. split; [intros key s; apply raw_cells |].
    repeat (split; [assumption |]). exact Hwritten.
  - intros cells. split; [apply unify_cases | apply unify_with_str].
  - repeat split; vm_compute; reflexivity.
Qed.

Lemma formatting_frame_witness :
  exists df : DataFrame,
    clean_info (from_records two_rows) = Ok df
    /\ getitem df "Ticker" = Some [VStr "BBCA.JK"; VStr "TLKM.JK"]
    /\ (exists s : Series,
          getitem df "Market Cap" = Some s
          /\ Forall2 (fun v v' => format_number v = Ok v')
               [VFloat f1500000000; NaN] s)
    /\ (exists raw_rows : list dict,
          collect (fun _ => Ok [("marketCap", VInt 1500000000)])
            (answers holders_both) ["BBCA.JK"] [] = Ok raw_rows
          /\ getitem (from_records raw_rows) "marketCap"
             = Some [VInt 1500000000]).
Proof.
  destruct formatting_frame as (Hframe & _ & _ & _ & Hraw & _).
  eexists. split; [vm_compute; reflexivity |].
  destruct (Hframe (from_records two_rows) _
              (from_records_well_formed two_rows)
              (from_records_indexed two_rows two_rows_have_tickers)
              ltac:(vm_compute; reflexivity))
    as (Hnumber & _ & Hplain).
  split; [| split].
  - rewrite (Hplain "Ticker" "_ticker"); [reflexivity |].
    vm_compute. tauto.
  - destruct (Hnumber "Market Cap" "marketCap") as (s & Hs & Hall);
      [left; reflexivity |].
    exists s. split; [exact Hs | exact Hall].
  - destruct (Hraw (fun _ => Ok [("marketCap", VInt 1500000000)])
                (answers holders_both) undisturbed written2 written
                ["BBCA.JK"] _ ltac:(vm_compute; reflexivity))
      as (raw_rows & Hrows & Hsheet & _).
    exists raw_rows. split; [exact Hrows |].
    rewrite <- Hsheet. reflexivity.
Defined.

(** C9 as stated fails on its count: beside the five formatted columns
    the cleaned table has fifteen columns, not fourteen, each holding its
    source unchanged.  And the source is the column of the raw table, not
    the values of the records: the first of the two records has the int
    1500000000 as its market cap and the second has none, so the raw
    table, and with it the Raw_Info sheet and the CSV, holds the float
    1500000000.0 there. *)
Lemma formatting_frame_counterexample :
  exists df : DataFrame,
    clean_info (from_records two_rows) = Ok df
    /\ List.length (filter (fun col => negb (formatted col)) (names df)) = 15%nat
    /\ List.length (filter (fun col => negb (formatted col)) (names df)) <> 14%nat
    /\ (forall col raw_key : string,
          In (col, raw_key) plain_fields ->
          getitem df col = Some (source (from_records two_rows) raw_key))
    /\ map (raw_cell "marketCap") two_rows = [VInt 1500000000; NaN]
    /\ getitem (from_records two_rows) "marketCap"
       = Some [VFloat f1500000000; NaN].
Proof.
  eexists. split; [vm_compute; reflexivity |].
  split; [reflexivity |]. split; [vm_compute; discriminate |].
  split; [| split; vm_compute; reflexivity].
  intros col raw_key Hin. vm_compute in Hin.
  repeat (destruct Hin as [[= <- <-] | Hin]; [vm_compute; reflexivity |]).
  contradiction.
Qed.

End ProjectorFacts.

(* ================================================================= *)
(** * Further properties of the formatter *)

Module FormatterMore.
Import Py Formatter Props MoreProps.

Lemma py_float_int (z : Z) :
  (in_range (VInt z) = true /\ py_float (VInt z) = Ok (float_of_Z z))
  \/ (in_range (VInt z) = false /\ py_float (VInt z) = Raise OverflowError).
Proof.
  pose proof (FloatFacts.float_of_Z_not_nan z) as Hnan.
  unfold py_float, in_range, is_finite.
  destruct (float_of_Z z); try contradiction; auto.
Qed.

Lemma format_number_raises (v : value) (e : exn) :
  format_number v = Raise e <-> e = OverflowError /\ in_range v = false.
Proof.
  destruct v as [| f | z | str].
  - simpl. split; [discriminate | intros [_ H]; discriminate H].
  - simpl. split; [discriminate | intros [_ H]; discriminate H].
  - unfold format_number.
    destruct (py_float_int z) as [[Hr ->] | [Hr ->]]; rewrite Hr; simpl.
    + split; [discriminate | intros [_ H]; discriminate H].
    + split; [intros [= <-]; split; reflexivity | intros [-> _]; reflexivity].
  - unfold format_number, py_float.
    destruct (float_of_string str); simpl;
      (split; [discriminate | intros [_ H]; discriminate H]).
Qed.

Lemma format_percent_raises (v : value) (e : exn) :
  format_percent v = Raise e <-> e = OverflowError /\ in_range v = false.
Proof.
  destruct v as [| f | z | str].
  - simpl. split; [discriminate | intros [_ H]; discriminate H].
  - rewrite FormatterFacts.format_percent_float. simpl.
    split; [discriminate | intros [_ H]; discriminate H].
  - unfold format_percent, percent_body. cbn [py_gt_int bind].
    destruct (py_float_int z) as [[Hr ->] | [Hr ->]]; rewrite Hr;
      cbn [bind try_except is_ValueError_or_TypeError].
    + destruct (1 <? z); (split; [discriminate | intros [_ H]; discriminate H]).
    + split; [intros [= <-]; split; reflexivity | intros [-> _]; reflexivity].
  - simpl. split; [discriminate | intros [_ H]; discriminate H].
Qed.

(** X1. Neither formatter raises anything but [OverflowError], and either
    raises it exactly on an int that is beyond the range of a float. *)
Theorem formatters_raise_iff_overflow (v : value) (e : exn) :
  (format_number v = Raise e <-> e = OverflowError /\ in_range v = false)
  /\ (format_percent v = Raise e <-> e = OverflowError /\ in_range v = false).
Proof. split; [apply format_number_raises | apply format_percent_raises]. Qed.

(** X2. What a formatter returns for [None] is [None], and what it returns
    for anything else is a str: a missing value stays missing, and no
    other value becomes missing or stays a number. *)
Theorem formatters_return_none_or_str (v r : value) :
  format_number v = Ok r \/ format_percent v = Ok r ->
  match v with
  | VNone => r = VNone
  | _ => exists s : string, r = VStr s
  end.
Proof.
  destruct v as [| f | z | str].
  - intros [H | H]; simpl in H; congruence.
  - intros [H | H].
    + simpl in H. injection H as <-. eexists. reflexivity.
    + rewrite FormatterFacts.format_percent_float in H. injection H as <-.
      eexists. reflexivity.
  - intros [H | H].
    + unfold format_number in H.
      destruct (py_float_int z) as [[_ E] | [_ E]]; rewrite E in H;
        simpl in H; [| discriminate H].
      injection H as <-. eexists. reflexivity.
    + unfold format_percent, percent_body in H. cbn [py_gt_int bind] in H.
      destruct (py_float_int z) as [[_ E] | [_ E]]; rewrite E in H;
        cbn [bind try_except is_ValueError_or_TypeError] in H;
        [| discriminate H].
      destruct (1 <? z); injection H as <-; eexists; reflexivity.
  - intros [H | H].
    + unfold format_number, py_float in H.
      destruct (float_of_string str); simpl in H; injection H as <-;
        eexists; reflexivity.
    + simpl in H. injection H as <-. eexists. reflexivity.
Qed.

Lemma formatters_return_none_or_str_witness :
  exists s : string, VStr "1.50 B" = VStr s.
Proof.
  apply (formatters_return_none_or_str (VInt 1500000000) (VStr "1.50 B")).
  left. vm_compute. reflexivity.
Defined.

Lemma format_2f_fneg (y : float) :
  plus_signed y = true -> format_2f (fneg y) = "-" ++ format_2f y.
Proof.
  destruct y as [s | s | | s m e]; simpl; try discriminate;
    intros H; apply negb_true_iff in H; subst s; reflexivity.
Qed.

Lemma abs_ge_fneg (x : float) (k : Z) : abs_ge (fneg x) k = abs_ge x k.
Proof. unfold abs_ge, fneg, fabs. destruct x; reflexivity. Qed.

Lemma scaled_fneg (x : float) (k : Z) (suffix : string) :
  plus_signed x = true ->
  (exists m e, float_of_Z k = S754_finite false m e) ->
  format_2f (fdiv (fneg x) (float_of_Z k)) ++ suffix
  = "-" ++ (format_2f (fdiv x (float_of_Z k)) ++ suffix).
Proof.
  intros Hx (m & e & ->). unfold fdiv, fneg.
  rewrite FloatFacts.SFdiv_opp.
  change (SFopp (SFdiv prec emax x (S754_finite false m e)))
    with (fneg (SFdiv prec emax x (S754_finite false m e))).
  rewrite format_2f_fneg by (apply FloatFacts.SFdiv_plus_signed, Hx).
  reflexivity.
Qed.

Lemma scale_fneg (x : float) :
  plus_signed x = true -> scale (fneg x) = "-" ++ scale x.
Proof.
  intros Hx. unfold scale. rewrite !abs_ge_fneg.
  destruct (abs_ge x TRILLION);
    [apply scaled_fneg; [exact Hx | eexists; eexists; vm_compute; reflexivity] |].
  destruct (abs_ge x BILLION);
    [apply scaled_fneg; [exact Hx | eexists; eexists; vm_compute; reflexivity] |].
  destruct (abs_ge x MILLION);
    [apply scaled_fneg; [exact Hx | eexists; eexists; vm_compute; reflexivity] |].
  apply format_2f_fneg, Hx.
Qed.

(** X3. [format_number] treats the sign apart from the magnitude: for a
    float whose sign bit is clear, zero and infinity included, the text of
    its negation is the text of the float behind a minus sign, with the
    same scale and suffix. *)
Theorem format_number_mirror (x : float) (s : string) :
  plus_signed x = true ->
  format_number (VFloat x) = Ok (VStr s) ->
  format_number (VFloat (fneg x)) = Ok (VStr ("-" ++ s)).
Proof.
  intros Hx H. simpl in H. injection H as <-.
  simpl. rewrite (scale_fneg x Hx). reflexivity.
Qed.

Lemma format_number_mirror_witness :
  format_number (VFloat (fneg (literal "1234567.891"))) = Ok (VStr ("-" ++ "1.23 M")).
Proof.
  apply (format_number_mirror (literal "1234567.891") "1.23 M");
    vm_compute; reflexivity.
Defined.

(** X17. [format_percent] leaves what it returned as it is: a cell that
    went through it once is [None] or a str, and it returns both
    unchanged. *)
Theorem format_percent_idempotent (v r : value) :
  format_percent v = Ok r -> format_percent r = Ok r.
Proof.
  intros H.
  assert (r = VNone \/ exists s, r = VStr s) as [-> | [s ->]].
  { destruct v as [| x | z | s0].
    - injection H as <-. left. reflexivity.
    - right. revert H. unfold format_percent, percent_body.
      cbn [py_gt_int py_float bind].
      destruct (fltb (float_of_Z 1) x); cbn [try_except];
        intros [= <-]; eexists; reflexivity.
    - right. revert H. unfold format_percent, percent_body.
      cbn [py_gt_int py_float bind].
      destruct (float_of_Z z) as [sg | sg | | sg m e];
        destruct (1 <? z); cbn [bind try_except is_ValueError_or_TypeError];
        intros [= <-] || discriminate; eexists; reflexivity.
    - right. rewrite FormatterFacts.format_percent_str in H.
      injection H as <-. exists s0. reflexivity. }
  - reflexivity.
  - apply FormatterFacts.format_percent_str.
Qed.

Lemma format_percent_idempotent_witness :
  format_percent (VFloat (literal "0.0532")) = Ok (VStr "5.32%")
  /\ format_percent (VStr "5.32%") = Ok (VStr "5.32%").
Proof.
  split; [vm_compute; reflexivity |].
  apply (format_percent_idempotent (VFloat (literal "0.0532"))).
  vm_compute. reflexivity.
Defined.

End FormatterMore.

(* ================================================================= *)
(** * Further properties of the ownership resolver *)

Module OwnershipMore.
Import Py Pandas Ownership Props MoreProps OwnershipFacts.

(** *** Percent signs at the ends *)

Lemma lstrip_app_percent (s : string) :
  lstrip is_percent_sign (s ++ "%")
  = match lstrip is_percent_sign s with
    | EmptyString => EmptyString
    | t => t ++ "%"
    end.
Proof.
  induction s as [| c s IH]; [reflexivity |].
  cbn [append lstrip]. destruct (is_percent_sign c); [exact IH | reflexivity].
Qed.

Lemma rstrip_app_percent (t : string) :
  rstrip is_percent_sign (t ++ "%") = rstrip is_percent_sign t.
Proof. unfold rstrip. rewrite string_rev_app. reflexivity. Qed.

Lemma strip_app_percent (s : string) :
  strip is_percent_sign (s ++ "%") = strip is_percent_sign s.
Proof.
  unfold strip. rewrite lstrip_app_percent.
  destruct (lstrip is_percent_sign s) as [| c t]; [reflexivity |].
  apply rstrip_app_percent.
Qed.

(** X4. The conversion does not see percent signs at the ends of the
    text: one more in front, or one more behind, and the result, float or
    failure, is the same. *)
Theorem pct_to_float_ignores_percent_signs (s : string) :
  pct_to_float (VStr (String "%" s)) = pct_to_float (VStr s)
  /\ pct_to_float (VStr (s ++ "%")) = pct_to_float (VStr s).
Proof.
  split.
  - reflexivity.
  - unfold pct_to_float. rewrite strip_app_percent. reflexivity.
Qed.

(** *** Rows of the table *)

Lemma combine_fst_snd (A B : Type) (rows : list (A * B)) :
  combine (map fst rows) (map snd rows) = rows.
Proof.
  induction rows as [| [a b] rest IH]; simpl; [| rewrite IH]; reflexivity.
Qed.

(** The resolver on a two-column table, in terms of its rows. *)
Lemma resolve_rows (rows : list (value * value)) :
  resolve (Some (table rows))
  = bind (pct_to_float (major_dict_get rows "Insiders (%)")) (fun ins =>
    bind (pct_to_float (major_dict_get rows "Institutions")) (fun inst =>
    Ok (Series_of ins inst (derive_float_pct ins inst)))).
Proof.
  destruct rows as [| row rest]; [reflexivity |].
  rewrite resolve_table by reflexivity.
  unfold table, iloc_column. cbn [columns nth_error bind].
  rewrite combine_fst_snd. reflexivity.
Qed.

Lemma zip_get_app (r1 r2 : list (value * value)) (key : string) :
  zip_get (r1 ++ r2) key
  = match zip_get r2 key with
    | Some v => Some v
    | None => zip_get r1 key
    end.
Proof.
  induction r1 as [| [l v] rest IH]; simpl.
  - destruct (zip_get r2 key); reflexivity.
  - rewrite IH. destruct (zip_get r2 key); reflexivity.
Qed.

Lemma zip_get_present (rows : list (value * value)) (key : string) :
  In (VStr key) (map fst rows) -> exists v, zip_get rows key = Some v.
Proof.
  induction rows as [| [l v] rest IH]; simpl; [contradiction |].
  intros [-> | Hin].
  - destruct (zip_get rest key) as [v' |]; [exists v'; reflexivity |].
    simpl. rewrite String.eqb_refl. exists v. reflexivity.
  - destruct (IH Hin) as [v' ->]. exists v'. reflexivity.
Qed.

(** A row that answers neither lookup, or that a later row with the same
    label overrides, can be taken out. *)
Lemma zip_get_drop (r1 r2 : list (value * value)) (label w : value)
    (key : string) :
  label_is key label = false \/ In label (map fst r2) ->
  zip_get (r1 ++ (label, w) :: r2) key = zip_get (r1 ++ r2) key.
Proof.
  intros H. rewrite !zip_get_app. simpl.
  destruct (zip_get r2 key) as [v |] eqn:E; [reflexivity |].
  destruct (label_is key label) eqn:El; [| reflexivity].
  destruct H as [H | H]; [discriminate H |].
  apply label_is_true in El. subst label.
  destruct (zip_get_present r2 key H) as [v Hv]. congruence.
Qed.

Lemma resolve_drop (r1 r2 : list (value * value)) (label w : value) :
  label_is "Insiders (%)" label = false \/ In label (map fst r2) ->
  label_is "Institutions" label = false \/ In label (map fst r2) ->
  resolve (Some (table (r1 ++ (label, w) :: r2)))
  = resolve (Some (table (r1 ++ r2))).
Proof.
  intros H1 H2. rewrite !resolve_rows. unfold major_dict_get.
  rewrite (zip_get_drop r1 r2 label w "Insiders (%)" H1).
  rewrite (zip_get_drop r1 r2 label w "Institutions" H2).
  reflexivity.
Qed.

(** X5. The resolver reads the rows labelled Insiders (%) and Institutions
    and no other: a row with any other label, wherever it stands in the
    table, changes nothing in the result. *)
Theorem resolver_ignores_other_rows
    (yf : string -> result (option DataFrame)) (ticker : string)
    (r1 r2 : list (value * value)) (label w : value) :
  other_label label = true ->
  yf ticker = Ok (Some (table (r1 ++ (label, w) :: r2))) ->
  parse_major_holders yf ticker
  = parse_major_holders (fun _ => Ok (Some (table (r1 ++ r2)))) ticker.
Proof.
  intros Hother Hyf. unfold parse_major_holders. rewrite Hyf. cbn [bind].
  unfold other_label in Hother. apply andb_prop in Hother as [H1 H2].
  apply negb_true_iff in H1, H2.
  rewrite resolve_drop; [reflexivity | left; exact H1 | left; exact H2].
Qed.

Lemma resolver_ignores_other_rows_witness :
  parse_major_holders
    (Samples.answers
       (table ([ (VStr "Insiders (%)", VStr "5.00%") ]
               ++ (VStr "% of Float Held by Institutions", VStr "81.00%")
                  :: [ (VStr "Institutions", VStr "70.00%") ])))
    "BBCA.JK"
  = parse_major_holders
      (fun _ => Ok (Some (table ([ (VStr "Insiders (%)", VStr "5.00%") ]
                                 ++ [ (VStr "Institutions", VStr "70.00%") ]))))
      "BBCA.JK".
Proof.
  apply (resolver_ignores_other_rows _ "BBCA.JK"
           [ (VStr "Insiders (%)", VStr "5.00%") ]
           [ (VStr "Institutions", VStr "70.00%") ]
           (VStr "% of Float Held by Institutions") (VStr "81.00%"));
    reflexivity.
Defined.

(** X6. When two rows carry the same label, the later one is the one that
    counts: the earlier row can be taken out of the table without any
    change in the result. *)
Theorem resolver_takes_last_of_equal_labels
    (yf : string -> result (option DataFrame)) (ticker : string)
    (r1 r2 : list (value * value)) (label w : value) :
  In label (map fst r2) ->
  yf ticker = Ok (Some (table (r1 ++ (label, w) :: r2))) ->
  parse_major_holders yf ticker
  = parse_major_holders (fun _ => Ok (Some (table (r1 ++ r2)))) ticker.
Proof.
  intros Hlater Hyf. unfold parse_major_holders. rewrite Hyf. cbn [bind].
  rewrite resolve_drop; [reflexivity | right; exact Hlater | right; exact Hlater].
Qed.

Lemma resolver_takes_last_of_equal_labels_witness :
  parse_major_holders
    (Samples.answers
       (table ([] ++ (VStr "Institutions", VStr "n/a")
                  :: [ (VStr "Institutions", VStr "60.00%") ])))
    "BBCA.JK"
  = parse_major_holders
      (fun _ => Ok (Some (table ([] ++ [ (VStr "Institutions", VStr "60.00%") ]))))
      "BBCA.JK".
Proof.
  apply (resolver_takes_last_of_equal_labels _ "BBCA.JK" []
           [ (VStr "Institutions", VStr "60.00%") ]
           (VStr "Institutions") (VStr "n/a")).
  - left. reflexivity.
  - reflexivity.
Defined.

End OwnershipMore.

(* ================================================================= *)
(** * Further properties of the table projector *)

Module ProjectorMore.
Import Py Pandas Formatter Projector Pipeline Props MoreProps Samples
       ProjectorFacts.

Lemma apply_formatting_well_formed (p df : DataFrame) :
  well_formed p -> apply_formatting p = Ok df -> well_formed df.
Proof.
  intros W0 H. unfold apply_formatting in H.
  apply ResultFacts.bind_Ok_inv in H as (df1 & E1 & H).
  apply ResultFacts.bind_Ok_inv in H as (df2 & E2 & H).
  apply ResultFacts.bind_Ok_inv in H as (df3 & E3 & H).
  apply ResultFacts.bind_Ok_inv in H as (df4 & E4 & H).
  apply format_column_ok in E1 as (_ & _ & _ & _ & _ & _ & _ & W1); [| exact W0].
  apply format_column_ok in E2 as (_ & _ & _ & _ & _ & _ & _ & W2); [| exact W1].
  apply format_column_ok in E3 as (_ & _ & _ & _ & _ & _ & _ & W3); [| exact W2].
  apply format_column_ok in E4 as (_ & _ & _ & _ & _ & _ & _ & W4); [| exact W3].
  apply format_column_ok in H as (_ & _ & _ & _ & _ & _ & _ & W5); [| exact W4].
  exact W5.
Qed.

(** X7. Whatever raw table [clean_info] is given, well formed or not, the
    table it returns has one cell per row in every column; and for a
    well-formed raw table with a ticker column it has as many rows as the
    raw table. *)
Theorem cleaned_table_is_rectangular (raw_df df : DataFrame) :
  clean_info raw_df = Ok df ->
  well_formed df
  /\ (well_formed raw_df -> indexed raw_df -> nrows df = nrows raw_df).
Proof.
  intros H. split.
  - rewrite clean_info_unfold in H.
    exact (apply_formatting_well_formed _ df (well_formed_project raw_df) H).
  - intros Hwf Hidx. exact (proj1 (cleaned_frame raw_df df Hwf Hidx H)).
Qed.

Lemma cleaned_table_is_rectangular_witness :
  exists df : DataFrame,
    clean_info (from_records two_rows) = Ok df
    /\ well_formed df /\ nrows df = 2%nat.
Proof.
  eexists. split; [vm_compute; reflexivity |].
  refine (let H := cleaned_table_is_rectangular (from_records two_rows) _ _ in
          conj (proj1 H)
            (proj2 H (from_records_well_formed two_rows)
               (from_records_indexed two_rows two_rows_have_tickers))).
  vm_compute. reflexivity.
Defined.

(** *** Columns the projector does not read *)

Lemma lookup_insert_other (c1 c2 : list (string * Series)) (k key : string)
    (s : Series) :
  key <> k -> lookup (c1 ++ (k, s) :: c2) key = lookup (c1 ++ c2) key.
Proof.
  intros Hne. apply String.eqb_neq in Hne.
  induction c1 as [| [k0 s0] rest IH]; simpl.
  - rewrite Hne. reflexivity.
  - rewrite IH. reflexivity.
Qed.

Lemma fold_left_ext_in (A B : Type) (f g : A -> B -> A) (l : list B) :
  (forall a x, In x l -> f a x = g a x) ->
  forall a, fold_left f l a = fold_left g l a.
Proof.
  induction l as [| x rest IH]; intros H a; simpl; [reflexivity |].
  rewrite (H a x (or_introl eq_refl)). apply IH.
  intros a' x' Hin. apply H. right. exact Hin.
Qed.

Lemma project_ignores_column (n : nat) (c1 c2 : list (string * Series))
    (k : string) (s : Series) :
  ~ In k (map snd fields) ->
  project (mkDataFrame n (c1 ++ (k, s) :: c2))
  = project (mkDataFrame n (c1 ++ c2)).
Proof.
  intros Hk. unfold project. apply fold_left_ext_in.
  intros df f Hin. unfold copy_field, getitem. simpl columns.
  rewrite lookup_insert_other; [reflexivity |].
  intros E. apply Hk. rewrite <- E. apply in_map. exact Hin.
Qed.

(** X8. A column of the raw table whose name is not a source field of the
    renaming table has no effect on the cleaned table: with or without
    it, wherever it stands, [clean_info] gives the same result. *)
Theorem clean_info_ignores_other_columns (n : nat)
    (c1 c2 : list (string * Series)) (k : string) (s : Series) :
  ~ In k (map snd fields) ->
  clean_info (mkDataFrame n (c1 ++ (k, s) :: c2))
  = clean_info (mkDataFrame n (c1 ++ c2)).
Proof.
  intros Hk. rewrite !clean_info_unfold.
  rewrite (project_ignores_column n c1 c2 k s Hk). reflexivity.
Qed.

Lemma clean_info_ignores_other_columns_witness :
  clean_info (mkDataFrame 1 ([("_ticker", [VStr "BBCA.JK"])]
                             ++ ("longBusinessSummary", [VStr "A bank."])
                                :: [("marketCap", [VInt 1500000000])]))
  = clean_info (mkDataFrame 1 ([("_ticker", [VStr "BBCA.JK"])]
                               ++ [("marketCap", [VInt 1500000000])])).
Proof.
  apply (clean_info_ignores_other_columns 1 [("_ticker", [VStr "BBCA.JK"])]
           [("marketCap", [VInt 1500000000])] "longBusinessSummary"
           [VStr "A bank."]).
  unfold fields. simpl. intros H.
  repeat (destruct H as [H | H]; [discriminate H |]). exact H.
Defined.

(** *** How the projector fails *)

Lemma names_lookup (cols : list (string * Series)) (key : string) :
  mem key (map fst cols) = true -> exists s, lookup cols key = Some s.
Proof.
  induction cols as [| [k0 s0] rest IH]; simpl; [discriminate |].
  destruct (String.eqb key k0); [intros _; exists s0; reflexivity | exact IH].
Qed.

Lemma apply_raises (f : value -> result value) (s : Series) (e : exn) :
  apply f s = Raise e -> exists v, In v s /\ f v = Raise e.
Proof.
  induction s as [| v rest IH]; simpl; [discriminate |].
  destruct (f v) as [v' | e'] eqn:Hv; cbn [bind].
  - destruct (apply f rest) as [rest' | e''] eqn:Hrest; cbn [bind];
      [discriminate |].
    intros [= <-]. destruct (IH eq_refl) as (v0 & Hin & Hv0).
    exists v0. split; [right; exact Hin | exact Hv0].
  - intros [= <-]. exists v. split; [left; reflexivity | exact Hv].
Qed.

Lemma format_column_raises (f : value -> result value) (col : string)
    (df : DataFrame) (e : exn) :
  (forall v e', f v = Raise e' -> e' = OverflowError) ->
  mem col (names df) = true ->
  format_column f col df = Raise e -> e = OverflowError.
Proof.
  intros Hf Hcol. unfold format_column, getitem.
  destruct (names_lookup _ _ Hcol) as [s ->].
  destruct (apply f s) as [s' | e'] eqn:Hs; cbn [bind]; [discriminate |].
  intros [= <-]. destruct (apply_raises f s e' Hs) as (v & _ & Hv).
  exact (Hf v e' Hv).
Qed.

Lemma apply_formatting_raises (p : DataFrame) (e : exn) :
  well_formed p -> names p = published_columns ->
  apply_formatting p = Raise e -> e = OverflowError.
Proof.
  intros W0 N0 H.
  assert (forall v e', format_number v = Raise e' -> e' = OverflowError) as Hn
    by (intros v e' Hv; apply FormatterMore.format_number_raises in Hv; tauto).
  assert (forall v e', format_percent v = Raise e' -> e' = OverflowError) as Hp
    by (intros v e' Hv; apply FormatterMore.format_percent_raises in Hv; tauto).
  unfold apply_formatting in H.
  destruct (format_column format_number "Market Cap" p) as [df1 | e1] eqn:E1.
  2: { cbn [bind] in H. injection H as <-.
       apply (format_column_raises _ _ _ _ Hn) in E1; [exact E1 |].
       rewrite N0. reflexivity. }
  apply format_column_ok in E1 as (_ & _ & _ & _ & _ & _ & N1 & W1); [| exact W0].
  cbn [bind] in H.
  destruct (format_column format_number "Revenue" df1) as [df2 | e2] eqn:E2.
  2: { cbn [bind] in H. injection H as <-.
       apply (format_column_raises _ _ _ _ Hn) in E2; [exact E2 |].
       rewrite N1, N0. reflexivity. }
  apply format_column_ok in E2 as (_ & _ & _ & _ & _ & _ & N2 & W2); [| exact W1].
  cbn [bind] in H.
  destruct (format_column format_percent "Dividend Yield" df2) as [df3 | e3] eqn:E3.
  2: { cbn [bind] in H. injection H as <-.
       apply (format_column_raises _ _ _ _ Hp) in E3; [exact E3 |].
       rewrite N2, N1, N0. reflexivity. }
  apply format_column_ok in E3 as (_ & _ & _ & _ & _ & _ & N3 & W3); [| exact W2].
  cbn [bind] in H.
  destruct (format_column format_percent "Gross Margins" df3) as [df4 | e4] eqn:E4.
  2: { cbn [bind] in H. injection H as <-.
       apply (format_column_raises _ _ _ _ Hp) in E4; [exact E4 |].
       rewrite N3, N2, N1, N0. reflexivity. }
  apply format_column_ok in E4 as (_ & _ & _ & _ & _ & _ & N4 & W4); [| exact W3].
  cbn [bind] in H.
  apply (format_column_raises _ _ _ _ Hp) in H; [exact H |].
  rewrite N4, N3, N2, N1, N0. reflexivity.
Qed.

(** X9. [clean_info] fails in one way only: the exception it raises, if
    any, is the [OverflowError] of a formatter on an int beyond the range
    of a float; a column is never missing when it is formatted, so no
    [KeyError] arises. *)
Theorem clean_info_raises_only_overflow (raw_df : DataFrame) (e : exn) :
  clean_info raw_df = Raise e -> e = OverflowError.
Proof.
  intros H. rewrite clean_info_unfold in H.
  exact (apply_formatting_raises _ e (well_formed_project raw_df)
           (names_project raw_df) H).
Qed.

Lemma clean_info_raises_only_overflow_witness :
  exists e : exn,
    clean_info (mkDataFrame 1 [("_ticker", [VStr "BBCA.JK"]);
                               ("marketCap", [VInt (10 ^ 400)])]) = Raise e
    /\ e = OverflowError.
Proof.
  exists OverflowError. split; [vm_compute; reflexivity |].
  apply (clean_info_raises_only_overflow
           (mkDataFrame 1 [("_ticker", [VStr "BBCA.JK"]);
                           ("marketCap", [VInt (10 ^ 400)])])).
  vm_compute. reflexivity.
Defined.

End ProjectorMore.

(* ================================================================= *)
(** * Further properties of the driver *)

Module PipelineMore.
Import Py Pandas Formatter Ownership Projector Pipeline Props MoreProps Samples
       PipelineFacts ProjectorFacts.

Lemma bind_Ok (A B : Type) (a : A) (k : A -> result B) : bind (Ok a) k = k a.
Proof. reflexivity. Qed.

Lemma bind_Raise (A B : Type) (e : exn) (k : A -> result B) :
  bind (Raise e) k = Raise e.
Proof. reflexivity. Qed.

Section Loop.

Variable yf_info : string -> result dict.
Variable yf_major_holders : string -> result (option DataFrame).

(** *** The loop over a list of tickers *)

(** The rows the loop starts with are kept in front of the rows it adds. *)
Lemma collect_from (tickers : list string) :
  forall raw_rows : list dict,
    collect yf_info yf_major_holders tickers raw_rows
    = bind (collect yf_info yf_major_holders tickers [])
        (fun rows => Ok (raw_rows ++ rows)%list).
Proof.
  induction tickers as [| t rest IH]; intros raw_rows; simpl.
  - rewrite app_nil_r. reflexivity.
  - destruct (row_of yf_info yf_major_holders t) as [row | e]; [| reflexivity].
    cbn [bind]. rewrite (IH (raw_rows ++ [row])%list), (IH [row]).
    destruct (collect yf_info yf_major_holders rest []) as [rows | e];
      [| reflexivity].
    cbn [bind]. rewrite <- app_assoc. reflexivity.
Qed.

Lemma collect_app (ts1 ts2 : list string) :
  forall raw_rows : list dict,
    collect yf_info yf_major_holders (ts1 ++ ts2) raw_rows
    = bind (collect yf_info yf_major_holders ts1 raw_rows)
        (fun rows => collect yf_info yf_major_holders ts2 rows).
Proof.
  induction ts1 as [| t rest IH]; intros raw_rows; simpl; [reflexivity |].
  destruct (row_of yf_info yf_major_holders t) as [row | e]; [| reflexivity].
  cbn [bind]. apply IH.
Qed.

Lemma collect_rows (tickers : list string) :
  forall raw_rows rows : list dict,
    collect yf_info yf_major_holders tickers raw_rows = Ok rows ->
    exists new : list dict,
      rows = (raw_rows ++ new)%list
      /\ Forall2 (fun t row => row_of yf_info yf_major_holders t = Ok row)
           tickers new.
Proof.
  induction tickers as [| t rest IH]; intros raw_rows rows H; simpl in H.
  - injection H as <-. exists []. split; [rewrite app_nil_r; reflexivity |].
    constructor.
  - apply ResultFacts.bind_Ok_inv in H as (row & Hrow & H).
    destruct (IH _ _ H) as (new & -> & Hall).
    exists (row :: new). split; [rewrite <- app_assoc; reflexivity |].
    constructor; assumption.
Qed.

Lemma rows_tickers (tickers : list string) (rows : list dict) :
  Forall2 (fun t row => row_of yf_info yf_major_holders t = Ok row) tickers rows ->
  map (raw_cell "_ticker") rows = map VStr tickers.
Proof.
  induction 1 as [| t row tickers rows Hrow _ IH]; [reflexivity |].
  simpl. rewrite IH. f_equal. unfold raw_cell.
  rewrite (row_of_has_ticker yf_info yf_major_holders t row Hrow). reflexivity.
Qed.

(** The loop returns when every turn does, and what holds of the row of
    every turn holds of every row it adds. *)
Lemma collect_returns (P : dict -> Prop) (tickers : list string) :
  (forall t, In t tickers ->
     exists row, row_of yf_info yf_major_holders t = Ok row /\ P row) ->
  forall raw_rows : list dict,
  exists rows : list dict,
    collect yf_info yf_major_holders tickers raw_rows = Ok (raw_rows ++ rows)%list
    /\ Forall2 (fun t row => row_of yf_info yf_major_holders t = Ok row)
         tickers rows
    /\ Forall P rows.
Proof.
  induction tickers as [| t rest IH]; intros Hall raw_rows.
  - exists []. split; [simpl; rewrite app_nil_r; reflexivity |].
    split; constructor.
  - destruct (Hall t (or_introl eq_refl)) as (row & Hrow & HP).
    destruct (IH (fun t' Hin => Hall t' (or_intror Hin)) (raw_rows ++ [row])%list)
      as (rows & Hrows & Hrel & HPs).
    exists (row :: rows). split.
    + simpl. rewrite Hrow. cbn [bind]. rewrite Hrows, <- app_assoc. reflexivity.
    + split; constructor; assumption.
Qed.

(** *** How a turn of the loop ends *)

(** What the resolver raises is no [Exception], and is what the lookup
    raised. *)
Lemma parse_raises (t : string) (e : exn) :
  parse_major_holders yf_major_holders t = Raise e ->
  is_Exception e = false /\ yf_major_holders t = Raise e.
Proof.
  unfold parse_major_holders, try_except.
  destruct (yf_major_holders t) as [major | e0]; cbn [bind].
  - destruct (resolve major) as [s | e1] eqn:Hr; [discriminate |].
    rewrite (OwnershipFacts.resolve_raises _ _ Hr). discriminate.
  - destruct (is_Exception e0) eqn:E; [discriminate |].
    intros [= <-]. split; [exact E | reflexivity].
Qed.

Lemma row_of_merged (t : string) (info row : dict) :
  yf_info t = Ok info -> row_of yf_info yf_major_holders t = Ok row ->
  exists s : summary,
    parse_major_holders yf_major_holders t = Ok s
    /\ row = dict_update (dict_set info "_ticker" (VStr t)) (to_dict s).
Proof.
  intros H. unfold row_of, fetch. rewrite H. cbn [bind].
  destruct (parse_major_holders yf_major_holders t) as [s | e] eqn:Hs;
    cbn [bind try_except].
  - intros [= <-]. exists s. split; reflexivity.
  - destruct (parse_raises t e Hs) as [-> _]. discriminate.
Qed.

Lemma row_of_raises (t : string) (e : exn) :
  row_of yf_info yf_major_holders t = Raise e ->
  is_Exception e = false
  /\ (yf_info t = Raise e
      \/ exists info, yf_info t = Ok info /\ yf_major_holders t = Raise e).
Proof.
  unfold row_of, fetch.
  destruct (yf_info t) as [info | e0]; cbn [bind].
  - destruct (parse_major_holders yf_major_holders t) as [s | e1] eqn:Hs;
      cbn [bind try_except]; [discriminate |].
    destruct (parse_raises t e1 Hs) as [E He1]. rewrite E.
    intros [= <-]. split; [exact E |]. right. exists info.
    split; [reflexivity | exact He1].
  - cbn [try_except]. destruct (is_Exception e0) eqn:E; [discriminate |].
    intros [= <-]. split; [exact E |]. left. reflexivity.
Qed.

Lemma collect_raises (tickers : list string) :
  forall (raw_rows : list dict) (e : exn),
    collect yf_info yf_major_holders tickers raw_rows = Raise e ->
    exists t, In t tickers /\ row_of yf_info yf_major_holders t = Raise e.
Proof.
  induction tickers as [| t rest IH]; intros raw_rows e H; simpl in H;
    [discriminate H |].
  destruct (row_of yf_info yf_major_holders t) as [row | e0] eqn:Hrow;
    cbn [bind] in H.
  - destruct (IH _ e H) as (t' & Hin & Ht'). exists t'.
    split; [right; exact Hin | exact Ht'].
  - injection H as <-. exists t. split; [left; reflexivity | exact Hrow].
Qed.

Lemma collect_stops (tickers : list string) (t : string) (e0 : exn) :
  In t tickers -> row_of yf_info yf_major_holders t = Raise e0 ->
  forall raw_rows : list dict,
  exists e, collect yf_info yf_major_holders tickers raw_rows = Raise e.
Proof.
  intros Hin Hrow. induction tickers as [| t0 rest IH]; intros raw_rows;
    [contradiction |].
  simpl. destruct (row_of yf_info yf_major_holders t0) as [row | e] eqn:Hrow0;
    cbn [bind].
  - destruct Hin as [-> | Hin]; [congruence |]. apply IH, Hin.
  - exists e. reflexivity.
Qed.

Lemma row_of_interrupted (t : string) :
  yf_info t = Raise KeyboardInterrupt
  \/ (exists info, yf_info t = Ok info
                   /\ yf_major_holders t = Raise KeyboardInterrupt) ->
  row_of yf_info yf_major_holders t = Raise KeyboardInterrupt.
Proof.
  unfold row_of, fetch, parse_major_holders.
  intros [H | (info & H & Hm)]; rewrite H; [reflexivity |].
  cbn [bind]. rewrite Hm. reflexivity.
Qed.

End Loop.

(** *** The values of a row *)

Lemma dict_set_In (d : dict) (key k : string) (v w : value) :
  In (k, w) (dict_set d key v) -> In (k, w) d \/ w = v.
Proof.
  induction d as [| [k0 old] rest IH]; simpl.
  - intros [[= <- <-] | []]. right. reflexivity.
  - destruct (String.eqb key k0); simpl.
    + intros [[= <- <-] | H]; [right; reflexivity | left; right; exact H].
    + intros [H | H]; [left; left; exact H |].
      destruct (IH H) as [H' | H']; [left; right; exact H' | right; exact H'].
Qed.

Lemma in_range_of_option (o : option float) : in_range (of_option o) = true.
Proof. destruct o; reflexivity. Qed.

Lemma merged_in_range (info : dict) (t : string) (s : summary) :
  dict_in_range info ->
  dict_in_range (dict_update (dict_set info "_ticker" (VStr t)) (to_dict s)).
Proof.
  intros Hinfo k w H. unfold dict_update, to_dict in H. cbn [fold_left fst snd] in H.
  apply dict_set_In in H as [H | ->]; [| apply in_range_of_option].
  apply dict_set_In in H as [H | ->]; [| apply in_range_of_option].
  apply dict_set_In in H as [H | ->]; [| apply in_range_of_option].
  apply dict_set_In in H as [H | ->]; [| reflexivity].
  exact (Hinfo k w H).
Qed.

Lemma merged_get (d : dict) (s : summary) :
  dict_get (dict_update d (to_dict s)) "Insider (%)"
  = Some (of_option (insider_pct s))
  /\ dict_get (dict_update d (to_dict s)) "Institutional (%)"
     = Some (of_option (inst_pct s))
  /\ dict_get (dict_update d (to_dict s)) "Float / Retail (%)"
     = Some (of_option (float_pct s)).
Proof.
  unfold dict_update, to_dict. cbn [fold_left fst snd].
  split; [| split].
  - rewrite !dict_get_set_other by discriminate. apply dict_get_set_same.
  - rewrite dict_get_set_other by discriminate. apply dict_get_set_same.
  - apply dict_get_set_same.
Qed.

(** A summary is the all-[None] one, or one of three floats. *)
Lemma summary_shape (yf : string -> result (option DataFrame)) (ticker : string)
    (s : summary) :
  parse_major_holders yf ticker = Ok s ->
  s = ALL_NONE \/ exists a b c : float, s = mkSummary (Some a) (Some b) (Some c).
Proof.
  intros H.
  destruct (OwnershipFacts.parse_derivation yf ticker s H) as (ins & inst & ->).
  destruct ins as [j |], inst as [i |]; cbn;
    [right | right | right | left; reflexivity]; eexists; eexists; eexists;
    reflexivity.
Qed.

(** *** The loop with its pauses *)

Section Pauses.

Variable yf_info : string -> result dict.
Variable yf_major_holders : string -> result (option DataFrame).
Variable interrupted : string -> bool.

Lemma loop_stops (tickers : list string) (t : string) :
  In t tickers ->
  (exists e0, row_of yf_info yf_major_holders t = Raise e0)
  \/ interrupted t = true ->
  forall raw_rows : list dict,
  exists e, loop yf_info yf_major_holders interrupted tickers raw_rows = Raise e.
Proof.
  intros Hin Ht. induction tickers as [| t0 rest IH]; intros raw_rows;
    [contradiction |].
  simpl. destruct (row_of yf_info yf_major_holders t0) as [row | e] eqn:Hrow0;
    cbn [bind]; [| exists e; reflexivity].
  unfold sleep. destruct (interrupted t0) eqn:E0; cbn [bind];
    [exists KeyboardInterrupt; reflexivity |].
  destruct Hin as [-> | Hin]; [| apply IH, Hin].
  destruct Ht as [[e0 He0] | Ht]; congruence.
Qed.

(** Whatever ends the loop early is the interrupt. *)
Lemma loop_interrupted (tickers : list string) (raw_rows : list dict) (e : exn) :
  loop yf_info yf_major_holders interrupted tickers raw_rows = Raise e ->
  e = KeyboardInterrupt
  /\ exists t, In t tickers
               /\ (yf_info t = Raise e
                   \/ (exists info, yf_info t = Ok info
                                    /\ yf_major_holders t = Raise e)
                   \/ interrupted t = true).
Proof.
  intros H.
  destruct (loop_raises yf_info yf_major_holders interrupted tickers raw_rows e H)
    as (t & Hin & [Hrow | [Hpause ->]]).
  - apply row_of_raises in Hrow as [Hcls Hrow].
    split; [destruct e; try discriminate Hcls; reflexivity |].
    exists t. split; [exact Hin |].
    destruct Hrow as [Hrow | Hrow]; [left | right; left]; exact Hrow.
  - split; [reflexivity |]. exists t. split; [exact Hin |].
    right. right. exact Hpause.
Qed.

End Pauses.

(** *** The tables of a run *)

Lemma nrows_from_records (rows : list dict) :
  nrows (from_records rows) = List.length rows.
Proof. reflexivity. Qed.

(** The ticker column of the raw table holds strs, which no conversion
    touches. *)
Lemma ticker_source
    (yf_info : string -> result dict)
    (yf_major_holders : string -> result (option DataFrame))
    (tickers : list string) (rows : list dict) :
  Forall2 (fun t row => row_of yf_info yf_major_holders t = Ok row) tickers rows ->
  source (from_records rows) "_ticker" = map VStr tickers.
Proof.
  intros Hall. unfold source.
  destruct (getitem (from_records rows) "_ticker") as [s |] eqn:E.
  - rewrite (raw_cells rows "_ticker" s E).
    rewrite (rows_tickers yf_info yf_major_holders tickers rows Hall).
    apply unify_strs.
  - rewrite getitem_from_records in E.
    destruct (mem "_ticker" (union_keys rows)) eqn:M; [discriminate E |].
    destruct Hall as [| t row ts rs Hrow _]; [reflexivity |].
    exfalso.
    assert (mem "_ticker" (union_keys (row :: rs)) = true) as M';
      [| rewrite M' in M; discriminate M].
    apply mem_true_iff, union_keys_In. exists row.
    split; [left; reflexivity |].
    destruct (in_dec string_dec "_ticker" (map fst row)) as [Hin | Hnot];
      [exact Hin |].
    apply dict_get_None in Hnot.
    rewrite (row_of_has_ticker yf_info yf_major_holders t row Hrow) in Hnot.
    discriminate Hnot.
Qed.

Lemma cleaned_ticker_column (raw_df df : DataFrame) :
  well_formed raw_df -> indexed raw_df -> clean_info raw_df = Ok df ->
  getitem df "Ticker" = Some (source raw_df "_ticker").
Proof.
  intros Hwf Hidx H.
  destruct (cleaned_frame raw_df df Hwf Hidx H)
    as (_ & s1 & s2 & s3 & s4 & s5 & _ & _ & _ & _ & _ & C).
  unfold getitem. rewrite C. reflexivity.
Qed.

Lemma Forall2_nth_error (A B : Type) (R : A -> B -> Prop) (l : list A)
    (l' : list B) :
  Forall2 R l l' ->
  forall (i : nat) (a : A), nth_error l i = Some a ->
    exists b : B, nth_error l' i = Some b /\ R a b.
Proof.
  induction 1 as [| a0 b0 l l' HR _ IH]; intros i a Hi.
  - destruct i; discriminate Hi.
  - destruct i as [| i]; simpl in Hi |- *.
    + injection Hi as <-. exists b0. split; [reflexivity | exact HR].
    + exact (IH i a Hi).
Qed.

Lemma nth_error_repeat (A : Type) (a : A) (n i : nat) :
  (i < n)%nat -> nth_error (repeat a n) i = Some a.
Proof.
  revert i. induction n as [| n IH]; intros i Hi; [lia |].
  destruct i as [| i]; simpl; [reflexivity | apply IH; lia].
Qed.

Lemma Forall2_Ok_refl (s : Series) : Forall2 (fun v v' => Ok v = Ok v') s s.
Proof. induction s; constructor; [reflexivity | assumption]. Qed.

Lemma formatter_of_None (col : string) : formatter_of col VNone = Ok VNone.
Proof.
  unfold formatter_of.
  destruct (mem col ["Market Cap"; "Revenue"]); [reflexivity |].
  destruct (mem col ["Dividend Yield"; "Gross Margins"; "Profit Margins"]);
    reflexivity.
Qed.

(** The column of a field in the cleaned table: the cells of its source,
    each passed through the formatter of the column. *)
Lemma cleaned_column (raw_df df : DataFrame) (col raw_key : string) :
  well_formed raw_df -> indexed raw_df -> clean_info raw_df = Ok df ->
  In (col, raw_key) fields ->
  exists s : Series,
    getitem df col = Some s
    /\ Forall2 (fun v v' => formatter_of col v = Ok v') (source raw_df raw_key) s.
Proof.
  intros Hwf Hidx H Hin.
  destruct (cleaned_frame raw_df df Hwf Hidx H)
    as (_ & s1 & s2 & s3 & s4 & s5 & A1 & A2 & A3 & A4 & A5 & C).
  apply apply_Forall2 in A1, A2, A3, A4, A5.
  unfold getitem. rewrite C. unfold fields in Hin. simpl in Hin.
  repeat (destruct Hin as [Hin | Hin];
          [injection Hin as <- <-;
           cbn [lookup String.eqb Ascii.eqb Bool.eqb];
           eexists; split; [reflexivity |];
           first [ exact (Forall2_Ok_refl _)
                 | exact A1 | exact A2 | exact A3 | exact A4 | exact A5 ] |]).
  contradiction.
Qed.

(** The rows of a run that ends, and its tables. *)
Lemma main_rows
    (yf_info : string -> result dict)
    (yf_major_holders : string -> result (option DataFrame))
    (interrupted : string -> bool)
    (to_excel : DataFrame -> DataFrame -> result unit)
    (to_csv : DataFrame -> result unit)
    (tickers : list string) (out : outputs) :
  main yf_info yf_major_holders interrupted to_excel to_csv tickers = Ok out ->
  exists rows : list dict,
    Forall2 (fun t row => row_of yf_info yf_major_holders t = Ok row) tickers rows
    /\ raw_info_sheet out = from_records rows
    /\ well_formed (from_records rows)
    /\ indexed (from_records rows)
    /\ clean_info (from_records rows) = Ok (cleaned_info_sheet out).
Proof.
  intros H.
  destruct (main_outputs _ _ _ _ _ tickers out H)
    as (raw_rows & Hrows & _ & Hsheet & _ & Hclean & _).
  pose proof (collect_have_tickers yf_info yf_major_holders tickers []
                raw_rows Hrows (fun row (Hin : In row []) => match Hin with end))
    as Htickers.
  destruct (collect_rows yf_info yf_major_holders tickers [] raw_rows Hrows)
    as (new & -> & Hall).
  cbn [app] in Hclean, Htickers, Hsheet.
  exists new. split; [exact Hall |]. split; [exact Hsheet |].
  split; [apply from_records_well_formed |].
  split; [exact (from_records_indexed new Htickers) | exact Hclean].
Qed.

(** X10. The loop treats every ticker on its own: the rows of a list of
    tickers are the rows of its first part followed by the rows of the
    rest, so a run over a list gives what runs over its batches give. *)
Theorem rows_of_batches
    (yf_info : string -> result dict)
    (yf_major_holders : string -> result (option DataFrame))
    (ts1 ts2 : list string) (r1 r2 : list dict) :
  collect yf_info yf_major_holders ts1 [] = Ok r1 ->
  collect yf_info yf_major_holders ts2 [] = Ok r2 ->
  collect yf_info yf_major_holders (ts1 ++ ts2) [] = Ok (r1 ++ r2)%list.
Proof.
  intros H1 H2. rewrite collect_app, H1, bind_Ok, collect_from, H2.
  reflexivity.
Qed.

Lemma rows_of_batches_witness :
  collect (fun t => Ok [("shortName", VStr t)]) (answers holders_both)
    (["BBCA.JK"] ++ ["TLKM.JK"]) []
  = Ok ([ [ ("shortName", VStr "BBCA.JK"); ("_ticker", VStr "BBCA.JK");
            ("Insider (%)", VFloat (literal "5.0"));
            ("Institutional (%)", VFloat (literal "70.0"));
            ("Float / Retail (%)", VFloat (literal "25.0")) ] ]
        ++ [ [ ("shortName", VStr "TLKM.JK"); ("_ticker", VStr "TLKM.JK");
               ("Insider (%)", VFloat (literal "5.0"));
               ("Institutional (%)", VFloat (literal "70.0"));
               ("Float / Retail (%)", VFloat (literal "25.0")) ] ])%list.
Proof.
  apply (rows_of_batches (fun t => Ok [("shortName", VStr t)])
           (answers holders_both) ["BBCA.JK"] ["TLKM.JK"]);
    vm_compute; reflexivity.
Defined.

(** X11. A run has no partial result: when the full-info lookup of some
    ticker, or its major-holders lookup, or the pause after its turn, is
    interrupted (an exception that is not an [Exception]), the run raises
    that interrupt, builds no table and writes nothing, whatever the other
    tickers gave. *)
Theorem interrupt_ends_the_run
    (yf_info : string -> result dict)
    (yf_major_holders : string -> result (option DataFrame))
    (interrupted : string -> bool)
    (to_excel : DataFrame -> DataFrame -> result unit)
    (to_csv : DataFrame -> result unit)
    (tickers : list string) (t : string) :
  In t tickers ->
  yf_info t = Raise KeyboardInterrupt
  \/ (exists info, yf_info t = Ok info
                   /\ yf_major_holders t = Raise KeyboardInterrupt)
  \/ interrupted t = true ->
  main yf_info yf_major_holders interrupted to_excel to_csv tickers
  = Raise KeyboardInterrupt.
Proof.
  intros Hin Ht.
  assert ((exists e0, row_of yf_info yf_major_holders t = Raise e0)
          \/ interrupted t = true) as Hstop.
  { destruct Ht as [Ht | [Ht | Ht]]; [left | left | right; exact Ht];
      exists KeyboardInterrupt;
      apply (row_of_interrupted yf_info yf_major_holders t); tauto. }
  destruct (loop_stops yf_info yf_major_holders interrupted tickers t Hin Hstop [])
    as [e He].
  destruct (loop_interrupted _ _ _ _ _ _ He) as [-> _].
  rewrite <- main_body, He. reflexivity.
Qed.

Lemma interrupt_ends_the_run_witness :
  main (fun t => if String.eqb t "TLKM.JK" then Raise KeyboardInterrupt
                 else Ok [("shortName", VStr t)])
    (answers holders_both) undisturbed written2 written
    ["BBCA.JK"; "TLKM.JK"; "BMRI.JK"]
  = Raise KeyboardInterrupt.
Proof.
  apply (interrupt_ends_the_run _ _ _ _ _ _ "TLKM.JK").
  - right. left. reflexivity.
  - left. reflexivity.
Defined.

(** X12. The row of a ticker whose full-info lookup succeeded is the
    provider's dict with four keys set by the loop: [_ticker] is the
    symbol, the three ownership keys are the cells of the Series the
    resolver returned, either three [None]s or three floats (a percentage
    that is missing beside one that was found being the missing-value
    float), and these replace whatever the provider had under the same
    keys; every other key has the provider's value, or is missing as in
    the provider's dict. *)
Theorem row_merges_summary_into_info
    (yf_info : string -> result dict)
    (yf_major_holders : string -> result (option DataFrame))
    (t : string) (info row : dict) :
  yf_info t = Ok info ->
  row_of yf_info yf_major_holders t = Ok row ->
  exists s : summary,
    parse_major_holders yf_major_holders t = Ok s
    /\ dict_get row "_ticker" = Some (VStr t)
    /\ dict_get row "Insider (%)" = Some (of_option (insider_pct s))
    /\ dict_get row "Institutional (%)" = Some (of_option (inst_pct s))
    /\ dict_get row "Float / Retail (%)" = Some (of_option (float_pct s))
    /\ ((dict_get row "Insider (%)" = Some VNone
         /\ dict_get row "Institutional (%)" = Some VNone
         /\ dict_get row "Float / Retail (%)" = Some VNone)
        \/ exists a b c : float,
             dict_get row "Insider (%)" = Some (VFloat a)
             /\ dict_get row "Institutional (%)" = Some (VFloat b)
             /\ dict_get row "Float / Retail (%)" = Some (VFloat c))
    /\ (forall key : string,
          ~ In key added_keys -> dict_get row key = dict_get info key).
Proof.
  intros Hinfo Hrow.
  destruct (row_of_merged yf_info yf_major_holders t info row Hinfo Hrow)
    as (s & Hs & ->).
  exists s. split; [exact Hs |].
  split; [exact (row_of_has_ticker yf_info yf_major_holders t _ Hrow) |].
  destruct (merged_get (dict_set info "_ticker" (VStr t)) s) as (G1 & G2 & G3).
  split; [exact G1 |]. split; [exact G2 |]. split; [exact G3 |].
  split.
  - rewrite G1, G2, G3.
    destruct (summary_shape yf_major_holders t s Hs) as [-> | (a & b & c & ->)].
    + left. repeat split.
    + right. exists a, b, c. repeat split.
  - intros key Hkey. unfold added_keys in Hkey. simpl in Hkey.
    rewrite dict_get_update_other.
    + apply dict_get_set_other. intros ->. tauto.
    + rewrite to_dict_keys. simpl. intros [<- | [<- | [<- | []]]]; tauto.
Qed.

Lemma row_merges_summary_into_info_witness :
  exists s : summary,
    parse_major_holders (answers holders_institutions_only) "BBCA.JK" = Ok s
    /\ dict_get [ ("shortName", VStr "Bank Central Asia");
                  ("Insider (%)", NaN);
                  ("_ticker", VStr "BBCA.JK");
                  ("Institutional (%)", VFloat f60);
                  ("Float / Retail (%)", VFloat f40) ] "_ticker"
       = Some (VStr "BBCA.JK")
    /\ Some NaN = Some (of_option (insider_pct s)).
Proof.
  destruct (row_merges_summary_into_info
              (fun _ => Ok [ ("shortName", VStr "Bank Central Asia");
                             ("Insider (%)", VStr "unknown") ])
              (answers holders_institutions_only) "BBCA.JK"
              [ ("shortName", VStr "Bank Central Asia");
                ("Insider (%)", VStr "unknown") ]
              [ ("shortName", VStr "Bank Central Asia");
                ("Insider (%)", NaN);
                ("_ticker", VStr "BBCA.JK");
                ("Institutional (%)", VFloat f60);
                ("Float / Retail (%)", VFloat f40) ])
    as (s & Hs & Ht & Hi & _).
  - reflexivity.
  - vm_compute. reflexivity.
  - exists s. split; [exact Hs |]. split; [exact Ht | exact Hi].
Defined.

(** X13. Whatever the lookups gave, the Cleaned_Info sheet of a run that
    ends has one row per ticker, and its Ticker column holds the tickers,
    as strs, in the order they were given. *)
Theorem cleaned_sheet_lists_tickers
    (yf_info : string -> result dict)
    (yf_major_holders : string -> result (option DataFrame))
    (interrupted : string -> bool)
    (to_excel : DataFrame -> DataFrame -> result unit)
    (to_csv : DataFrame -> result unit)
    (tickers : list string) (out : outputs) :
  main yf_info yf_major_holders interrupted to_excel to_csv tickers = Ok out ->
  nrows (cleaned_info_sheet out) = List.length tickers
  /\ getitem (cleaned_info_sheet out) "Ticker" = Some (map VStr tickers).
Proof.
  intros H.
  destruct (main_rows _ _ _ _ _ tickers out H)
    as (rows & Hall & _ & Hwf & Hidx & Hclean).
  split.
  - rewrite (proj1 (cleaned_frame _ _ Hwf Hidx Hclean)), nrows_from_records.
    symmetry. exact (Forall2_length Hall).
  - rewrite (cleaned_ticker_column _ _ Hwf Hidx Hclean).
    rewrite (ticker_source yf_info yf_major_holders tickers rows Hall).
    reflexivity.
Qed.

Lemma cleaned_sheet_lists_tickers_witness :
  exists out : outputs,
    main (fun t => if String.eqb t "BBCA.JK"
                   then Ok [("shortName", VStr "Bank Central Asia")]
                   else Raise (RemoteError "not found"))
      (answers holders_both) undisturbed written2 written
      ["BBCA.JK"; "TLKM.JK"] = Ok out
    /\ nrows (cleaned_info_sheet out) = 2%nat
    /\ getitem (cleaned_info_sheet out) "Ticker"
       = Some [VStr "BBCA.JK"; VStr "TLKM.JK"].
Proof.
  eexists. split; [vm_compute; reflexivity |].
  refine (cleaned_sheet_lists_tickers
            (fun t => if String.eqb t "BBCA.JK"
                      then Ok [("shortName", VStr "Bank Central Asia")]
                      else Raise (RemoteError "not found"))
            (answers holders_both) undisturbed written2 written
            ["BBCA.JK"; "TLKM.JK"] _ _).
  vm_compute. reflexivity.
Defined.

(** The rows of a loop whose lookups fail only with [Exception]s, over
    dicts without an int beyond the range of a float. *)
Lemma rows_returned
    (yf_info : string -> result dict)
    (yf_major_holders : string -> result (option DataFrame))
    (tickers : list string) :
  (forall t e, In t tickers -> yf_info t = Raise e -> is_Exception e = true) ->
  (forall t e, In t tickers ->
     yf_major_holders t = Raise e -> is_Exception e = true) ->
  (forall t info, In t tickers -> yf_info t = Ok info -> dict_in_range info) ->
  exists rows : list dict,
    collect yf_info yf_major_holders tickers [] = Ok rows
    /\ rows_in_range rows.
Proof.
  intros Hinfo Hholders Hrange.
  destruct (collect_returns yf_info yf_major_holders dict_in_range tickers)
    with (raw_rows := @nil dict) as (rows & Hrows & _ & Hin_range).
  { intros t Hin. destruct (yf_info t) as [info | e] eqn:E.
    - destruct (OwnershipFacts.parse_returns yf_major_holders t
                  (fun e => Hholders t e Hin)) as [s Hs].
      exists (dict_update (dict_set info "_ticker" (VStr t)) (to_dict s)).
      split.
      + unfold row_of, fetch. rewrite E. cbn [bind]. rewrite Hs. reflexivity.
      + exact (merged_in_range info t s (Hrange t info Hin E)).
    - exists [("_ticker", VStr t)]. split.
      + unfold row_of, fetch. rewrite E. cbn [bind try_except].
        rewrite (Hinfo t e Hin E). reflexivity.
      + intros k w [[= <- <-] | []]. reflexivity. }
  cbn [app] in Hrows. exists rows. split; [exact Hrows |].
  intros row k w Hrow Hkw.
  rewrite Forall_forall in Hin_range. exact (Hin_range row Hrow k w Hkw).
Qed.

(** X14. A run builds its two tables and reaches the writes when, for
    every ticker of the list, a lookup that fails fails with an
    [Exception], the dict of a full-info lookup that succeeds holds no int
    beyond the range of a float, and the pause is not interrupted; what
    the run then gives is what the writes give, and when both writes
    return it ends with the two tables as its outputs. *)
Theorem run_completes
    (yf_info : string -> result dict)
    (yf_major_holders : string -> result (option DataFrame))
    (interrupted : string -> bool)
    (to_excel : DataFrame -> DataFrame -> result unit)
    (to_csv : DataFrame -> result unit)
    (tickers : list string) :
  (forall t e, In t tickers -> yf_info t = Raise e -> is_Exception e = true) ->
  (forall t e, In t tickers ->
     yf_major_holders t = Raise e -> is_Exception e = true) ->
  (forall t info, In t tickers -> yf_info t = Ok info -> dict_in_range info) ->
  (forall t, In t tickers -> interrupted t = false) ->
  exists raw_df clean_df : DataFrame,
    clean_info raw_df = Ok clean_df
    /\ main yf_info yf_major_holders interrupted to_excel to_csv tickers
       = save to_excel to_csv raw_df clean_df
    /\ (to_excel raw_df clean_df = Ok tt -> to_csv raw_df = Ok tt ->
        main yf_info yf_major_holders interrupted to_excel to_csv tickers
        = Ok (mkOutputs raw_df clean_df raw_df)).
Proof.
  intros Hinfo Hholders Hrange Hcalm.
  destruct (rows_returned yf_info yf_major_holders tickers Hinfo Hholders Hrange)
    as (rows & Hrows & Hin_range).
  pose proof (collect_have_tickers yf_info yf_major_holders tickers []
                rows Hrows (fun row (Hin : In row []) => match Hin with end))
    as Htickers.
  destruct (clean_info_returns (from_records rows)
              (from_records_well_formed rows)
              (from_records_indexed rows Htickers)
              (from_records_in_range rows Hin_range)) as [df Hdf].
  exists (from_records rows), df. split; [exact Hdf |].
  pose proof (main_saves yf_info yf_major_holders interrupted to_excel to_csv
                tickers rows df Hrows Hcalm Hin_range Hdf) as Hmain.
  split; [exact Hmain |].
  intros Hexcel Hcsv. rewrite Hmain. unfold save. rewrite Hexcel. cbn [bind].
  rewrite Hcsv. reflexivity.
Qed.

Lemma run_completes_witness :
  exists raw_df clean_df : DataFrame,
    main (fun t => if String.eqb t "BBCA.JK"
                   then Ok [ ("shortName", VStr "Bank Central Asia");
                             ("marketCap", VInt 1500000000) ]
                   else Raise (RemoteError "not found"))
      (answers holders_both) undisturbed written2 written
      ["BBCA.JK"; "TLKM.JK"]
    = Ok (mkOutputs raw_df clean_df raw_df).
Proof.
  destruct (run_completes
              (fun t => if String.eqb t "BBCA.JK"
                        then Ok [ ("shortName", VStr "Bank Central Asia");
                                  ("marketCap", VInt 1500000000) ]
                        else Raise (RemoteError "not found"))
              (answers holders_both) undisturbed written2 written
              ["BBCA.JK"; "TLKM.JK"])
    as (raw_df & clean_df & _ & _ & Hok).
  - intros t e _. destruct (String.eqb t "BBCA.JK"); [discriminate |].
    intros [= <-]. reflexivity.
  - intros t e _ H. discriminate H.
  - intros t info _. destruct (String.eqb t "BBCA.JK"); [| discriminate].
    intros [= <-] k w [[= <- <-] | [[= <- <-] | []]]; reflexivity.
  - reflexivity.
  - exists raw_df, clean_df. apply Hok; reflexivity.
Defined.

(** X15. When the full-info lookup of every ticker fails with an
    [Exception] and no pause is interrupted, the major-holders lookup is
    not consulted and the run still builds its tables and reaches the
    writes: the raw table has the ticker column and no other, and in the
    cleaned table the Ticker column holds the tickers and every other
    published column holds [None] in every row.  When both writes return,
    the run ends with these tables as its outputs. *)
Theorem provider_down_gives_tickers_only
    (yf_info : string -> result dict)
    (yf_major_holders : string -> result (option DataFrame))
    (interrupted : string -> bool)
    (to_excel : DataFrame -> DataFrame -> result unit)
    (to_csv : DataFrame -> result unit)
    (tickers : list string) :
  (forall t, In t tickers ->
     exists e, yf_info t = Raise e /\ is_Exception e = true) ->
  (forall t, In t tickers -> interrupted t = false) ->
  exists clean_df : DataFrame,
    main yf_info yf_major_holders interrupted to_excel to_csv tickers
    = save to_excel to_csv
        (from_records (map (fun t => [("_ticker", VStr t)]) tickers)) clean_df
    /\ (to_excel
          (from_records (map (fun t => [("_ticker", VStr t)]) tickers)) clean_df
        = Ok tt ->
        to_csv (from_records (map (fun t => [("_ticker", VStr t)]) tickers))
        = Ok tt ->
        exists out : outputs,
          main yf_info yf_major_holders interrupted to_excel to_csv tickers
          = Ok out
          /\ raw_info_sheet out
             = from_records (map (fun t => [("_ticker", VStr t)]) tickers)
          /\ cleaned_info_sheet out = clean_df)
    /\ getitem clean_df "Ticker" = Some (map VStr tickers)
    /\ (forall col : string,
          In col published_columns -> col <> "Ticker" ->
          getitem clean_df col = Some (repeat VNone (List.length tickers))).
Proof.
  intros Hdown Hcalm.
  destruct (collect_returns yf_info yf_major_holders
              (fun row => exists t, row = [("_ticker", VStr t)]) tickers)
    with (raw_rows := @nil dict) as (rows & Hrows & Hall & Hshape).
  { intros t Hin. destruct (Hdown t Hin) as (e & E & Hcls).
    exists [("_ticker", VStr t)]. split; [| exists t; reflexivity].
    unfold row_of, fetch. rewrite E. cbn [bind try_except]. rewrite Hcls.
    reflexivity. }
  cbn [app] in Hrows.
  assert (rows = map (fun t => [("_ticker", VStr t)]) tickers) as Erows.
  { clear Hrows Hshape Hcalm. induction Hall as [| t row ts rs Hrow _ IH];
      [reflexivity |].
    simpl. rewrite <- IH by (intros t' Hin; exact (Hdown t' (or_intror Hin))).
    f_equal. destruct (Hdown t (or_introl eq_refl)) as (e & E & Hcls).
    unfold row_of, fetch in Hrow. rewrite E in Hrow.
    cbn [bind try_except] in Hrow. rewrite Hcls in Hrow. congruence. }
  assert (forall row, In row rows -> dict_get row "_ticker" <> None) as Htickers.
  { intros row Hin. rewrite Forall_forall in Hshape.
    destruct (Hshape row Hin) as [t ->]. discriminate. }
  assert (rows_in_range rows) as Hrange.
  { intros row k w Hrow Hkw.
    rewrite Forall_forall in Hshape. destruct (Hshape row Hrow) as [t ->].
    destruct Hkw as [[= <- <-] | []]. reflexivity. }
  pose proof (from_records_well_formed rows) as Hwf.
  pose proof (from_records_indexed rows Htickers) as Hidx.
  destruct (clean_info_returns (from_records rows) Hwf Hidx
              (from_records_in_range rows Hrange)) as [df Hdf].
  pose proof (main_saves yf_info yf_major_holders interrupted to_excel to_csv
                tickers rows df Hrows Hcalm Hrange Hdf) as Hmain.
  rewrite <- Erows. exists df. split; [exact Hmain |].
  split; [| split].
  - intros Hexcel Hcsv. exists (mkOutputs (from_records rows) df (from_records rows)).
    split; [| split; reflexivity].
    rewrite Hmain. unfold save. rewrite Hexcel. cbn [bind]. rewrite Hcsv.
    reflexivity.
  - rewrite (cleaned_ticker_column _ _ Hwf Hidx Hdf).
    rewrite (ticker_source yf_info yf_major_holders tickers rows Hall).
    reflexivity.
  - intros col Hcol Hne.
    assert (exists raw_key, In (col, raw_key) fields /\ raw_key <> "_ticker")
      as (raw_key & Hfield & Hkey).
    { unfold published_columns in Hcol. simpl in Hcol.
      destruct Hcol as [<- | Hcol]; [contradiction Hne; reflexivity |].
      unfold fields.
      repeat (destruct Hcol as [<- | Hcol];
              [eexists; split; [simpl; do 20 (try (left; reflexivity); right);
                                 contradiction
                               | discriminate] |]).
      contradiction. }
    replace (List.length tickers) with (nrows (from_records rows))
      by (rewrite nrows_from_records; symmetry; exact (Forall2_length Hall)).
    apply (cleaned_absent (from_records rows) df col raw_key Hwf Hidx Hdf Hfield).
    apply from_records_absent. intros row Hin.
    rewrite Forall_forall in Hshape. destruct (Hshape row Hin) as [t ->].
    simpl. apply String.eqb_neq in Hkey. rewrite Hkey. reflexivity.
Qed.

Lemma provider_down_gives_tickers_only_witness :
  exists out : outputs,
    main unreachable (fun _ => Raise KeyboardInterrupt) undisturbed written2
      written ["BBCA.JK"; "TLKM.JK"]
    = Ok out
    /\ getitem (cleaned_info_sheet out) "Ticker"
       = Some [VStr "BBCA.JK"; VStr "TLKM.JK"]
    /\ getitem (cleaned_info_sheet out) "Market Cap" = Some [VNone; VNone].
Proof.
  destruct (provider_down_gives_tickers_only unreachable
              (fun _ => Raise KeyboardInterrupt) undisturbed written2 written
              ["BBCA.JK"; "TLKM.JK"])
    as (clean_df & _ & Hout & Hticker & Hother).
  - intros t _. exists (RemoteError "connection refused").
    split; reflexivity.
  - reflexivity.
  - destruct (Hout eq_refl eq_refl) as (out & Hmain & _ & Hclean).
    exists out. split; [exact Hmain |]. rewrite Hclean.
    split; [exact Hticker |].
    apply Hother; [| discriminate].
    unfold published_columns. simpl. tauto.
Defined.

(** X16. From the loop to the writes, a run fails in three ways only.  A
    lookup of one of the tickers (the full-info lookup, or the
    major-holders lookup after it succeeded) or the pause after its turn
    was interrupted, and the run raises the interrupt.  Or the loop ended
    and its rows hold an int beyond the range of a float, and building or
    formatting the tables raises [OverflowError].  Or both tables were
    built and a write raised, the workbook first and the CSV after it,
    and the run raises what the write raised. *)
Theorem run_fails_in_three_ways
    (yf_info : string -> result dict)
    (yf_major_holders : string -> result (option DataFrame))
    (interrupted : string -> bool)
    (to_excel : DataFrame -> DataFrame -> result unit)
    (to_csv : DataFrame -> result unit)
    (tickers : list string) (e : exn) :
  main yf_info yf_major_holders interrupted to_excel to_csv tickers = Raise e ->
  (e = KeyboardInterrupt
   /\ exists t : string,
        In t tickers
        /\ (yf_info t = Raise e
            \/ (exists info, yf_info t = Ok info
                             /\ yf_major_holders t = Raise e)
            \/ interrupted t = true))
  \/ (e = OverflowError
      /\ exists raw_rows : list dict,
           collect yf_info yf_major_holders tickers [] = Ok raw_rows
           /\ ~ rows_in_range raw_rows)
  \/ (exists (raw_rows : list dict) (clean_df : DataFrame),
        collect yf_info yf_major_holders tickers [] = Ok raw_rows
        /\ clean_info (from_records raw_rows) = Ok clean_df
        /\ (to_excel (from_records raw_rows) clean_df = Raise e
            \/ (to_excel (from_records raw_rows) clean_df = Ok tt
                /\ to_csv (from_records raw_rows) = Raise e))).
Proof.
  rewrite <- main_body.
  destruct (loop yf_info yf_major_holders interrupted tickers [])
    as [raw_rows | e0] eqn:Hloop.
  2: { rewrite bind_Raise. intros [= <-]. left.
       exact (loop_interrupted _ _ _ _ _ _ Hloop). }
  apply loop_collect in Hloop as [Hrows _].
  pose proof (collect_have_tickers yf_info yf_major_holders tickers []
                raw_rows Hrows
                (fun row (Hin : In row []) => match Hin with end))
    as Htickers.
  rewrite bind_Ok.
  destruct (DataFrame_of raw_rows) as [raw_df | e1] eqn:Hraw.
  2: { rewrite bind_Raise. intros [= <-]. right. left.
       destruct (DataFrame_of_raises _ _ Hraw) as [-> Hrange].
       split; [reflexivity |]. exists raw_rows. split; [exact Hrows | exact Hrange]. }
  apply DataFrame_of_ok in Hraw. subst raw_df. rewrite bind_Ok.
  destruct (clean_info (from_records raw_rows)) as [df | e2] eqn:Hdf.
  2: { rewrite bind_Raise. intros [= <-]. right. left. split.
       - rewrite clean_info_unfold in Hdf.
         exact (ProjectorMore.apply_formatting_raises _ e2
                  (well_formed_project (from_records raw_rows))
                  (names_project (from_records raw_rows)) Hdf).
       - exists raw_rows. split; [exact Hrows |]. intros Hrange.
         destruct (clean_info_returns (from_records raw_rows)
                     (from_records_well_formed raw_rows)
                     (from_records_indexed raw_rows Htickers)
                     (from_records_in_range raw_rows Hrange)) as [df Hok].
         congruence. }
  rewrite bind_Ok. intros Hsave. right. right.
  exists raw_rows, df. split; [exact Hrows |]. split; [exact Hdf |].
  exact (save_raises _ _ _ _ _ Hsave).
Qed.

Lemma run_fails_in_three_ways_witness :
  main (fun t => Ok [("shortName", VStr t)]) (answers holders_both)
    undisturbed written2 disk_full ["BBCA.JK"]
  = Raise (RemoteError "no space left on device")
  /\ exists (raw_rows : list dict) (clean_df : DataFrame),
       collect (fun t => Ok [("shortName", VStr t)]) (answers holders_both)
         ["BBCA.JK"] [] = Ok raw_rows
       /\ clean_info (from_records raw_rows) = Ok clean_df
       /\ disk_full (from_records raw_rows)
          = Raise (RemoteError "no space left on device").
Proof.
  split; [vm_compute; reflexivity |].
  destruct (run_fails_in_three_ways
              (fun t => Ok [("shortName", VStr t)]) (answers holders_both)
              undisturbed written2 disk_full ["BBCA.JK"]
              (RemoteError "no space left on device"))
    as [[H _] | [[H _] | (raw_rows & clean_df & Hrows & Hclean & _)]].
  - vm_compute. reflexivity.
  - discriminate H.
  - discriminate H.
  - exists raw_rows, clean_df. split; [exact Hrows |].
    split; [exact Hclean | reflexivity].
Defined.

(** X18. Every cell of the Cleaned_Info sheet comes from the row of its
    ticker.  In the column of a field, the cell of the ticker at position
    [i] is [None] when no row of the run has the field.  Otherwise the
    raw table has a column for the field; its cell at that position is
    the value the row of the ticker has for the field, the missing-value
    float when that row lacks it, as it is or made a float by the
    conversion of the column; and the cell of the cleaned sheet is what
    the formatter of the column ([format_number], [format_percent], or
    nothing) makes of that cell of the raw table. *)
Theorem cleaned_cell_of_ticker
    (yf_info : string -> result dict)
    (yf_major_holders : string -> result (option DataFrame))
    (interrupted : string -> bool)
    (to_excel : DataFrame -> DataFrame -> result unit)
    (to_csv : DataFrame -> result unit)
    (tickers : list string) (out : outputs)
    (i : nat) (t : string) (row : dict) (col raw_key : string) :
  main yf_info yf_major_holders interrupted to_excel to_csv tickers = Ok out ->
  nth_error tickers i = Some t ->
  row_of yf_info yf_major_holders t = Ok row ->
  In (col, raw_key) fields ->
  exists (s : Series) (c : value),
    getitem (cleaned_info_sheet out) col = Some s
    /\ nth_error s i = Some c
    /\ match getitem (raw_info_sheet out) raw_key with
       | Some column =>
         exists v : value,
           nth_error column i = Some v
           /\ (v = raw_cell raw_key row \/ v = to_float (raw_cell raw_key row))
           /\ formatter_of col v = Ok c
       | None => c = VNone
       end.
Proof.
  intros H Hi Hrow Hfield.
  destruct (main_rows _ _ _ _ _ tickers out H)
    as (rows & Hall & -> & Hwf & Hidx & Hclean).
  destruct (Forall2_nth_error _ _ _ _ _ Hall i t Hi) as (row' & Hi' & Hrow').
  assert (row' = row) as -> by congruence.
  destruct (cleaned_column (from_records rows) (cleaned_info_sheet out) col
              raw_key Hwf Hidx Hclean Hfield) as (s & Hs & Hcells).
  unfold source in Hcells.
  destruct (getitem (from_records rows) raw_key) as [column |] eqn:E.
  - assert (exists v, nth_error column i = Some v
                      /\ (v = raw_cell raw_key row
                          \/ v = to_float (raw_cell raw_key row)))
      as (v & Hv & Hshape).
    { rewrite (raw_cells rows raw_key column E).
      destruct (unify_cases (map (raw_cell raw_key) rows)) as [-> | ->].
      - exists (raw_cell raw_key row).
        split; [apply map_nth_error; exact Hi' | left; reflexivity].
      - exists (to_float (raw_cell raw_key row)). split; [| right; reflexivity].
        apply map_nth_error, map_nth_error. exact Hi'. }
    destruct (Forall2_nth_error _ _ _ _ _ Hcells i v Hv) as (c & Hc & Hfmt).
    exists s, c. split; [exact Hs |]. split; [exact Hc |].
    exists v. split; [exact Hv |]. split; [exact Hshape | exact Hfmt].
  - assert (nth_error (repeat VNone (nrows (from_records rows))) i = Some VNone)
      as Hnone.
    { apply nth_error_repeat. rewrite nrows_from_records.
      apply nth_error_Some. rewrite Hi'. discriminate. }
    destruct (Forall2_nth_error _ _ _ _ _ Hcells i _ Hnone) as (c & Hc & Hfmt).
    exists s, c. split; [exact Hs |]. split; [exact Hc |].
    rewrite formatter_of_None in Hfmt. congruence.
Qed.

Lemma cleaned_cell_of_ticker_witness :
  exists (out : outputs) (s : Series) (c : value),
    main (fun t => if String.eqb t "BBCA.JK"
                   then Ok [ ("shortName", VStr "Bank Central Asia");
                             ("marketCap", VInt 1500000000) ]
                   else Raise (RemoteError "not found"))
      (answers holders_both) undisturbed written2 written
      ["BBCA.JK"; "TLKM.JK"] = Ok out
    /\ getitem (cleaned_info_sheet out) "Market Cap" = Some s
    /\ nth_error s 0 = Some c
    /\ exists v : value,
         nth_error [VFloat f1500000000; NaN] 0 = Some v
         /\ (v = VInt 1500000000 \/ v = to_float (VInt 1500000000))
         /\ format_number v = Ok c.
Proof.
  eassert (main (fun t => if String.eqb t "BBCA.JK"
                          then Ok [ ("shortName", VStr "Bank Central Asia");
                                    ("marketCap", VInt 1500000000) ]
                          else Raise (RemoteError "not found"))
             (answers holders_both) undisturbed written2 written
             ["BBCA.JK"; "TLKM.JK"] = Ok _) as Hmain
    by (vm_compute; reflexivity).
  destruct (cleaned_cell_of_ticker _ _ _ _ _ _ _ 0 "BBCA.JK"
              [ ("shortName", VStr "Bank Central Asia");
                ("marketCap", VInt 1500000000);
                ("_ticker", VStr "BBCA.JK");
                ("Insider (%)", VFloat f5);
                ("Institutional (%)", VFloat f70);
                ("Float / Retail (%)", VFloat f25) ]
              "Market Cap" "marketCap" Hmain)
    as (s & c & Hs & Hc & Hcell).
  - reflexivity.
  - vm_compute. reflexivity.
  - unfold fields. simpl. tauto.
  - eexists. exists s, c. split; [exact Hmain |]. split; [exact Hs |].
    split; [exact Hc |]. exact Hcell.
Defined.

End PipelineMore.
